(** * cmdstanpy/utils.py: the Rdump codec, the Stan CSV scanner and the
       path of the installation

    A shallow embedding of the text-processing functions of
    [cmdstanpy/utils.py], of [read_rdump_metric] and of the functions
    that find the CmdStan installation, and the properties proved about
    them.

    Conventions of the embedding.
    - A Python [str] is a [string]; the builtin string methods used by the
      source ([strip], [split], [startswith], ...) are the functions of
      module [PyStr], restricted to ASCII text.
    - A Python exception is a value of [exn]; a function that can raise
      returns a [result].
    - Python [int] is [Z].  A Python [float] is modelled by the decimal
      number its literal denotes ([pyfloat]): rounding to binary64 is not
      part of the model, the source performs no arithmetic on floats.  An
      integer converted to float keeps its value, as Python does up to
      [2**53] ([CodecSpec.exact_int]).  [int] and [float] of a text strip
      it as [str.strip] does, where Python's own refuse a text with one
      of the separators 0x1c to 0x1f at an end; no statement rests on
      the difference.  The statements about [reshape] take its
      dimensions as naturals.
    - A [dict] that is only looked up is a [gmap string _]; a [dict] that
      is iterated ([data.items()]) is the list of its items in order.
    - A text file is the list of its lines and a cursor ([file]).  Lines
      end at the newline.  Python, reading in text mode, also ends a
      line at a carriage return ([PyStr.readlines_text_mode]); the two
      readings agree on a text without carriage returns
      ([Newlines.readlines_text_mode_no_cr]), and the statements about
      the Rdump decoder whose truth depends on it ask for such a text
      ([CodecSpec.no_cr]).
    - The operating system is what the source asks of it ([Install.os]):
      the environment, the tests on paths and the listing of a
      directory, on a POSIX system.

    Part I holds the definitions, Part II the lemmas and theorems. *)

From Stdlib Require Import ZArith NArith QArith Qround Ascii String List Lia.
From Stdlib Require Import DecimalString DecimalN DecimalZ.
From stdpp Require Import gmap strings list fin_maps.

Local Open Scope nat_scope.

(* ===================================================================== *)
(** * Part I: definitions *)
(* ===================================================================== *)

(** ** Exceptions and results *)

Inductive exn : Type :=
| ValueError (msg : string)
| TypeError (msg : string)
| IndexError (msg : string)
| KeyError (key : string)
| ZeroDivisionError (msg : string).

Inductive result (A : Type) : Type :=
| Ok (a : A)
| Raise (e : exn).
Arguments Ok {A} a.
Arguments Raise {A} e.

Definition bind {A B : Type} (r : result A) (k : A -> result B) : result B :=
  match r with
  | Ok a => k a
  | Raise e => Raise e
  end.

Notation "'do' x <- r ; k" := (bind r (fun x => k))
  (at level 10, x pattern, r at level 100, k at level 200).

Definition is_Ok {A : Type} (r : result A) : bool :=
  match r with Ok _ => true | Raise _ => false end.

Definition raises {A : Type} (r : result A) : Prop :=
  exists e, r = Raise e.

(** [[f(x) for x in l]] where [f] can raise: the first failure is raised. *)
Fixpoint mapR {A B : Type} (f : A -> result B) (l : list A) : result (list B) :=
  match l with
  | [] => Ok []
  | x :: l' => do y <- f x; do ys <- mapR f l'; Ok (y :: ys)
  end.

(** ** Python string methods *)

Module PyStr.

Definition nl : ascii := "010"%char.

(** [c.isspace()] on ASCII: TAB..CR, FS..US and the space. *)
Definition isspace (c : ascii) : bool :=
  let n := nat_of_ascii c in
  ((9 <=? n) && (n <=? 13)) || ((28 <=? n) && (n <=? 32)).

Definition is_digit (c : ascii) : bool :=
  let n := nat_of_ascii c in (48 <=? n) && (n <=? 57).

Definition digit_val (c : ascii) : N := N.of_nat (nat_of_ascii c - 48).

(** [c.lower()] on ASCII. *)
Definition lower_char (c : ascii) : ascii :=
  let n := nat_of_ascii c in
  if (65 <=? n) && (n <=? 90) then ascii_of_nat (n + 32) else c.

Fixpoint lower (s : string) : string :=
  match s with
  | EmptyString => EmptyString
  | String c s' => String (lower_char c) (lower s')
  end.

(** [s.startswith(p)] *)
Definition startswith (p s : string) : bool := String.prefix p s.

(** [s.endswith(p)] *)
Definition endswith (p s : string) : bool :=
  let n := String.length s in
  let m := String.length p in
  (m <=? n) && String.eqb (String.substring (n - m) m s) p.

(** [c in chars] *)
Fixpoint char_in (c : ascii) (chars : string) : bool :=
  match chars with
  | EmptyString => false
  | String d chars' => Ascii.eqb c d || char_in c chars'
  end.

Fixpoint lstrip_with (p : ascii -> bool) (s : string) : string :=
  match s with
  | EmptyString => EmptyString
  | String c s' => if p c then lstrip_with p s' else s
  end.

Fixpoint rstrip_with (p : ascii -> bool) (s : string) : string :=
  match s with
  | EmptyString => EmptyString
  | String c s' =>
      match rstrip_with p s' with
      | EmptyString => if p c then EmptyString else String c EmptyString
      | t => String c t
      end
  end.

(** [s.strip()] *)
Definition strip (s : string) : string :=
  rstrip_with isspace (lstrip_with isspace s).

(** [s.lstrip(chars)] *)
Definition lstrip (chars : string) (s : string) : string :=
  lstrip_with (fun c => char_in c chars) s.

(** [sub in s] *)
Fixpoint contains (sub s : string) : bool :=
  String.prefix sub s ||
  match s with
  | EmptyString => false
  | String _ s' => contains sub s'
  end.

(** [s.split(sep)] for a non-empty separator: the pieces between the
    occurrences of [sep], found from left to right without overlap.
    [skip] counts the characters of a matched separator still to pass,
    [cur] is the piece being read. *)
Fixpoint split_go (sep : string) (skip : nat) (cur : string) (s : string)
  : list string :=
  match s with
  | EmptyString => [cur]
  | String c s' =>
      match skip with
      | S k => split_go sep k cur s'
      | O =>
          if String.prefix sep s
          then cur :: split_go sep (String.length sep - 1) EmptyString s'
          else split_go sep 0 (cur +:+ String c EmptyString) s'
      end
  end.

Definition split (sep s : string) : list string :=
  split_go sep 0 EmptyString s.

(** [sep.join(l)] *)
Fixpoint join (sep : string) (l : list string) : string :=
  match l with
  | [] => EmptyString
  | [x] => x
  | x :: l' => x +:+ sep +:+ join sep l'
  end.

(** [s.replace(old, new)] for a one-character [old]. *)
Fixpoint replace (old : ascii) (new : string) (s : string) : string :=
  match s with
  | EmptyString => EmptyString
  | String c s' =>
      if Ascii.eqb c old then new +:+ replace old new s'
      else String c (replace old new s')
  end.

(** [s[i:-j]] *)
Definition slice_inner (i j : nat) (s : string) : string :=
  String.substring i (String.length s - i - j) s.

(** [fp.readlines()] on the whole text: the lines with their newline,
    the last one possibly without.  The text is cut at the newlines,
    which is how Python reads a text without carriage returns; see
    [readlines_text_mode] below for the others. *)
Fixpoint readlines_go (cur : string) (s : string) : list string :=
  match s with
  | EmptyString =>
      match cur with EmptyString => [] | _ => [cur] end
  | String c s' =>
      if Ascii.eqb c nl
      then (cur +:+ String nl EmptyString) :: readlines_go EmptyString s'
      else readlines_go (cur +:+ String c EmptyString) s'
  end.

Definition readlines (text : string) : list string :=
  readlines_go EmptyString text.

(** The carriage return. *)
Definition cr : ascii := "013"%char.

(** The lines of a file opened in text mode, as Python reads them
    (universal newlines): a line ends at a newline, at a carriage return
    or at the pair of them, and its ending is given as a newline. *)
Fixpoint readlines_text_mode_go (cur : string) (s : string) : list string :=
  match s with
  | EmptyString =>
      match cur with EmptyString => [] | _ => [cur] end
  | String c s' =>
      if Ascii.eqb c nl
      then (cur +:+ String nl EmptyString)
             :: readlines_text_mode_go EmptyString s'
      else if Ascii.eqb c cr
      then match s' with
           | String c' s'' =>
               if Ascii.eqb c' nl
               then (cur +:+ String nl EmptyString)
                      :: readlines_text_mode_go EmptyString s''
               else (cur +:+ String nl EmptyString)
                      :: readlines_text_mode_go EmptyString s'
           | EmptyString => [cur +:+ String nl EmptyString]
           end
      else readlines_text_mode_go (cur +:+ String c EmptyString) s'
  end.

Definition readlines_text_mode (text : string) : list string :=
  readlines_text_mode_go EmptyString text.

(** Every character of [s] satisfies [P]. *)
Fixpoint all_chars (P : ascii -> bool) (s : string) : bool :=
  match s with
  | EmptyString => true
  | String c s' => P c && all_chars P s'
  end.

End PyStr.

(** ** Python numbers: [int], [float], [str] and the parsing builtins *)

Module PyNum.
Import PyStr.

(** A float is the decimal [(-1)^neg * m * 10^e], or an infinity, or a
    NaN.  Values are kept canonical by [fnorm]: [m] has no trailing
    zero digit, and zero has exponent 0. *)
Inductive pyfloat : Type :=
| FFin (neg : bool) (m : N) (e : Z)
| FInf (neg : bool)
| FNan.

Inductive num : Type :=
| NInt (z : Z)
| NFloat (f : pyfloat).

Fixpoint strip_zeros (fuel : nat) (m : N) (e : Z) : N * Z :=
  match fuel with
  | O => (m, e)
  | S fuel' =>
      if (N.eqb m 0) then (0%N, 0%Z)
      else if N.eqb (m mod 10) 0 then strip_zeros fuel' (m / 10)%N (e + 1)%Z
      else (m, e)
  end.

Definition fnorm (neg : bool) (m : N) (e : Z) : pyfloat :=
  let '(m', e') := strip_zeros (S (N.size_nat m)) m e in
  FFin neg m' e'.

(** [float(z)] for an [int] *)
Definition float_of_Z (z : Z) : pyfloat :=
  fnorm (Z.ltb z 0) (Z.abs_N z) 0.

Definition to_float (x : num) : pyfloat :=
  match x with
  | NInt z => float_of_Z z
  | NFloat f => f
  end.

(** *** Printing *)

Definition str_N (n : N) : string := NilEmpty.string_of_uint (N.to_uint n).

Definition str_nat (n : nat) : string := str_N (N.of_nat n).

(** [str(z)] for an [int] *)
Definition str_Z (z : Z) : string := NilEmpty.string_of_int (Z.to_int z).

Fixpoint zeros (n : nat) : string :=
  match n with O => EmptyString | S n' => String "0"%char (zeros n') end.

(** [str(f)] for a [float]: the digits [ds] of the mantissa and the
    position [decpt] of the decimal point relative to their start;
    positional notation for [-4 < decpt <= 16], exponent notation with
    at least two exponent digits otherwise. *)
Definition str_float (f : pyfloat) : string :=
  match f with
  | FNan => "nan"
  | FInf neg => if neg then "-inf" else "inf"
  | FFin neg m e =>
      (if neg then "-" else "") +:+
      (if N.eqb m 0 then "0.0" else
       let ds := str_N m in
       let n := String.length ds in
       let decpt := (Z.of_nat n + e)%Z in
       if ((-4 <? decpt) && (decpt <=? 16))%Z then
         if (decpt <=? 0)%Z then
           "0." +:+ zeros (Z.to_nat (- decpt)) +:+ ds
         else if (Z.of_nat n <=? decpt)%Z then
           ds +:+ zeros (Z.to_nat (decpt - Z.of_nat n)) +:+ ".0"
         else
           String.substring 0 (Z.to_nat decpt) ds +:+ "." +:+
           String.substring (Z.to_nat decpt) (n - Z.to_nat decpt) ds
       else
         let ex := (decpt - 1)%Z in
         let xs := str_N (Z.abs_N ex) in
         String.substring 0 1 ds +:+
         (if n =? 1 then "" else "." +:+ String.substring 1 (n - 1) ds) +:+
         "e" +:+ (if (ex <? 0)%Z then "-" else "+") +:+
         (if String.length xs =? 1 then "0" +:+ xs else xs))
  end.

Definition str_num (x : num) : string :=
  match x with
  | NInt z => str_Z z
  | NFloat f => str_float f
  end.

(** [str(t)] for a tuple of ints *)
Definition str_tuple (t : list nat) : string :=
  match t with
  | [] => "()"
  | [d] => "(" +:+ str_nat d +:+ ",)"
  | _ => "(" +:+ join ", " (map str_nat t) +:+ ")"
  end.

(** *** Parsing *)

(** The rest of a [digitpart ::= digit (["_"] digit)*] after its first
    digit: value so far, digits so far, and what follows. *)
Fixpoint digitpart_tail (s : string) (acc : N) (cnt : nat)
  : N * nat * string :=
  match s with
  | EmptyString => (acc, cnt, s)
  | String c s' =>
      if is_digit c then
        digitpart_tail s' (10 * acc + digit_val c)%N (S cnt)
      else if Ascii.eqb c "_"%char then
        match s' with
        | String d s'' =>
            if is_digit d
            then digitpart_tail s'' (10 * acc + digit_val d)%N (S cnt)
            else (acc, cnt, s)
        | EmptyString => (acc, cnt, s)
        end
      else (acc, cnt, s)
  end.

Definition digitpart (s : string) : option (N * nat * string) :=
  match s with
  | String c s' =>
      if is_digit c then Some (digitpart_tail s' (digit_val c) 1) else None
  | EmptyString => None
  end.

(** An optional sign: is it negative, and what follows. *)
Definition take_sign (s : string) : bool * string :=
  match s with
  | String "-"%char s' => (true, s')
  | String "+"%char s' => (false, s')
  | _ => (false, s)
  end.

(** [int(s)] in base 10: surrounding whitespace, a sign, a digitpart. *)
Definition int_of_string (s : string) : option Z :=
  let '(neg, t) := take_sign (strip s) in
  match digitpart t with
  | Some (v, _, EmptyString) =>
      Some (if neg then (- Z.of_N v)%Z else Z.of_N v)
  | _ => None
  end.

(** The exponent of a float literal: [("e"|"E") [sign] digitpart] up to
    the end of the text, or nothing. *)
Definition take_exponent (s : string) : option Z :=
  match s with
  | EmptyString => Some 0%Z
  | String c s' =>
      if Ascii.eqb (lower_char c) "e"%char then
        let '(neg, t) := take_sign s' in
        match digitpart t with
        | Some (v, _, EmptyString) =>
            Some (if neg then (- Z.of_N v)%Z else Z.of_N v)
        | _ => None
        end
      else None
  end.

(** [pointfloat | exponentfloat] without its sign: mantissa and
    exponent. *)
Definition float_body (s : string) : option (N * Z) :=
  match digitpart s with
  | Some (iv, _, rest) =>
      match rest with
      | String "."%char rest' =>
          match digitpart rest' with
          | Some (fv, fcnt, rest'') =>
              match take_exponent rest'' with
              | Some ex =>
                  Some ((iv * 10 ^ N.of_nat fcnt + fv)%N,
                        (ex - Z.of_nat fcnt)%Z)
              | None => None
              end
          | None =>
              match take_exponent rest' with
              | Some ex => Some (iv, ex)
              | None => None
              end
          end
      | _ =>
          match take_exponent rest with
          | Some ex => Some (iv, ex)
          | None => None
          end
      end
  | None =>
      match s with
      | String "."%char rest' =>
          match digitpart rest' with
          | Some (fv, fcnt, rest'') =>
              match take_exponent rest'' with
              | Some ex => Some (fv, (ex - Z.of_nat fcnt)%Z)
              | None => None
              end
          | None => None
          end
      | _ => None
      end
  end.

(** [float(s)] *)
Definition float_of_string (s : string) : option pyfloat :=
  let '(neg, t) := take_sign (strip s) in
  let l := lower t in
  if String.eqb l "inf" || String.eqb l "infinity" then Some (FInf neg)
  else if String.eqb l "nan" then Some FNan
  else
    match float_body t with
    | Some (m, e) => Some (fnorm neg m e)
    | None => None
    end.

(** The builtins as the source calls them. *)
Definition py_int (s : string) : result Z :=
  match int_of_string s with
  | Some z => Ok z
  | None => Raise (ValueError "invalid literal for int() with base 10")
  end.

Definition py_float (s : string) : result pyfloat :=
  match float_of_string s with
  | Some f => Ok f
  | None => Raise (ValueError "could not convert string to float")
  end.

End PyNum.

(** ** NumPy arrays *)

Module Numpy.
Import PyNum.

(** An array is its shape and its elements in row-major (C) order:
    the element at index [(i0, .., ik)] is [data !! ravel_C shape idx]. *)
Record ndarray : Type := { shape : list nat; data : list num }.

Global Instance num_inhabited : Inhabited num := populate (NInt 0).

Definition prod (l : list nat) : nat := fold_right Nat.mul 1 l.

(** [a.size] *)
Definition size (a : ndarray) : nat := prod (shape a).

(** Every array NumPy builds holds [size] elements. *)
Definition wf_ndarray (a : ndarray) : Prop := length (data a) = size a.

(** Row-major order: the last index varies fastest. *)
Fixpoint ravel_C (shp idx : list nat) : nat :=
  match shp, idx with
  | _ :: ds, i :: idx' => i * prod ds + ravel_C ds idx'
  | _, _ => 0
  end.

Fixpoint unravel_C (shp : list nat) (p : nat) : list nat :=
  match shp with
  | [] => []
  | _ :: ds => (p / prod ds) :: unravel_C ds (p mod prod ds)
  end.

(** Column-major (Fortran) order: the first index varies fastest. *)
Fixpoint ravel_F (shp idx : list nat) : nat :=
  match shp, idx with
  | d :: ds, i :: idx' => i + d * ravel_F ds idx'
  | _, _ => 0
  end.

Fixpoint unravel_F (shp : list nat) (p : nat) : list nat :=
  match shp with
  | [] => []
  | d :: ds => (p mod d) :: unravel_F ds (p / d)
  end.

(** [a.T.flat]: the elements of the transpose in row-major order, that
    is the elements of [a] in column-major order. *)
Definition T_flat (a : ndarray) : list num :=
  map (fun p => data a !!! ravel_C (shape a) (unravel_F (shape a) p))
      (seq 0 (size a)).

(** [np.array(vals)] for a flat list *)
Definition array1 (vals : list num) : ndarray :=
  {| shape := [length vals]; data := vals |}.

Definition is_float (x : num) : bool :=
  match x with NFloat _ => true | NInt _ => false end.

(** [np.asarray(l)] for a flat list of numbers: one float among the
    items makes every item a float. *)
Definition asarray (l : list num) : ndarray :=
  array1 (if existsb is_float l then map (fun x => NFloat (to_float x)) l
          else l).

(** The shape [reshape] gives an array of [n] elements for the
    requested [dims]; one dimension may be [-1] and is inferred. *)
Definition resolve_dims (dims : list Z) (n : nat) : result (list nat) :=
  if existsb (fun d => (d <? -1)%Z) dims then
    Raise (ValueError "negative dimensions not allowed")
  else
    match length (filter (fun d => d = (-1)%Z) dims) with
    | 0 =>
        let shp := map Z.to_nat dims in
        if prod shp =? n then Ok shp
        else Raise (ValueError "cannot reshape array")
    | 1 =>
        let known :=
          prod (map Z.to_nat (filter (fun d => d <> (-1)%Z) dims)) in
        if (known =? 0) || negb (n mod known =? 0) then
          Raise (ValueError "cannot reshape array")
        else
          Ok (map (fun d => if (d =? -1)%Z then n / known else Z.to_nat d)
                  dims)
    | _ => Raise (ValueError "can only specify one unknown dimension")
    end.

(** [np.array(vals).reshape(dims, order='F')]: [vals] is read in
    column-major order. *)
Definition reshape_F (vals : list num) (dims : list Z) : result ndarray :=
  do shp <- resolve_dims dims (length vals);
  Ok {| shape := shp;
        data := map (fun p => vals !!! ravel_F shp (unravel_C shp p))
                    (seq 0 (prod shp)) |}.

End Numpy.

(** ** The Rdump codec: [_rdump_array], [rdump], [rload],
       [parse_rdump_value] *)

Module Rdump.
Import PyStr PyNum Numpy.

(** The values [rdump] is given and [rload] returns: a number, a NumPy
    array, or (for [rdump]) a list of numbers. *)
Inductive pyval : Type :=
| PNum (x : num)
| PArr (a : ndarray)
| PList (l : list num).

(** [str(l)] for a list of numbers *)
Definition str_list (l : list num) : string :=
  "[" +:+ join ", " (map str_num l) +:+ "]".

Definition _rdump_array (key : string) (val : ndarray) : string :=
  let c := "c(" +:+ join ", " (map str_num (T_flat val)) +:+ ")" in
  if decide ([size val] = shape val) then
    key +:+ " <- " +:+ c
  else
    let dim := ".Dim = c" +:+ str_tuple (shape val) in
    key +:+ " <- structure(" +:+ c +:+ ", " +:+ dim +:+ ")".

(** The line [rdump] writes for one item.  In the last branch
    [val.flat[0]] is the first element of an array, raises [IndexError]
    on an empty one, and raises [AttributeError] (caught) on a list or
    a Python number, which is then formatted as it is. *)
Definition rdump_line (key : string) (val : pyval) : result string :=
  match val with
  | PArr a =>
      if 1 <? size a then Ok (_rdump_array key a)
      else
        match data a with
        | x :: _ => Ok (key +:+ " <- " +:+ str_num x)
        | [] => Raise (IndexError "index 0 is out of bounds")
        end
  | PList l =>
      if 1 <? length l then Ok (_rdump_array key (asarray l))
      else Ok (key +:+ " <- " +:+ str_list l)
  | PNum x => Ok (key +:+ " <- " +:+ str_num x)
  end.

(** [rdump]: the text written to [path], for the items of [data] in
    their order. *)
Fixpoint rdump (data : list (string * pyval)) : result string :=
  match data with
  | [] => Ok ""
  | (key, val) :: data' =>
      do line <- rdump_line key val;
      do rest <- rdump data';
      Ok (line +:+ String nl "" +:+ rest)
  end.

(** *** The pattern of [parse_rdump_value] *)

(** Pass the literal [p] at the start of [s]. *)
Definition expect (p s : string) : option string :=
  if String.prefix p s
  then Some (String.substring (String.length p)
                              (String.length s - String.length p) s)
  else None.

(** The longest run without a closing parenthesis, and what follows. *)
Fixpoint span_not_rparen (s : string) : string * string :=
  match s with
  | EmptyString => (EmptyString, EmptyString)
  | String c s' =>
      if Ascii.eqb c ")"%char then (EmptyString, s)
      else let '(a, b) := span_not_rparen s' in (String c a, b)
  end.

Definition skip_space (s : string) : string := lstrip_with isspace s.

(** The optional group of the pattern: a comma, [.Dim = c(] with any
    whitespace between its tokens, the group [dims] (a run without a
    closing parenthesis), whitespace, and a closing parenthesis. *)
Definition dim_group (s : string) : option (string * string) :=
  r ← expect "," s;
  r ← expect ".Dim" (skip_space r);
  r ← expect "=" (skip_space r);
  r ← expect "c" (skip_space r);
  r ← expect "(" (skip_space r);
  let '(dims, r) := span_not_rparen r in
  r ← expect ")" r;
  Some (dims, r).

(** [pat.match(rhs)]: the groups [vals] and [dims] of the match at the
    start of [rhs].  The pattern is [structure(], whitespace, [c(], the
    group [vals] (a run without a closing parenthesis), a closing
    parenthesis, optionally the group of [dim_group], and a closing
    parenthesis.  Every repetition is followed by a character it cannot
    match, so the greedy match is the only candidate; the optional
    group is tried first and given up when the final parenthesis does
    not follow. *)
Definition match_structure (rhs : string) : option (string * option string) :=
  r ← expect "structure(" rhs;
  r ← expect "c(" (skip_space r);
  let '(vals, r) := span_not_rparen r in
  r ← expect ")" r;
  let without_dims :=
    match expect ")" r with Some _ => Some (vals, None) | None => None end in
  match dim_group r with
  | Some (dims, r') =>
      match expect ")" r' with
      | Some _ => Some (vals, Some dims)
      | None => without_dims
      end
  | None => without_dims
  end.

(** [except TypeError: raise ValueError('bad value in Rdump file: ...')] *)
Definition catch_TypeError (rhs : string) (r : result pyval) : result pyval :=
  match r with
  | Raise (TypeError _) =>
      Raise (ValueError ("bad value in Rdump file: " +:+ rhs))
  | _ => r
  end.

Definition parse_rdump_value (rhs : string) : result pyval :=
  catch_TypeError rhs
    (if startswith "structure" rhs then
       match match_structure rhs with
       | None => Raise (ValueError rhs)
       | Some (vals_text, dims_text) =>
           do vals <- mapR py_float (split "," vals_text);
           match dims_text with
           | Some dims_text =>
               do dims <- mapR py_int (split "," dims_text);
               do val <- reshape_F (map NFloat vals) dims;
               Ok (PArr val)
           | None => Ok (PArr (array1 (map NFloat vals)))
           end
       end
     else if startswith "c(" rhs && endswith ")" rhs then
       do vals <- mapR py_float (split "," (slice_inner 2 1 rhs));
       Ok (PArr (array1 (map NFloat vals)))
     else if contains "." rhs || contains "e" rhs then
       do f <- py_float rhs; Ok (PNum (NFloat f))
     else
       do z <- py_int rhs; Ok (PNum (NInt z))).

(** *** [rload] *)

(** [while idx < len(lines) and '<-' not in lines[idx]: idx += 1],
    with [rest = lines[idx:]]. *)
Fixpoint next_marker (rest : list string) (idx : nat) : nat :=
  match rest with
  | [] => idx
  | l :: rest' => if contains "<-" l then idx else next_marker rest' (S idx)
  end.

(** [lines[i:j]] *)
Definition slice {A : Type} (l : list A) (i j : nat) : list A :=
  take (j - i) (drop i l).

(** The body of the main loop once [next_var] is known: cut the
    statement [lines[start_idx:next_var]] at the marker and store its
    value. *)
Definition rload_store (lines : list string) (start_idx next_var : nat)
    (data_dict : gmap string pyval) : result (gmap string pyval) :=
  let var_data := replace nl "" (join "" (slice lines start_idx next_var)) in
  match map strip (split "<-" var_data) with
  | [lhs; rhs] =>
      let lhs := replace "034"%char "" lhs in
      let rhs := replace "L"%char "" rhs in
      do val <- parse_rdump_value rhs;
      Ok (<[lhs := val]> data_dict)
  | _ => Raise (ValueError "wrong number of values to unpack (expected 2)")
  end.

(** The main loop, with [rest = lines[idx:]].  A line without the
    marker is a step of the inner [while]; a line with the marker, or
    the end of the lines, ends the inner [while] with [next_var = idx],
    and the pending statement is stored. *)
Fixpoint rload_loop (lines rest : list string) (start_idx idx : nat)
    (data_dict : gmap string pyval) : result (gmap string pyval) :=
  match rest with
  | [] => rload_store lines start_idx idx data_dict
  | l :: rest' =>
      if contains "<-" l then
        do data_dict <- rload_store lines start_idx idx data_dict;
        rload_loop lines rest' idx (S idx) data_dict
      else rload_loop lines rest' start_idx (S idx) data_dict
  end.

(** [rload] on the text of the file: [None], or the dictionary. *)
Definition rload (text : string) : result (option (gmap string pyval)) :=
  let lines := readlines text in
  let idx := next_marker lines 0 in
  if idx =? length lines then Ok None
  else
    let start_idx := idx in
    let idx := S idx in
    do data_dict <- rload_loop lines (drop idx lines) start_idx idx ∅;
    Ok (Some data_dict).

End Rdump.

(** ** The Stan CSV scanner: [scan_config], [scan_column_names],
       [scan_warmup], [scan_metric], [scan_draws], [scan_stan_csv],
       [check_csv] *)

Module StanCsv.
Import PyStr PyNum.

(** The values held by the dictionary of a scan. *)
Inductive pyobj : Type :=
| VStr (s : string)
| VInt (z : Z)
| VTuple (t : list string)
| VArray (a : list pyfloat)
| VNone.

(** An open text file: its lines, each with its newline, and the index
    of the line the cursor is at.  The source moves the cursor with
    [readline] and with [seek] to a position [tell] gave, so the cursor
    is always at the start of a line. *)
Record file : Type := { f_lines : list string; f_pos : nat }.

Definition open (text : string) : file :=
  {| f_lines := readlines text; f_pos := 0 |}.

Definition tell (fp : file) : nat := f_pos fp.

Definition seek (fp : file) (pos : nat) : file :=
  {| f_lines := f_lines fp; f_pos := pos |}.

(** [fp.readline()]: the line at the cursor, or [''] at the end. *)
Definition readline (fp : file) : string * file :=
  match f_lines fp !! f_pos fp with
  | Some l => (l, seek fp (S (f_pos fp)))
  | None => ("", fp)
  end.

Definition tab : ascii := "009"%char.
Definition dquote : ascii := "034"%char.

(** The characters of [' #\t'] *)
Definition comment_chars : string :=
  String " "%char (String "#"%char (String tab EmptyString)).

(** The body of the loop of [scan_config] for one comment line. *)
Definition scan_config_line (line : string)
    (config_dict : gmap string pyobj) : gmap string pyobj :=
  if negb (endswith "(Default)" line) then
    let line := lstrip comment_chars line in
    let key_val := split "=" line in
    match key_val with
    | [k; v] =>
        if String.eqb (strip k) "file" && negb (endswith "csv" v) then
          <["data_file" := VStr (strip v)]> config_dict
        else if negb (String.eqb (strip k) "file") then
          <[strip k := VStr (strip v)]> config_dict
        else config_dict
    | _ => config_dict
    end
  else config_dict.

(** The loop of [scan_config], with [rest] the lines from [cur_pos]
    on: the [readline] before the loop and the one that ends its body
    are the head of the recursion; at the end of the file [readline]
    gives [''] and the loop stops. *)
Fixpoint scan_config_loop (rest : list string) (cur_pos : nat)
    (config_dict : gmap string pyobj) (lineno : nat)
  : nat * gmap string pyobj * nat :=
  match rest with
  | [] => (cur_pos, config_dict, lineno)
  | l :: rest' =>
      let line := strip l in
      if (0 <? String.length line) && startswith "#" line then
        scan_config_loop rest' (S cur_pos)
          (scan_config_line line config_dict) (S lineno)
      else (cur_pos, config_dict, lineno)
  end.

Definition scan_config (fp : file) (config_dict : gmap string pyobj)
    (lineno : nat) : file * gmap string pyobj * nat :=
  let '(cur_pos, config_dict, lineno) :=
    scan_config_loop (drop (tell fp) (f_lines fp)) (tell fp)
                     config_dict lineno in
  (seek fp cur_pos, config_dict, lineno).

Fixpoint scan_warmup_loop (rest : list string) (cur_pos lineno : nat)
  : nat * nat :=
  match rest with
  | [] => (cur_pos, lineno)
  | l :: rest' =>
      let line := strip l in
      if (0 <? String.length line) && negb (startswith "#" line) then
        scan_warmup_loop rest' (S cur_pos) (S lineno)
      else (cur_pos, lineno)
  end.

Definition scan_warmup (fp : file) (config_dict : gmap string pyobj)
    (lineno : nat) : file * gmap string pyobj * nat :=
  match config_dict !! "save_warmup" with
  | None => (fp, config_dict, lineno)
  | Some _ =>
      let '(cur_pos, lineno) :=
        scan_warmup_loop (drop (tell fp) (f_lines fp)) (tell fp) lineno in
      (seek fp cur_pos, config_dict, lineno)
  end.

Definition scan_column_names (fp : file) (config_dict : gmap string pyobj)
    (lineno : nat) : file * gmap string pyobj * nat :=
  let '(line, fp) := readline fp in
  let line := strip line in
  let lineno := S lineno in
  let names := split "," line in
  let config_dict := <["column_names" := VTuple names]> config_dict in
  let config_dict :=
    <["num_params" := VInt (Z.of_nat (length names) - 1)]> config_dict in
  (fp, config_dict, lineno).

(** [o == s] for a string literal [s] *)
Definition eq_str (o : pyobj) (s : string) : bool :=
  match o with VStr t => String.eqb t s | _ => false end.

Definition msg_expecting_metric (lineno : nat) (line : string) : string :=
  "line " +:+ str_nat lineno +:+ ": expecting metric, found:" +:+
  String nl (String tab (String " " (String dquote EmptyString))) +:+
  line +:+ String dquote EmptyString.

Definition msg_expecting_stepsize (lineno : nat) (line : string) : string :=
  "line " +:+ str_nat lineno +:+ ": expecting stepsize, found:" +:+
  String nl (String tab (String " " (String dquote EmptyString))) +:+
  line +:+ String dquote EmptyString.

Definition msg_invalid_stepsize (lineno : nat) (stepsize : string) : string :=
  "line " +:+ str_nat lineno +:+ ": invalid stepsize: " +:+ stepsize.

Definition msg_mass_matrix (lineno : nat) : string :=
  "line " +:+ str_nat lineno +:+
  ": invalid or missing mass matrix specification".

(** [for i in range(1, num_params)]: [n] rows are still to be read. *)
Fixpoint scan_metric_rows (n : nat) (num_params : nat) (fp : file)
    (lineno : nat) : result (file * nat) :=
  match n with
  | O => Ok (fp, lineno)
  | S n' =>
      let '(line, fp) := readline fp in
      let line := lstrip comment_chars line in
      let lineno := S lineno in
      if negb (length (split "," line) =? num_params) then
        Raise (ValueError (msg_mass_matrix lineno))
      else scan_metric_rows n' num_params fp lineno
  end.

Definition scan_metric (fp : file) (config_dict : gmap string pyobj)
    (lineno : nat) : result (file * gmap string pyobj * nat) :=
  let config_dict :=
    match config_dict !! "metric" with
    | None => <["metric" := VStr "diag_e"]> config_dict
    | Some _ => config_dict
    end in
  let metric := default VNone (config_dict !! "metric") in
  let '(line, fp) := readline fp in
  let line := strip line in
  let lineno := S lineno in
  if negb (String.eqb line "# Adaptation terminated") then
    Raise (ValueError (msg_expecting_metric lineno line))
  else
  let '(line, fp) := readline fp in
  let line := strip line in
  let lineno := S lineno in
  match split "=" line with
  | [label; stepsize] =>
      if negb (startswith "# Step size" label) then
        Raise (ValueError (msg_expecting_stepsize lineno line))
      else
      match float_of_string (strip stepsize) with
      | None => Raise (ValueError (msg_invalid_stepsize lineno stepsize))
      | Some _ =>
          let '(line, fp) := readline fp in
          let line := strip line in
          let lineno := S lineno in
          if negb
               ((eq_str metric "diag_e" &&
                 String.eqb line "# Diagonal elements of inverse mass matrix:")
                ||
                (eq_str metric "dense_e" &&
                 String.eqb line "# Elements of inverse mass matrix:"))
          then Raise (ValueError (msg_mass_matrix lineno))
          else
          let '(line, fp) := readline fp in
          let line := lstrip comment_chars line in
          let lineno := S lineno in
          let num_params := length (split "," line) in
          let config_dict :=
            <["num_params" := VInt (Z.of_nat num_params)]> config_dict in
          if eq_str metric "diag_e" then Ok (fp, config_dict, lineno)
          else
            do (fp, lineno) <-
               scan_metric_rows (num_params - 1) num_params fp lineno;
            Ok (fp, config_dict, lineno)
      end
  | _ => Raise (ValueError "wrong number of values to unpack (expected 2)")
  end.

Definition msg_bad_draw (lineno num_cols found : nat) : string :=
  "line " +:+ str_nat lineno +:+ ": bad draw, expecting " +:+
  str_nat num_cols +:+ " items, found " +:+ str_nat found.

(** The loop of [scan_draws], with [rest] the lines from [cur_pos] on. *)
Fixpoint scan_draws_loop (num_cols : nat) (rest : list string)
    (cur_pos lineno draws_found : nat) (first_draw : option (list pyfloat))
  : result (nat * nat * nat * option (list pyfloat)) :=
  match rest with
  | [] => Ok (cur_pos, lineno, draws_found, first_draw)
  | l :: rest' =>
      let line := strip l in
      if (0 <? String.length line) && negb (startswith "#" line) then
        let lineno := S lineno in
        let draws_found := S draws_found in
        let data := split "," line in
        if negb (length data =? num_cols) then
          Raise (ValueError
                   (msg_bad_draw lineno num_cols (length (split "," line))))
        else
          do first_draw <-
             match first_draw with
             | None => do a <- mapR py_float data; Ok (Some a)
             | Some _ => Ok first_draw
             end;
          scan_draws_loop num_cols rest' (S cur_pos) lineno draws_found
                          first_draw
      else Ok (cur_pos, lineno, draws_found, first_draw)
  end.

(** [len(o)] *)
Definition py_len (o : pyobj) : result nat :=
  match o with
  | VTuple t => Ok (length t)
  | VStr s => Ok (String.length s)
  | VArray a => Ok (length a)
  | VInt _ | VNone => Raise (TypeError "object has no len()")
  end.

(** [d[key]] *)
Definition getitem (d : gmap string pyobj) (key : string) : result pyobj :=
  match d !! key with
  | Some o => Ok o
  | None => Raise (KeyError key)
  end.

Definition scan_draws (fp : file) (config_dict : gmap string pyobj)
    (lineno : nat) : result (file * gmap string pyobj * nat) :=
  do names <- getitem config_dict "column_names";
  do num_cols <- py_len names;
  do (cur_pos, lineno, draws_found, first_draw) <-
     scan_draws_loop num_cols (drop (tell fp) (f_lines fp)) (tell fp)
                     lineno 0 None;
  let config_dict :=
    <["draws" := VInt (Z.of_nat draws_found)]> config_dict in
  let config_dict :=
    <["first_draw" :=
        match first_draw with Some a => VArray a | None => VNone end]>
      config_dict in
  Ok (seek fp cur_pos, config_dict, lineno).

(** [scan_stan_csv] on the text of the file at [path]. *)
Definition scan_stan_csv (text : string) (is_sampling : bool)
  : result (gmap string pyobj) :=
  let dict : gmap string pyobj := ∅ in
  let lineno := 0 in
  let fp := open text in
  let '(fp, dict, lineno) := scan_config fp dict lineno in
  let '(fp, dict, lineno) := scan_column_names fp dict lineno in
  let '(fp, dict, lineno) := scan_warmup fp dict lineno in
  do (fp, dict, lineno) <-
     (if is_sampling then scan_metric fp dict lineno
      else Ok (fp, dict, lineno));
  do (fp, dict, lineno) <- scan_draws fp dict lineno;
  Ok dict.

(** [int(o)] *)
Definition int_of_obj (o : pyobj) : result Z :=
  match o with
  | VInt z => Ok z
  | VStr s => py_int s
  | VTuple _ | VArray _ | VNone =>
      Raise (TypeError "int() argument must be a string or a number")
  end.

(** [a / o] for an [int] [a]: true division. *)
Definition truediv (a : Z) (o : pyobj) : result Q :=
  match o with
  | VInt b =>
      if (b =? 0)%Z then Raise (ZeroDivisionError "division by zero")
      else Ok (Qdiv (inject_Z a) (inject_Z b))
  | VStr _ =>
      Raise (TypeError "unsupported operand type(s) for /: 'int' and 'str'")
  | VTuple _ =>
      Raise (TypeError "unsupported operand type(s) for /: 'int' and 'tuple'")
  | VArray _ =>
      Raise (TypeError "unsupported operand type(s) for /: 'int' and 'ndarray'")
  | VNone =>
      Raise (TypeError "unsupported operand type(s) for /: 'int' and 'NoneType'")
  end.

(** [o != z] for an [int] [z] *)
Definition ne_int (o : pyobj) (z : Z) : bool :=
  match o with VInt d => negb (d =? z)%Z | _ => true end.

(** [str(o)] as [format] renders it; strings inside a tuple are quoted
    without escapes, the elements of an array are separated by blanks. *)
Definition str_obj (o : pyobj) : string :=
  match o with
  | VInt z => str_Z z
  | VStr s => s
  | VNone => "None"
  | VTuple t =>
      "(" +:+ join ", " (map (fun x => "'" +:+ x +:+ "'") t) +:+
      (if length t =? 1 then ",)" else ")")
  | VArray a => "[" +:+ join " " (map str_float a) +:+ "]"
  end.

Definition msg_bad_csv (path : string) (draws_spec : Z) (found : pyobj)
  : string :=
  "bad csv file " +:+ path +:+ ", expected " +:+ str_Z draws_spec +:+
  " draws, found " +:+ str_obj found.

(** [check_csv], with [text] the content of the file at [path]. *)
Definition check_csv (path text : string) (is_optimizing is_sampling : bool)
  : result (gmap string pyobj) :=
  do meta <- scan_stan_csv text is_sampling;
  do draws_spec <-
     (if is_optimizing then Ok 1%Z
      else
        do draws_spec <-
           int_of_obj (default (VInt 1000) (meta !! "num_samples"));
        match meta !! "thin" with
        | Some thin =>
            do q <- truediv draws_spec thin;
            Ok (Qceiling q)
        | None => Ok draws_spec
        end);
  do draws <- getitem meta "draws";
  if ne_int draws draws_spec then
    Raise (ValueError (msg_bad_csv path draws_spec draws))
  else Ok meta.

End StanCsv.

(** ** Vocabulary for the statements about the codec *)

Module CodecSpec.
Import PyStr PyNum Numpy Rdump.

Global Instance pyfloat_eq_dec : EqDecision pyfloat.
Proof. solve_decision. Defined.

Global Instance num_eq_dec : EqDecision num.
Proof. solve_decision. Defined.

(** The characters of a finite number in decimal notation. *)
Definition num_char (c : ascii) : bool := is_digit c || char_in c "+-.e".

(** A float that [str] writes as a finite decimal literal, with a
    fraction or an exponent, which [float] reads back as the same
    float.  Python grants this to every finite binary64 value. *)
Definition finite_literal (f : pyfloat) : bool :=
  bool_decide (float_of_string (str_float f) = Some f) &&
  all_chars num_char (str_float f) &&
  (contains "." (str_float f) || contains "e" (str_float f)).

Definition num_ok (x : num) : bool :=
  match x with
  | NInt _ => true
  | NFloat f => finite_literal f
  end.

(** A key the decoder gives back as it is: no marker, no double quote,
    no newline, no blank at either end. *)
Definition plain_key (key : string) : bool :=
  negb (contains "<-" key) &&
  all_chars (fun c => negb (Ascii.eqb c "034"%char) && negb (Ascii.eqb c nl))
            key &&
  String.eqb (strip key) key.

(** The values of the round trip: numbers, arrays of more than one
    element that hold as many elements as their shape says, lists of
    more than one number; the floats among them (for a list, after
    [np.asarray]) are finite literals. *)
Definition value_ok (v : pyval) : Prop :=
  match v with
  | PNum x => num_ok x = true
  | PArr a => wf_ndarray a /\ 1 < size a /\ forallb num_ok (data a) = true
  | PList l => 1 < length l /\ forallb num_ok (data (asarray l)) = true
  end.

(** The shape of a value and its elements as floats, in row-major
    order. *)
Definition py_shape (v : pyval) : list nat :=
  match v with
  | PNum _ => []
  | PArr a => shape a
  | PList l => [length l]
  end.

Definition py_floats (v : pyval) : list pyfloat :=
  match v with
  | PNum x => [to_float x]
  | PArr a => map to_float (data a)
  | PList l => map to_float l
  end.

Definition as_floats (l : list num) : list num :=
  map (fun x => NFloat (to_float x)) l.

(** What the decoder gives for a value: a number as it is, an array or
    a list as the array of the same shape with every element as a
    float. *)
Definition decoded (v : pyval) : pyval :=
  match v with
  | PNum x => PNum x
  | PArr a => PArr {| shape := shape a; data := as_floats (data a) |}
  | PList l => PArr {| shape := [length l]; data := as_floats l |}
  end.

(** The value of the decimal digits [d] after the digits of value
    [acc]. *)
Fixpoint uint_value (d : Decimal.uint) (acc : N) : N :=
  match d with
  | Decimal.Nil => acc
  | Decimal.D0 l => uint_value l (10 * acc)%N
  | Decimal.D1 l => uint_value l (10 * acc + 1)%N
  | Decimal.D2 l => uint_value l (10 * acc + 2)%N
  | Decimal.D3 l => uint_value l (10 * acc + 3)%N
  | Decimal.D4 l => uint_value l (10 * acc + 4)%N
  | Decimal.D5 l => uint_value l (10 * acc + 5)%N
  | Decimal.D6 l => uint_value l (10 * acc + 6)%N
  | Decimal.D7 l => uint_value l (10 * acc + 7)%N
  | Decimal.D8 l => uint_value l (10 * acc + 8)%N
  | Decimal.D9 l => uint_value l (10 * acc + 9)%N
  end.

(** A multi-index within a shape. *)
Definition valid_index (shp idx : list nat) : Prop :=
  Forall2 (fun i d => i < d) idx shp.

(** A digit part ends before a character that is neither a digit nor
    an underscore. *)
Definition ends_digits (rest : string) : bool :=
  match rest with
  | EmptyString => true
  | String c _ => negb (is_digit c) && negb (Ascii.eqb c "_")
  end.

(** The characters of a right-hand side the encoder writes. *)
Definition rhs_char (c : ascii) : bool :=
  num_char c || char_in c "c(), structure.Dim=".

(** What makes a right-hand side come back through [rload]. *)
Definition clean_rhs (rhs : string) : Prop :=
  all_chars rhs_char rhs = true /\ strip rhs = rhs.

(** The text of lines, each closed by a newline, as [rdump] builds it. *)
Definition text_of_lines (lines : list string) : string :=
  foldr (fun line rest => line +:+ String nl "" +:+ rest) "" lines.

(** The line [line] states the item [(key, v)] in a form the decoder
    reads back. *)
Definition states (item : string * pyval) (line : string) : Prop :=
  exists rhs,
    line = item.1 +:+ " <- " +:+ rhs /\
    plain_key item.1 = true /\ clean_rhs rhs /\
    parse_rdump_value rhs = Ok (decoded item.2).

(** The dictionary after storing the decoded items in order. *)
Definition store_all (d : gmap string pyval) (data : list (string * pyval))
  : gmap string pyval :=
  foldl (fun m item => <[item.1 := decoded item.2]> m) d data.

(** The pieces of a statement cut at the marker either are not two, or
    the second starts with a blank and an opening bracket. *)
Definition bracket_pieces (pieces : list string) : Prop :=
  match pieces with
  | [] | [_] => False
  | [_; p] => exists w, p = String " " (String "[" w)
  | _ => True
  end.

(** The value of the decimal digits of [s] after the digits of value
    [acc]. *)
Fixpoint digits_value (s : string) (acc : N) : N :=
  match s with
  | EmptyString => acc
  | String c s' => digits_value s' (10 * acc + digit_val c)%N
  end.

(** A finite float in canonical form: zero with exponent 0, or a
    mantissa without a trailing zero digit. *)
Definition canonical (f : pyfloat) : bool :=
  match f with
  | FFin _ m e => (N.eqb m 0 && Z.eqb e 0) || negb (N.eqb (m mod 10) 0)
  | FInf _ | FNan => false
  end.

(** What is asked of the unsigned text of the float [m * 10^e]: the
    characters of a number, a digit first, a point or an exponent, and
    a body that [float] reads as that float. *)
Definition reads_as (body : string) (m : N) (e : Z) : Prop :=
  all_chars num_char body = true /\
  (exists c s, body = String c s /\ is_digit c = true) /\
  contains "." body || contains "e" body = true /\
  exists m' e',
    float_body body = Some (m', e') /\
    forall neg, fnorm neg m' e' = FFin neg m e.

(** A text without carriage returns: Python reads its lines as
    [readlines] cuts them. *)
Definition no_cr (s : string) : bool :=
  all_chars (fun c => negb (Ascii.eqb c cr)) s.

(** An integer that a binary64 float holds exactly: [float] and
    [np.asarray] round the integers beyond [2**53]. *)
Definition exact_int (x : num) : bool :=
  match x with
  | NInt z => (Z.abs z <=? 2 ^ 53)%Z
  | NFloat _ => true
  end.

(** The integers among the elements of an array or a list are held
    exactly as floats; a number on its own is not converted. *)
Definition exact_elements (v : pyval) : bool :=
  match v with
  | PNum _ => true
  | PArr a => forallb exact_int (data a)
  | PList l => forallb exact_int l
  end.

End CodecSpec.

(** ** Vocabulary for the statements about the scanner *)

Module ScanSpec.
Import PyStr PyNum StanCsv.

(** The stripped lines a section loop passes: the longest run of lines
    that are not blank and are comments ([comment = true]) or are not
    ([comment = false]). *)
Fixpoint section_lines (comment : bool) (rest : list string) : list string :=
  match rest with
  | [] => []
  | l :: rest' =>
      let line := strip l in
      if (0 <? String.length line) && Bool.eqb (startswith "#" line) comment
      then line :: section_lines comment rest'
      else []
  end.

(** The section at the cursor of [fp]. *)
Definition section_at (comment : bool) (fp : file) : list string :=
  section_lines comment (drop (f_pos fp) (f_lines fp)).

(** The [k]-th line from the cursor, [''] past the end. *)
Definition line_at (fp : file) (k : nat) : string :=
  default "" (f_lines fp !! (f_pos fp + k)).

(** The cursor after [k] calls of [readline]. *)
Definition pos_after (fp : file) (k : nat) : nat :=
  Nat.min (length (f_lines fp)) (f_pos fp + k) `max` f_pos fp.

(** The state of [scan_stan_csv] when it reaches the metric section. *)
Definition before_metric (text : string) : file * gmap string pyobj * nat :=
  let '(fp, dict, lineno) := scan_config (open text) ∅ 0 in
  let '(fp, dict, lineno) := scan_column_names fp dict lineno in
  scan_warmup fp dict lineno.

(** The state of [scan_stan_csv] when it reaches the draws. *)
Definition before_draws (text : string) (is_sampling : bool)
  : result (file * gmap string pyobj * nat) :=
  let '(fp, dict, lineno) := before_metric text in
  if is_sampling then scan_metric fp dict lineno else Ok (fp, dict, lineno).

(** [lineno] counts the lines before the cursor, as long as the cursor
    has not reached the end of the file. *)
Definition in_step (fp : file) (lineno : nat) : Prop :=
  f_pos fp < length (f_lines fp) -> lineno = f_pos fp.

(** The field count the draw scan demands of a row. *)
Definition conforms (num_cols : nat) (row : string) : Prop :=
  length (split "," row) = num_cols.

(** The row [i] of the mass matrix after the four leading lines of the
    metric section, without its comment mark. *)
Definition matrix_row (fp : file) (i : nat) : string :=
  lstrip comment_chars (line_at fp (4 + i)).

End ScanSpec.

(** ** Concrete inputs used in the statements *)

Module Examples.
Import PyStr PyNum Numpy Rdump StanCsv.

(** The float with the value of the natural number [n]. *)
Definition fl (n : N) : num := NFloat (float_of_Z (Z.of_N n)).

(** [np.array([[1., 2., 3.], [4., 5., 6.]])] *)
Definition array_2x3 : ndarray :=
  {| shape := [2; 3]; data := map fl [1; 2; 3; 4; 5; 6]%N |}.

(** [np.array([[1, 2, 3], [4, 5, 6]])] *)
Definition int_array_2x3 : ndarray :=
  {| shape := [2; 3]; data := map NInt [1; 2; 3; 4; 5; 6]%Z |}.

(** The lines of a text, each closed by a newline. *)
Definition unlines (ls : list string) : string :=
  join "" (map (fun l => l +:+ String nl "") ls).

(** A run-output file of a sampling run with a diagonal metric, two
    columns, [num_samples = 1000], [thin = 3] and [n] draws. *)
Definition sampling_csv (n : nat) : string :=
  unlines
    (["# model = bernoulli_model";
      "# num_samples = 1000";
      "# thin = 3";
      "lp__,theta";
      "# Adaptation terminated";
      "# Step size = 0.9";
      "# Diagonal elements of inverse mass matrix:";
      "# 0.5"] ++ repeat "-7.0,0.25" n).

(** A run-output file as Stan writes it: eight columns, one parameter
    [theta], a diagonal metric with one element, two draws. *)
Definition stan_csv_one_param : string :=
  unlines
    ["# model = bernoulli_model";
     "lp__,accept_stat__,stepsize__,treedepth__,n_leapfrog__,divergent__,energy__,theta";
     "# Adaptation terminated";
     "# Step size = 0.9";
     "# Diagonal elements of inverse mass matrix:";
     "# 0.5";
     "-7.0,0.9,0.9,1,1,0,7.5,0.25";
     "-7.1,0.8,0.9,1,3,0,7.2,0.21"].

(** A mapping of the round trip: an integer, a float, a 2x3 array, a
    list that mixes an integer and a float, a vector of integers. *)
Definition round_trip_data : list (string * pyval) :=
  [("N", PNum (NInt 5));
   ("sigma", PNum (NFloat (FFin false 25 (-1))));
   ("X", PArr array_2x3);
   ("w", PList [NInt 1; NFloat (FFin false 15 (-1))]);
   ("y", PArr {| shape := [3]; data := map NInt [0; 1; -1]%Z |})].

(** A mapping with one entry, a 1x1 array. *)
Definition one_by_one : list (string * pyval) :=
  [("x", PArr {| shape := [1; 1]; data := [NInt 5] |})].

End Examples.

(** ** The metric file: [read_rdump_metric] *)

Module Metric.
Import PyStr PyNum Numpy Rdump.

Definition msg_bad_metric (path : string) : string :=
  "metric file " +:+ path +:+ ", bad or missing entry " +:+
  String "034" "inv_metric" +:+ String "034" "".

(** [read_rdump_metric], with [text] the content of the file at [path].
    When [rload] returns [None], the test ['inv_metric' in metric_dict]
    raises [TypeError]. *)
Definition read_rdump_metric (path text : string) : result (list nat) :=
  do metric_dict <- rload text;
  match metric_dict with
  | None => Raise (TypeError "argument of type 'NoneType' is not iterable")
  | Some metric_dict =>
      match metric_dict !! "inv_metric" with
      | Some (PArr a) => Ok (shape a)
      | _ => Raise (ValueError (msg_bad_metric path))
      end
  end.

End Metric.

(** ** More vocabulary for the statements about the codec *)

Module RoundTripSpec.
Import PyStr PyNum Numpy Rdump CodecSpec.

(** A number whose float, if it is one, is finite and canonical. *)
Definition num_canonical (x : num) : bool :=
  match x with
  | NInt _ => true
  | NFloat f => canonical f
  end.

(** A float that is neither an infinity nor a NaN. *)
Definition is_finite (f : pyfloat) : bool :=
  match f with FFin _ _ _ => true | FInf _ | FNan => false end.

(** The values [rdump] writes in a form [rload] reads: numbers, arrays
    that hold as many elements as their shape says and at least one,
    lists of more than one number. *)
Definition value_canonical (v : pyval) : Prop :=
  match v with
  | PNum x => num_canonical x = true
  | PArr a =>
      wf_ndarray a /\ 0 < size a /\ forallb num_canonical (data a) = true
  | PList l => 1 < length l /\ forallb num_canonical l = true
  end.

(** The value [rdump] writes the same line for: an array of at most
    one element stands for its first element. *)
Definition scalar_form (v : pyval) : pyval :=
  match v with
  | PArr a =>
      if 1 <? size a then v
      else match data a with x :: _ => PNum x | [] => v end
  | _ => v
  end.

(** What [rload] gives for the line [rdump] writes for a value. *)
Definition decoded_value (v : pyval) : pyval := decoded (scalar_form v).

(** The line [line] assigns to the key of [item] a right-hand side that
    the decoder reads as the value of [item]. *)
Definition stated (item : string * pyval) (line : string) : Prop :=
  exists rhs,
    line = item.1 +:+ " <- " +:+ rhs /\
    plain_key item.1 = true /\ clean_rhs rhs /\
    parse_rdump_value rhs = Ok item.2.

End RoundTripSpec.

(** ** The CmdStan installation: [get_latest_cmdstan],
       [validate_cmdstan_path], [set_cmdstan_path], [cmdstan_path] *)

Module Install.
Import PyStr PyNum.

(** What the functions consult of the operating system, on a POSIX
    system ([EXTENSION] is ['']): the environment of the process, which
    paths are directories, which paths exist, the entries of a directory
    ([None] when [os.listdir] raises [OSError]), and what
    [os.path.expanduser] makes of a path. *)
Record os : Type := {
  environ : gmap string string;
  isdir : string -> bool;
  path_exists : string -> bool;
  listdir : string -> option (list string);
  expanduser : string -> string }.

(** [os.path.join(a, b)] of [posixpath] *)
Definition path_join (a b : string) : string :=
  if startswith "/" b then b
  else if String.eqb a "" || endswith "/" a then a +:+ b
  else a +:+ "/" +:+ b.

(** [a < b] for two lists of [int]: the first difference decides, and a
    proper prefix is smaller. *)
Fixpoint list_lt (a b : list Z) : bool :=
  match a, b with
  | _, [] => false
  | [], _ :: _ => true
  | x :: a', y :: b' =>
      if (x <? y)%Z then true
      else if (y <? x)%Z then false
      else list_lt a' b'
  end.

(** The key of the sort: [list(map(int, s.split('.')))] *)
Definition version_key (s : string) : result (list Z) :=
  mapR py_int (split "." s).

(** [versions.sort(key=...)] on the items with their keys.  [list.sort]
    computes every key first, compares keys with [<] only and is
    stable; for keys in a total order its result is that of the
    insertion sort in which an item goes behind the items whose key is
    not greater. *)
Fixpoint insert_by_key (x : list Z * string) (l : list (list Z * string))
  : list (list Z * string) :=
  match l with
  | [] => [x]
  | y :: l' =>
      if list_lt x.1 y.1 then x :: l else y :: insert_by_key x l'
  end.

Definition sort_by_key (l : list (list Z * string))
  : list (list Z * string) :=
  foldl (fun acc x => insert_by_key x acc) [] l.

(** [name.split('-')[1]] *)
Definition version_of (name : string) : result string :=
  match split "-" name with
  | _ :: v :: _ => Ok v
  | _ => Raise (IndexError "list index out of range")
  end.

(** The body of [get_latest_cmdstan] after the listing: [entries] holds
    the names of [os.listdir(dot_dir)], each with whether it is a
    directory. *)
Definition latest_version (entries : list (string * bool))
  : result (option string) :=
  do versions <-
     mapR (fun e => version_of e.1)
          (List.filter (fun e => e.2 && startswith "cmdstan-" e.1) entries);
  do keys <- mapR version_key versions;
  let versions := map snd (sort_by_key (zip keys versions)) in
  if length versions =? 0 then Ok None
  else
    match versions !! (length versions - 1) with
    | Some v => Ok (Some ("cmdstan-" +:+ v))
    | None => Raise (IndexError "list index out of range")
    end.

(** The names of a listing of [dot_dir], each with
    [os.path.isdir(os.path.join(dot_dir, name))]. *)
Definition dir_entries (w : os) (dot_dir : string) (names : list string)
  : list (string * bool) :=
  map (fun name => (name, isdir w (path_join dot_dir name))) names.

(** [get_latest_cmdstan]; [None] when [os.listdir] raises. *)
Definition get_latest_cmdstan (w : os) (dot_dir : string)
  : option (result (option string)) :=
  match listdir w dot_dir with
  | None => None
  | Some names => Some (latest_version (dir_entries w dot_dir names))
  end.

Definition msg_no_binaries : string :=
  "no CmdStan binaries found, run command line script " +:+
  String "034" "install_cmdstan" +:+ String "034" "".

Definition msg_no_installation : string :=
  "no CmdStan installation found, run command line script " +:+
  String "034" "install_cmdstan" +:+ String "034" "".

Definition validate_cmdstan_path (w : os) (path : string) : result unit :=
  if negb (isdir w path) then
    Raise (ValueError ("no such CmdStan directory " +:+ path))
  else if negb (path_exists w (path_join (path_join path "bin") "stanc")) then
    Raise (ValueError msg_no_binaries)
  else Ok tt.

(** [set_cmdstan_path]: the state after the call. *)
Definition set_cmdstan_path (w : os) (path : string) : result os :=
  do _ <- validate_cmdstan_path w path;
  Ok {| environ := <["CMDSTAN" := path]> (environ w);
        isdir := isdir w; path_exists := path_exists w;
        listdir := listdir w; expanduser := expanduser w |}.

(** [cmdstan_path]; [None] when [os.listdir] raises. *)
Definition cmdstan_path (w : os) : option (result string) :=
  match environ w !! "CMDSTAN" with
  | Some path => Some (do _ <- validate_cmdstan_path w path; Ok path)
  | None =>
      let cmdstan_dir := expanduser w (path_join "~" ".cmdstanpy") in
      if negb (path_exists w cmdstan_dir) then
        Some (Raise (ValueError msg_no_installation))
      else
        match get_latest_cmdstan w cmdstan_dir with
        | None => None
        | Some (Raise e) => Some (Raise e)
        | Some (Ok None) => Some (Raise (ValueError msg_no_installation))
        | Some (Ok (Some latest_cmdstan)) =>
            let path := path_join cmdstan_dir latest_cmdstan in
            Some (do _ <- validate_cmdstan_path w path; Ok path)
        end
  end.

End Install.

(** ** Vocabulary for the statements about the installation *)

Module InstallSpec.
Import PyStr PyNum Install.

(** [v] is the version of an entry that [get_latest_cmdstan] considers:
    a directory whose name starts with [cmdstan-]; the version is the
    second of the pieces of the name between dashes. *)
Definition candidate (entries : list (string * bool)) (v : string) : Prop :=
  exists name p rest,
    (name, true) ∈ entries /\
    startswith "cmdstan-" name = true /\
    split "-" name = p :: v :: rest.

(** The order of the sort: the key of [b] is not smaller than the key
    of [a]. *)
Definition key_le (a b : list Z * string) : Prop := list_lt b.1 a.1 = false.

(** No item of the list has a key smaller than the key of an item
    before it. *)
Fixpoint sorted_by_key (l : list (list Z * string)) : Prop :=
  match l with
  | [] => True
  | y :: l' => Forall (key_le y) l' /\ sorted_by_key l'
  end.

End InstallSpec.

(** ** More concrete inputs *)

Module MoreExamples.
Import PyStr StanCsv.

(** A run-output file without a metric section: [num_samples = 2]
    recorded, two columns, one draw. *)
Definition small_csv : string :=
  Examples.unlines ["# num_samples = 2"; "lp__,theta"; "-7.0,0.25"].

End MoreExamples.

(* ===================================================================== *)
(** * Part II: lemmas and theorems *)
(* ===================================================================== *)

Module CodecExamples.
Import PyStr PyNum Numpy Rdump Examples.

(** C3. Encoding the 2x3 float array [[1,2,3],[4,5,6]] writes the
    right-hand side
    [structure(c(1.0, 4.0, 2.0, 5.0, 3.0, 6.0), .Dim = c(2, 3))]: the
    values in column-major order, the dimensions in their given order;
    decoding that literal gives back the 2x3 array with every element
    in its place. *)
Theorem rdump_array_2x3_column_major :
  (forall key : string,
      _rdump_array key array_2x3 =
      key +:+ " <- " +:+
      "structure(c(1.0, 4.0, 2.0, 5.0, 3.0, 6.0), .Dim = c(2, 3))") /\
  T_flat array_2x3 = map fl [1; 4; 2; 5; 3; 6]%N /\
  parse_rdump_value
    "structure(c(1.0, 4.0, 2.0, 5.0, 3.0, 6.0), .Dim = c(2, 3))"
  = Ok (PArr array_2x3).
Proof.
  split; [|split].
  - intros key. unfold _rdump_array.
    destruct (decide ([size array_2x3] = shape array_2x3)) as [E|_].
    + vm_compute in E. discriminate E.
    + f_equal.
  - reflexivity.
  - vm_compute. reflexivity.
Qed.

(** The same array with integer elements prints them without a
    fraction, in the same order. *)
Lemma rdump_int_array_2x3 (key : string) :
  _rdump_array key int_array_2x3 =
  key +:+ " <- " +:+ "structure(c(1, 4, 2, 5, 3, 6), .Dim = c(2, 3))".
Proof.
  unfold _rdump_array.
  destruct (decide ([size int_array_2x3] = shape int_array_2x3)) as [E|_].
  - vm_compute in E. discriminate E.
  - f_equal.
Qed.

(** C5, as the code has it. Decoding [x <- c(5)] gives a vector of one
    float, decoding [x <- 5] gives the integer 5: the same number, in
    two representations; the decoder does not turn a one-element
    vector into a scalar. *)
Theorem rload_single_element_vector :
  rload "x <- c(5)" =
    Ok (Some {[ "x" := PArr {| shape := [1]; data := [fl 5] |} ]}) /\
  rload "x <- 5" = Ok (Some {[ "x" := PNum (NInt 5) ]}) /\
  NFloat (to_float (NInt 5)) = fl 5.
Proof.
  split; [|split]; vm_compute; reflexivity.
Qed.

(** C5, as claimed, fails: the two statements do not decode to the
    same value. *)
Lemma rload_vector_is_not_scalar :
  ~ (rload "x <- c(5)" = rload "x <- 5").
Proof.
  intros H.
  apply (f_equal (fun r => match r with
                           | Ok (Some d) => d !! "x"
                           | _ => None
                           end)) in H.
  vm_compute in H. discriminate H.
Qed.

End CodecExamples.

(** ** Facts about strings *)

Module StrFacts.
Import PyStr.

Lemma app_String (c : ascii) (s t : string) :
  String c s +:+ t = String c (s +:+ t).
Proof. reflexivity. Qed.

Lemma app_nil_l (s : string) : "" +:+ s = s.
Proof. reflexivity. Qed.

Lemma app_nil_r (s : string) : s +:+ "" = s.
Proof. induction s as [|c s IH]; [reflexivity|]. rewrite app_String, IH. reflexivity. Qed.

Lemma app_assoc (s t u : string) : (s +:+ t) +:+ u = s +:+ (t +:+ u).
Proof.
  induction s as [|c s IH]; [reflexivity|].
  rewrite !app_String, IH. reflexivity.
Qed.

Lemma length_app (s t : string) :
  String.length (s +:+ t) = String.length s + String.length t.
Proof.
  induction s as [|c s IH]; [reflexivity|].
  rewrite app_String. simpl. rewrite IH. reflexivity.
Qed.

Lemma prefix_nil (s : string) : String.prefix "" s = true.
Proof. destruct s; reflexivity. Qed.

Lemma prefix_app (p s : string) : String.prefix p (p +:+ s) = true.
Proof.
  induction p as [|c p IH]; [apply prefix_nil|].
  rewrite app_String. simpl. destruct (ascii_dec c c); [exact IH|congruence].
Qed.

Lemma prefix_app_l (p a b : string) :
  String.prefix p a = true -> String.prefix p (a +:+ b) = true.
Proof.
  revert a. induction p as [|c p IH]; intros a H; [apply prefix_nil|].
  destruct a as [|d a]; [discriminate H|].
  rewrite app_String. simpl in *.
  destruct (ascii_dec c d); [auto|discriminate H].
Qed.

Lemma contains_String (sub : string) (c : ascii) (s : string) :
  contains sub (String c s) =
  String.prefix sub (String c s) || contains sub s.
Proof. reflexivity. Qed.

Lemma contains_app_l (sub a b : string) :
  contains sub a = true -> contains sub (a +:+ b) = true.
Proof.
  induction a as [|c a IH]; intros H.
  - simpl in H. rewrite orb_false_r in H. destruct sub; [|discriminate H].
    destruct b; reflexivity.
  - rewrite app_String, contains_String. rewrite contains_String in H.
    apply orb_true_iff in H as [H|H].
    + change (String c (a +:+ b)) with (String c a +:+ b).
      rewrite (prefix_app_l sub (String c a) b H). reflexivity.
    + rewrite (IH H). apply orb_true_r.
Qed.

Lemma contains_app_r (sub a b : string) :
  contains sub b = true -> contains sub (a +:+ b) = true.
Proof.
  intros H. induction a as [|c a IH]; [exact H|].
  rewrite app_String, contains_String, IH. apply orb_true_r.
Qed.

Lemma not_contains_app (sub a b : string) :
  contains sub (a +:+ b) = false ->
  contains sub a = false /\ contains sub b = false.
Proof.
  intros H. split.
  - destruct (contains sub a) eqn:E; [|reflexivity].
    rewrite (contains_app_l _ _ b E) in H. discriminate H.
  - destruct (contains sub b) eqn:E; [|reflexivity].
    rewrite (contains_app_r _ a _ E) in H. discriminate H.
Qed.

(** Every line of a text is a part of the text. *)
Lemma readlines_go_not_contains (sub : string) (s cur : string) :
  contains sub (cur +:+ s) = false ->
  Forall (fun l => contains sub l = false) (readlines_go cur s).
Proof.
  revert cur. induction s as [|c s IH]; intros cur H; simpl.
  - rewrite app_nil_r in H. destruct cur; [constructor|].
    constructor; [exact H|constructor].
  - destruct (Ascii.eqb c nl) eqn:E.
    + apply Ascii.eqb_eq in E. subst c. constructor.
      * change (cur +:+ String nl s)
          with (cur +:+ (String nl "" +:+ s)) in H.
        rewrite <- app_assoc in H.
        apply not_contains_app in H. tauto.
      * apply (IH ""). apply not_contains_app in H as [_ H].
        change (String nl s) with (String nl "" +:+ s) in H.
        apply not_contains_app in H. tauto.
    + apply IH. rewrite app_assoc. exact H.
Qed.

End StrFacts.

(** ** The decoder on a text without the assignment marker *)

Module RloadNone.
Import PyStr Rdump StrFacts.

Lemma next_marker_none (rest : list string) (idx : nat) :
  Forall (fun l => contains "<-" l = false) rest ->
  next_marker rest idx = idx + length rest.
Proof.
  intros H. revert idx. induction H as [|l rest Hl _ IH]; intros idx; simpl.
  - lia.
  - rewrite Hl, IH. lia.
Qed.

(** C9. A text in which the marker [<-] does not occur decodes to
    [None]: no dictionary, no error. *)
Theorem rload_no_marker (text : string) :
  contains "<-" text = false -> rload text = Ok None.
Proof.
  intros H. unfold rload.
  rewrite next_marker_none.
  - simpl. rewrite Nat.eqb_refl. reflexivity.
  - apply readlines_go_not_contains. exact H.
Qed.

Lemma rload_no_marker_witness :
  contains "<-" "# no assignment < - here" = false /\
  rload "# no assignment < - here" = Ok None.
Proof.
  split; [reflexivity|]. apply rload_no_marker. reflexivity.
Defined.

End RloadNone.

(** ** The scanner: reading lines *)

Module ScanFacts.
Import PyStr PyNum StanCsv ScanSpec.

Lemma readline_spec (fp : file) :
  readline fp = (line_at fp 0, seek fp (pos_after fp 1)).
Proof.
  unfold readline, line_at, pos_after, seek. rewrite Nat.add_0_r.
  destruct (f_lines fp !! f_pos fp) as [l|] eqn:E; simpl.
  - apply lookup_lt_Some in E. do 2 f_equal. lia.
  - apply lookup_ge_None in E. destruct fp as [ls p]; simpl in *.
    do 2 f_equal. lia.
Qed.

Lemma line_at_seek (fp : file) (k j : nat) :
  line_at (seek fp (pos_after fp k)) j = line_at fp (k + j).
Proof.
  unfold line_at, pos_after, seek; simpl.
  destruct (decide (f_pos fp + k < length (f_lines fp))) as [H|H].
  - do 2 f_equal. lia.
  - rewrite !(proj2 (lookup_ge_None _ _)); [reflexivity|lia|lia].
Qed.

Lemma pos_after_seek (fp : file) (k j : nat) :
  pos_after (seek fp (pos_after fp k)) j = pos_after fp (k + j).
Proof. unfold pos_after, seek; simpl. lia. Qed.

Lemma seek_seek (fp : file) (p q : nat) : seek (seek fp p) q = seek fp q.
Proof. reflexivity. Qed.

Lemma pos_after_exact (fp : file) (k : nat) :
  f_pos fp + k <= length (f_lines fp) -> pos_after fp k = f_pos fp + k.
Proof. unfold pos_after. lia. Qed.

(** A line that is not blank once stripped is a line of the file. *)
Lemma line_at_nonempty (fp : file) (k : nat) :
  strip (line_at fp k) <> "" -> f_pos fp + k < length (f_lines fp).
Proof.
  unfold line_at. intros H.
  destruct (f_lines fp !! (f_pos fp + k)) as [l|] eqn:E.
  - apply lookup_lt_Some in E. exact E.
  - exfalso. apply H. reflexivity.
Qed.

Lemma section_lines_length (comment : bool) (rest : list string) :
  length (section_lines comment rest) <= length rest.
Proof.
  induction rest as [|l rest IH]; simpl; [lia|].
  destruct (_ && _); simpl; lia.
Qed.

End ScanFacts.

(** ** The validator on a file that records [thin] *)

Module CheckCsv.
Import PyStr PyNum StanCsv Examples.

(** C2, on the code. The file records [num_samples = 1000] and
    [thin = 3] as the texts ["1000"] and ["3"]; with 334 draws as with
    333, [check_csv] divides the integer 1000 by the text ["3"] and
    raises [TypeError]: no draw count is computed or compared. *)
Theorem check_csv_thin_recorded_as_text (path : string) :
  (exists meta,
      scan_stan_csv (sampling_csv 334) true = Ok meta /\
      meta !! "num_samples" = Some (VStr "1000") /\
      meta !! "thin" = Some (VStr "3") /\
      meta !! "draws" = Some (VInt 334)) /\
  check_csv path (sampling_csv 334) false true =
    Raise (TypeError "unsupported operand type(s) for /: 'int' and 'str'") /\
  check_csv path (sampling_csv 333) false true =
    Raise (TypeError "unsupported operand type(s) for /: 'int' and 'str'").
Proof.
  split; [|split].
  - eexists. split; [vm_compute; reflexivity|].
    split; [|split]; vm_compute; reflexivity.
  - vm_compute. reflexivity.
  - vm_compute. reflexivity.
Qed.

(** Whatever the file, a recorded [thin] is a text, and dividing by it
    raises. *)
Lemma truediv_text (a : Z) (s : string) :
  truediv a (VStr s) =
  Raise (TypeError "unsupported operand type(s) for /: 'int' and 'str'").
Proof. reflexivity. Qed.

End CheckCsv.

(** ** The config scan *)

Module ScanConfig.
Import PyStr PyNum StanCsv ScanSpec ScanFacts.

Lemma scan_config_loop_spec (rest : list string) (cur_pos : nat)
    (config_dict : gmap string pyobj) (lineno : nat) :
  scan_config_loop rest cur_pos config_dict lineno =
  (cur_pos + length (section_lines true rest),
   foldl (fun d line => scan_config_line line d) config_dict
         (section_lines true rest),
   lineno + length (section_lines true rest)).
Proof.
  revert cur_pos config_dict lineno.
  induction rest as [|l rest IH]; intros cur_pos config_dict lineno; simpl.
  - rewrite !Nat.add_0_r. reflexivity.
  - destruct (startswith "#" (strip l)) eqn:E; simpl.
    + destruct (0 <? String.length (strip l)); simpl.
      * rewrite IH, !Nat.add_succ_r. reflexivity.
      * rewrite !Nat.add_0_r. reflexivity.
    + rewrite andb_false_r. simpl. rewrite !Nat.add_0_r. reflexivity.
Qed.

Lemma scan_config_spec (fp : file) (config_dict : gmap string pyobj)
    (lineno : nat) :
  scan_config fp config_dict lineno =
  (seek fp (f_pos fp + length (section_at true fp)),
   foldl (fun d line => scan_config_line line d) config_dict
         (section_at true fp),
   lineno + length (section_at true fp)).
Proof.
  unfold scan_config, section_at, tell.
  rewrite scan_config_loop_spec. reflexivity.
Qed.

(** C8, as the code has it. The config scan passes the leading comment
    lines and applies [scan_config_line] to each in turn.  A line ending
    in [(Default)] leaves the dictionary unchanged.  Any other line
    that, after its leading blanks and [#] are dropped, splits at [=]
    into exactly a key and a value, records the stripped value under the
    stripped key when the key is not [file]; a [file] line records its
    value under [data_file] when the value does not end in [csv] and
    records nothing when it does.  A line with no or several [=] records
    nothing. *)
Theorem scan_config_records :
  (forall (fp : file) (config_dict : gmap string pyobj) (lineno : nat),
      scan_config fp config_dict lineno =
      (seek fp (f_pos fp + length (section_at true fp)),
       foldl (fun d line => scan_config_line line d) config_dict
             (section_at true fp),
       lineno + length (section_at true fp))) /\
  (forall (line : string) (d : gmap string pyobj),
      endswith "(Default)" line = true -> scan_config_line line d = d) /\
  (forall (line k v : string) (d : gmap string pyobj),
      endswith "(Default)" line = false ->
      split "=" (lstrip comment_chars line) = [k; v] ->
      (strip k <> "file" ->
       scan_config_line line d = <[strip k := VStr (strip v)]> d) /\
      (strip k = "file" -> endswith "csv" v = false ->
       scan_config_line line d = <["data_file" := VStr (strip v)]> d) /\
      (strip k = "file" -> endswith "csv" v = true ->
       scan_config_line line d = d)) /\
  (forall (line : string) (d : gmap string pyobj),
      length (split "=" (lstrip comment_chars line)) <> 2 ->
      scan_config_line line d = d).
Proof.
  split; [|split; [|split]].
  - intros fp config_dict lineno. apply scan_config_spec.
  - intros line d H. unfold scan_config_line. rewrite H. reflexivity.
  - intros line k v d HD Hs. unfold scan_config_line. rewrite HD, Hs. simpl.
    split; [|split].
    + intros Hk. apply String.eqb_neq in Hk. rewrite Hk. reflexivity.
    + intros Hk Hv. rewrite Hk, Hv. reflexivity.
    + intros Hk Hv. rewrite Hk, Hv. reflexivity.
  - intros line d H. unfold scan_config_line.
    destruct (endswith "(Default)" line); [reflexivity|]. simpl.
    destruct (split "=" (lstrip comment_chars line)) as [|a [|b [|c t]]];
      try reflexivity.
    exfalso. apply H. reflexivity.
Qed.

(** C8, as claimed, fails: a [file = ...] line that names a CSV file is
    not recorded under [file], nor under any key. *)
Lemma scan_config_drops_csv_file :
  scan_config_line "# file = output.csv" ∅ = ∅ /\
  (scan_config
     (open (Examples.unlines ["# file = output.csv"; "lp__,theta"])) ∅ 0).1.2
    !! "file" = None.
Proof. split; vm_compute; reflexivity. Qed.

End ScanConfig.

(** ** The draw scan *)

Module ScanDraws.
Import PyStr PyNum StanCsv ScanSpec ScanFacts.

(** Once the first draw is kept, conforming rows are only counted. *)
Lemma scan_draws_loop_conforming (num_cols : nat) (rest : list string)
    (cur_pos lineno draws_found : nat) (a : list pyfloat) :
  Forall (conforms num_cols) (section_lines false rest) ->
  scan_draws_loop num_cols rest cur_pos lineno draws_found (Some a) =
  Ok (cur_pos + length (section_lines false rest),
      lineno + length (section_lines false rest),
      draws_found + length (section_lines false rest), Some a).
Proof.
  revert cur_pos lineno draws_found.
  induction rest as [|l rest IH]; intros cur_pos lineno draws_found H; simpl.
  - rewrite !Nat.add_0_r. reflexivity.
  - simpl in H.
    destruct ((0 <? String.length (strip l)) &&
              Bool.eqb (startswith "#" (strip l)) false) eqn:E.
    + assert (E' : (0 <? String.length (strip l)) &&
                   negb (startswith "#" (strip l)) = true)
        by (destruct (startswith "#" (strip l)); exact E).
      rewrite E'. inversion H as [|r rs Hr Hrs]; subst.
      unfold conforms in Hr. rewrite Hr, Nat.eqb_refl. simpl.
      rewrite (IH _ _ _ Hrs). simpl. rewrite !Nat.add_succ_r. reflexivity.
    + assert (E' : (0 <? String.length (strip l)) &&
                   negb (startswith "#" (strip l)) = false)
        by (destruct (startswith "#" (strip l)); exact E).
      rewrite E'. simpl. rewrite !Nat.add_0_r. reflexivity.
Qed.

(** Once the first draw is kept, the first row that does not conform
    stops the scan with its line number and the two counts. *)
Lemma scan_draws_loop_bad_row (num_cols : nat) (rest : list string)
    (cur_pos lineno draws_found : nat) (a : list pyfloat)
    (k : nat) (row : string) :
  section_lines false rest !! k = Some row ->
  ~ conforms num_cols row ->
  Forall (conforms num_cols) (take k (section_lines false rest)) ->
  scan_draws_loop num_cols rest cur_pos lineno draws_found (Some a) =
  Raise (ValueError
           (msg_bad_draw (lineno + k + 1) num_cols (length (split "," row)))).
Proof.
  revert rest cur_pos lineno draws_found.
  induction k as [|k IH]; intros rest cur_pos lineno draws_found Hk Hbad Hok;
    (destruct rest as [|l rest]; [discriminate Hk|]); simpl in *.
  - destruct ((0 <? String.length (strip l)) &&
              Bool.eqb (startswith "#" (strip l)) false) eqn:E;
      [|discriminate Hk].
    assert (E' : (0 <? String.length (strip l)) &&
                 negb (startswith "#" (strip l)) = true)
      by (destruct (startswith "#" (strip l)); exact E).
    rewrite E'. injection Hk as <-.
    unfold conforms in Hbad. apply Nat.eqb_neq in Hbad. rewrite Hbad. simpl.
    do 3 f_equal. lia.
  - destruct ((0 <? String.length (strip l)) &&
              Bool.eqb (startswith "#" (strip l)) false) eqn:E;
      [|discriminate Hk].
    assert (E' : (0 <? String.length (strip l)) &&
                 negb (startswith "#" (strip l)) = true)
      by (destruct (startswith "#" (strip l)); exact E).
    rewrite E'. simpl in Hk, Hok. inversion Hok as [|r rs Hr Hrs]; subst.
    unfold conforms in Hr. rewrite Hr, Nat.eqb_refl. simpl.
    rewrite (IH rest _ _ _ Hk Hbad Hrs). do 3 f_equal. lia.
Qed.

Lemma section_lines_lookup (comment : bool) (rest : list string)
    (k : nat) (row : string) :
  section_lines comment rest !! k = Some row ->
  exists l, rest !! k = Some l /\ strip l = row.
Proof.
  revert k. induction rest as [|l rest IH]; intros k H; [discriminate H|].
  simpl in H. destruct (_ && _); [|discriminate H].
  destruct k as [|k]; simpl in *.
  - injection H as <-. eauto.
  - apply IH. exact H.
Qed.

Lemma scan_draws_unfold (fp : file) (config_dict : gmap string pyobj)
    (lineno : nat) (names : list string) :
  config_dict !! "column_names" = Some (VTuple names) ->
  scan_draws fp config_dict lineno =
  do (cur_pos, lineno, draws_found, first_draw) <-
     scan_draws_loop (length names) (drop (f_pos fp) (f_lines fp))
                     (f_pos fp) lineno 0 None;
  Ok (seek fp cur_pos,
      <["first_draw" :=
          match first_draw with Some a => VArray a | None => VNone end]>
        (<["draws" := VInt (Z.of_nat draws_found)]> config_dict),
      lineno).
Proof.
  intros H. unfold scan_draws, getitem. rewrite H. reflexivity.
Qed.

(** The first pass of the loop, which keeps the first draw. *)
Lemma scan_draws_loop_first (num_cols : nat) (rest : list string)
    (cur_pos lineno : nat) (row : string) (rows' : list string) :
  section_lines false rest = row :: rows' ->
  exists l rest',
    rest = l :: rest' /\ strip l = row /\
    section_lines false rest' = rows' /\
    scan_draws_loop num_cols rest cur_pos lineno 0 None =
    if negb (length (split "," row) =? num_cols) then
      Raise (ValueError
               (msg_bad_draw (S lineno) num_cols (length (split "," row))))
    else
      do a <- mapR py_float (split "," row);
      scan_draws_loop num_cols rest' (S cur_pos) (S lineno) 1 (Some a).
Proof.
  intros H. destruct rest as [|l rest']; [discriminate H|].
  simpl in H.
  destruct ((0 <? String.length (strip l)) &&
            Bool.eqb (startswith "#" (strip l)) false) eqn:E;
    [|discriminate H].
  assert (E' : (0 <? String.length (strip l)) &&
               negb (startswith "#" (strip l)) = true)
    by (destruct (startswith "#" (strip l)); exact E).
  injection H as H1 H2. exists l, rest'. repeat split; try assumption.
  simpl. rewrite E', H1.
  destruct (negb (length (split "," row) =? num_cols)); [reflexivity|].
  destruct (mapR py_float (split "," row)); reflexivity.
Qed.

(** C7. The draw scan passes the lines up to the first comment line,
    blank line or end of file.  Without such a line it stores
    [draws = 0] and [first_draw = None].  When every line splits at the
    commas into [len(column_names)] fields, the fields of the first line
    are converted to floats and stored as [first_draw], and the number
    of lines passed is stored as [draws].  The first line that does not
    split so stops the scan with the error naming [lineno + k + 1], the
    number wanted and the number found, where [k] lines precede it in
    the section; when [lineno] counts the lines before the cursor this
    is the 1-based number of that line in the file.  (A first line whose
    fields are not numbers stops the scan with the conversion error.) *)
Theorem scan_draws_rows (fp : file) (config_dict : gmap string pyobj)
    (lineno : nat) (names : list string) :
  config_dict !! "column_names" = Some (VTuple names) ->
  (section_at false fp = [] ->
   scan_draws fp config_dict lineno =
   Ok (seek fp (f_pos fp),
       <["first_draw" := VNone]> (<["draws" := VInt 0]> config_dict),
       lineno)) /\
  (forall (row : string) (rows' : list string) (a : list pyfloat),
      section_at false fp = row :: rows' ->
      Forall (conforms (length names)) (section_at false fp) ->
      mapR py_float (split "," row) = Ok a ->
      scan_draws fp config_dict lineno =
      Ok (seek fp (f_pos fp + length (section_at false fp)),
          <["first_draw" := VArray a]>
            (<["draws" := VInt (Z.of_nat (length (section_at false fp)))]>
               config_dict),
          lineno + length (section_at false fp))) /\
  (forall (k : nat) (row : string),
      section_at false fp !! k = Some row ->
      ~ conforms (length names) row ->
      Forall (conforms (length names)) (take k (section_at false fp)) ->
      (k = 0 \/
       exists a, mapR py_float
                   (split "," (default "" (head (section_at false fp))))
                 = Ok a) ->
      scan_draws fp config_dict lineno =
      Raise (ValueError
               (msg_bad_draw (lineno + k + 1) (length names)
                             (length (split "," row)))) /\
      (in_step fp lineno ->
       lineno + k + 1 = S (f_pos fp + k) /\
       strip <$> f_lines fp !! (f_pos fp + k) = Some row)) /\
  (forall (row : string) (rows' : list string) (e : exn),
      section_at false fp = row :: rows' ->
      conforms (length names) row ->
      mapR py_float (split "," row) = Raise e ->
      scan_draws fp config_dict lineno = Raise e).
Proof.
  intros Hn. rewrite (scan_draws_unfold _ _ _ _ Hn). unfold section_at.
  split; [|split; [|split]].
  - intros H. destruct (drop (f_pos fp) (f_lines fp)) as [|l rest] eqn:E.
    + reflexivity.
    + simpl in H |- *.
      destruct ((0 <? String.length (strip l)) &&
                Bool.eqb (startswith "#" (strip l)) false) eqn:E1;
        [discriminate H|].
      assert (E' : (0 <? String.length (strip l)) &&
                   negb (startswith "#" (strip l)) = false)
        by (destruct (startswith "#" (strip l)); exact E1).
      rewrite E'. reflexivity.
  - intros row rows' a H Hall Ha.
    destruct (scan_draws_loop_first (length names) _ (f_pos fp) lineno _ _ H)
      as (l & rest' & Hrest & Hl & Hr & Hloop); rewrite Hloop.
    rewrite H in Hall |- *. inversion Hall as [|r rs Hrow Hrows]; subst r rs.
    unfold conforms in Hrow. rewrite Hrow, Nat.eqb_refl, Ha. simpl.
    rewrite <- Hr in Hrows. rewrite scan_draws_loop_conforming by exact Hrows.
    rewrite Hr. simpl. rewrite !Nat.add_succ_r.
    repeat f_equal.
  - intros k row Hk Hbad Hok Hfirst. split.
    + destruct (section_lines false (drop (f_pos fp) (f_lines fp)))
        as [|r0 rows'] eqn:H; [discriminate Hk|].
      destruct (scan_draws_loop_first (length names) _ (f_pos fp) lineno _ _ H)
        as (l & rest' & Hrest & Hl & Hr & Hloop); rewrite Hloop.
      destruct k as [|k]; simpl in Hk.
      * injection Hk as ->. unfold conforms in Hbad.
        apply Nat.eqb_neq in Hbad. rewrite Hbad. simpl.
        do 3 f_equal. lia.
      * destruct Hfirst as [Hz|[a Ha]]; [discriminate Hz|].
        simpl in Ha, Hok. inversion Hok as [|r rs Hrow Hrows]; subst r rs.
        unfold conforms in Hrow. rewrite Hrow, Nat.eqb_refl, Ha. simpl.
        rewrite <- Hr in Hk, Hrows.
        rewrite (scan_draws_loop_bad_row _ _ _ _ _ _ k row Hk Hbad Hrows).
        simpl. do 3 f_equal. lia.
    + intros Hstep.
      destruct (section_lines_lookup _ _ _ _ Hk) as (l & Hl & Hs).
      rewrite lookup_drop in Hl.
      split.
      * rewrite Hstep; [lia|]. apply lookup_lt_Some in Hl. lia.
      * rewrite Hl. simpl. rewrite Hs. reflexivity.
  - intros row rows' e H Hrow He.
    destruct (scan_draws_loop_first (length names) _ (f_pos fp) lineno _ _ H)
      as (l & rest' & Hrest & Hl & Hr & Hloop); rewrite Hloop.
    unfold conforms in Hrow. rewrite Hrow, Nat.eqb_refl, He. reflexivity.
Qed.

Lemma scan_draws_rows_witness :
  let fp := open (Examples.unlines ["1.5,2"; "3,4,5"; "# end"]) in
  let d : gmap string pyobj := {[ "column_names" := VTuple ["a"; "b"] ]} in
  d !! "column_names" = Some (VTuple ["a"; "b"]) /\
  scan_draws fp d 0 =
  Raise (ValueError "line 2: bad draw, expecting 2 items, found 3").
Proof.
  intros fp d.
  assert (H : d !! "column_names" = Some (VTuple ["a"; "b"]))
    by (vm_compute; reflexivity).
  split; [exact H|].
  destruct (scan_draws_rows fp d 0 ["a"; "b"] H) as (_ & _ & H3 & _).
  destruct (H3 1 "3,4,5") as [E _].
  - vm_compute. reflexivity.
  - vm_compute. intros E. discriminate E.
  - vm_compute. repeat constructor.
  - right. vm_compute. eexists. reflexivity.
  - exact E.
Defined.

End ScanDraws.

(** ** The metric scan *)

Module ScanMetric.
Import PyStr PyNum StanCsv ScanSpec ScanFacts.

(** [readline] at the cursor reached after [j] calls. *)
Lemma readline_after (fp : file) (j : nat) :
  readline (seek fp (pos_after fp j)) =
  (line_at fp j, seek fp (pos_after fp (j + 1))).
Proof.
  rewrite readline_spec, line_at_seek, pos_after_seek, seek_seek, Nat.add_0_r.
  reflexivity.
Qed.

Lemma seek_pos_after_0 (fp : file) : seek fp (pos_after fp 0) = fp.
Proof.
  destruct fp as [ls p]. unfold seek, pos_after; simpl. f_equal. lia.
Qed.

Lemma scan_metric_rows_ok (fp : file) (N k j lineno : nat) :
  (forall i, i < k ->
             length (split "," (lstrip comment_chars (line_at fp (j + i)))) = N) ->
  scan_metric_rows k N (seek fp (pos_after fp j)) lineno =
  Ok (seek fp (pos_after fp (j + k)), lineno + k).
Proof.
  revert j lineno. induction k as [|k IH]; intros j lineno H.
  - rewrite !Nat.add_0_r. reflexivity.
  - simpl. rewrite readline_after.
    specialize (H 0 ltac:(lia)) as H0. rewrite Nat.add_0_r in H0.
    rewrite H0, Nat.eqb_refl. simpl.
    rewrite IH.
    + replace (j + 1 + k) with (j + S k) by lia.
      replace (S lineno + k) with (lineno + S k) by lia. reflexivity.
    + intros i Hi. replace (j + 1 + i) with (j + S i) by lia. apply H. lia.
Qed.

Lemma scan_metric_rows_bad (fp : file) (N k b j lineno : nat) :
  b < k ->
  length (split "," (lstrip comment_chars (line_at fp (j + b)))) <> N ->
  (forall i, i < b ->
             length (split "," (lstrip comment_chars (line_at fp (j + i)))) = N) ->
  scan_metric_rows k N (seek fp (pos_after fp j)) lineno =
  Raise (ValueError (msg_mass_matrix (lineno + b + 1))).
Proof.
  revert b j lineno. induction k as [|k IH]; intros b j lineno Hb Hbad Hok;
    [lia|].
  simpl. rewrite readline_after. destruct b as [|b].
  - rewrite Nat.add_0_r in Hbad. apply Nat.eqb_neq in Hbad. rewrite Hbad.
    simpl. replace (lineno + 0 + 1) with (S lineno) by lia. reflexivity.
  - specialize (Hok 0 ltac:(lia)) as H0. rewrite Nat.add_0_r in H0.
    rewrite H0, Nat.eqb_refl. simpl.
    rewrite (IH b).
    + replace (S lineno + b + 1) with (lineno + S b + 1) by lia. reflexivity.
    + lia.
    + replace (j + 1 + b) with (j + S b) by lia. exact Hbad.
    + intros i Hi. replace (j + 1 + i) with (j + S i) by lia. apply Hok. lia.
Qed.

(** The metric scan as a function of the lines at the cursor. *)
Lemma scan_metric_unfold (fp : file) (d : gmap string pyobj) (lineno : nat) :
  scan_metric fp d lineno =
  let d' := match d !! "metric" with
            | None => <["metric" := VStr "diag_e"]> d
            | Some _ => d
            end in
  let metric := default VNone (d' !! "metric") in
  if negb (String.eqb (strip (line_at fp 0)) "# Adaptation terminated") then
    Raise (ValueError (msg_expecting_metric (S lineno) (strip (line_at fp 0))))
  else
    match split "=" (strip (line_at fp 1)) with
    | [label; stepsize] =>
        if negb (startswith "# Step size" label) then
          Raise (ValueError
                   (msg_expecting_stepsize (S (S lineno))
                                           (strip (line_at fp 1))))
        else
          match float_of_string (strip stepsize) with
          | None =>
              Raise (ValueError (msg_invalid_stepsize (S (S lineno)) stepsize))
          | Some _ =>
              if negb
                   ((eq_str metric "diag_e" &&
                     String.eqb (strip (line_at fp 2))
                       "# Diagonal elements of inverse mass matrix:")
                    ||
                    (eq_str metric "dense_e" &&
                     String.eqb (strip (line_at fp 2))
                       "# Elements of inverse mass matrix:"))
              then Raise (ValueError (msg_mass_matrix (S (S (S lineno)))))
              else
                let N := length (split "," (lstrip comment_chars
                                                   (line_at fp 3))) in
                if eq_str metric "diag_e" then
                  Ok (seek fp (pos_after fp 4),
                      <["num_params" := VInt (Z.of_nat N)]> d',
                      S (S (S (S lineno))))
                else
                  do (fp', lineno') <-
                     scan_metric_rows (N - 1) N (seek fp (pos_after fp 4))
                                      (S (S (S (S lineno))));
                  Ok (fp', <["num_params" := VInt (Z.of_nat N)]> d', lineno')
          end
    | _ => Raise (ValueError "wrong number of values to unpack (expected 2)")
    end.
Proof.
  unfold scan_metric.
  rewrite <- (seek_pos_after_0 fp) at 1.
  rewrite !readline_after. cbv beta iota zeta.
  change (0 + 1 + 1 + 1 + 1) with 4. change (0 + 1 + 1 + 1) with 3.
  change (0 + 1 + 1) with 2. change (0 + 1) with 1.
  reflexivity.
Qed.

(** A line that is not empty is a line of the file. *)
Lemma line_at_lt (fp : file) (k : nat) :
  line_at fp k <> "" -> f_pos fp + k < length (f_lines fp).
Proof.
  unfold line_at. intros H.
  destruct (f_lines fp !! (f_pos fp + k)) as [l|] eqn:E.
  - apply lookup_lt_Some in E. exact E.
  - exfalso. apply H. reflexivity.
Qed.

(** C6. In a file that declares [metric = dense_e], the metric scan
    fails when the line announcing the mass matrix carries the diagonal
    label.  Otherwise, the first row of the mass matrix has [N] fields
    and sets [num_params = N]; the scan then reads exactly [N - 1] more
    lines and succeeds when each of them splits into exactly [N] fields;
    the first of them that does not makes the scan fail. *)
Theorem scan_metric_dense_e (fp : file) (d : gmap string pyobj)
    (lineno : nat) :
  d !! "metric" = Some (VStr "dense_e") ->
  (strip (line_at fp 2) = "# Diagonal elements of inverse mass matrix:" ->
   raises (scan_metric fp d lineno)) /\
  (forall label stepsize : string,
      strip (line_at fp 0) = "# Adaptation terminated" ->
      split "=" (strip (line_at fp 1)) = [label; stepsize] ->
      startswith "# Step size" label = true ->
      is_Some (float_of_string (strip stepsize)) ->
      strip (line_at fp 2) = "# Elements of inverse mass matrix:" ->
      let N := length (split "," (lstrip comment_chars (line_at fp 3))) in
      ((forall i, i < N - 1 -> length (split "," (matrix_row fp i)) = N) ->
       scan_metric fp d lineno =
       Ok (seek fp (pos_after fp 4 + (N - 1)),
           <["num_params" := VInt (Z.of_nat N)]> d,
           lineno + 4 + (N - 1)) /\
       pos_after fp 4 + (N - 1) <= length (f_lines fp)) /\
      (forall b,
          b < N - 1 ->
          length (split "," (matrix_row fp b)) <> N ->
          (forall i, i < b -> length (split "," (matrix_row fp i)) = N) ->
          scan_metric fp d lineno =
          Raise (ValueError (msg_mass_matrix (lineno + 4 + b + 1))))).
Proof.
  intros Hm. rewrite scan_metric_unfold. rewrite Hm. cbv zeta. rewrite Hm.
  change (eq_str (default VNone (Some (VStr "dense_e"))) "diag_e") with false.
  change (eq_str (default VNone (Some (VStr "dense_e"))) "dense_e") with true.
  rewrite andb_false_l, orb_false_l, andb_true_l.
  split.
  - intros H3. rewrite H3.
    destruct (negb _); [eexists; reflexivity|].
    destruct (split "=" (strip (line_at fp 1))) as [|label [|stepsize [|x t]]];
      try (eexists; reflexivity).
    destruct (negb _); [eexists; reflexivity|].
    destruct (float_of_string _); eexists; reflexivity.
  - intros label stepsize H0 H1 Hl [f Hf] H2.
    rewrite H0, H1, Hl, Hf, H2. simpl negb. cbv iota.
    set (N := length (split "," (lstrip comment_chars (line_at fp 3)))).
    assert (Hpos : f_pos fp < length (f_lines fp)).
    { pose proof (line_at_lt fp 0) as Hlt. rewrite Nat.add_0_r in Hlt.
      apply Hlt. intros E. rewrite E in H0. discriminate H0. }
    split.
    + intros Hrows. unfold matrix_row in Hrows.
      rewrite (scan_metric_rows_ok fp N (N - 1) 4 _ Hrows). simpl.
      assert (Hlen : N - 1 = 0 \/
                     f_pos fp + 4 + (N - 1) <= length (f_lines fp)).
      { destruct (N - 1) as [|m] eqn:Em; [left; reflexivity|right].
        assert (f_pos fp + (4 + m) < length (f_lines fp)); [|lia].
        apply line_at_lt. intros E.
        specialize (Hrows m ltac:(lia)). rewrite E in Hrows.
        simpl in Hrows. lia. }
      assert (E4 : pos_after fp 4 + (N - 1) = pos_after fp (4 + (N - 1)))
        by (unfold pos_after; lia).
      rewrite E4. split.
      * replace (S (S (S (S (lineno + (N - 1))))))
          with (lineno + 4 + (N - 1)) by lia. reflexivity.
      * unfold pos_after. lia.
    + intros b Hb Hbad Hok. unfold matrix_row in Hbad, Hok.
      rewrite (scan_metric_rows_bad fp N (N - 1) b 4 _ Hb Hbad Hok). simpl.
      replace (S (S (S (S (lineno + b + 1))))) with (lineno + 4 + b + 1)
        by lia.
      reflexivity.
Qed.

Lemma scan_metric_dense_e_witness :
  let fp := open (Examples.unlines
                    ["# Adaptation terminated";
                     "# Step size = 0.9";
                     "# Elements of inverse mass matrix:";
                     "# 1.0, 0.1";
                     "# 0.1, 1.0";
                     "-7.0,0.25,0.5"]) in
  let d : gmap string pyobj := {[ "metric" := VStr "dense_e" ]} in
  d !! "metric" = Some (VStr "dense_e") /\
  scan_metric fp d 0 = Ok (seek fp 5, <["num_params" := VInt 2]> d, 5).
Proof.
  intros fp d.
  assert (H : d !! "metric" = Some (VStr "dense_e"))
    by (vm_compute; reflexivity).
  split; [exact H|].
  destruct (scan_metric_dense_e fp d 0 H) as [_ H2].
  destruct (H2 "# Step size " " 0.9") as [Hok _].
  - vm_compute. reflexivity.
  - vm_compute. reflexivity.
  - vm_compute. reflexivity.
  - vm_compute. eexists. reflexivity.
  - vm_compute. reflexivity.
  - destruct Hok as [E _].
    + intros i Hi. change (i < 1) in Hi.
      destruct i as [|i]; [vm_compute; reflexivity|lia].
    + exact E.
Defined.

End ScanMetric.

(** ** The whole scan *)

Module ScanCsv.
Import PyStr PyNum StanCsv ScanSpec ScanFacts ScanConfig ScanMetric.

Lemma scan_stan_csv_unfold (text : string) (is_sampling : bool) :
  scan_stan_csv text is_sampling =
  do (fp, dict, lineno) <- before_draws text is_sampling;
  do (fp, dict, lineno) <- scan_draws fp dict lineno;
  Ok dict.
Proof.
  unfold scan_stan_csv, before_draws, before_metric.
  destruct (scan_config (open text) ∅ 0) as [[fp1 d1] n1].
  destruct (scan_column_names fp1 d1 n1) as [[fp2 d2] n2].
  destruct (scan_warmup fp2 d2 n2) as [[fp3 d3] n3].
  reflexivity.
Qed.

(** What the header scan leaves in the dictionary. *)
Lemma before_metric_columns (text : string) :
  exists names,
    (before_metric text).1.2 !! "column_names" = Some (VTuple names) /\
    (before_metric text).1.2 !! "num_params" =
      Some (VInt (Z.of_nat (length names) - 1)).
Proof.
  unfold before_metric.
  destruct (scan_config (open text) ∅ 0) as [[fp1 d1] n1].
  unfold scan_column_names.
  destruct (readline fp1) as [line fp2].
  exists (split "," (strip line)).
  unfold scan_warmup.
  destruct (_ !! "save_warmup");
    [destruct (scan_warmup_loop _ _ _)|]; simpl;
    (split; [rewrite lookup_insert_ne by discriminate|];
     apply lookup_insert_eq).
Qed.

(** The metric scan sets [num_params] to the number of fields of the
    first row of the mass matrix and leaves [column_names] alone. *)
Lemma scan_metric_num_params (fp fp' : file) (d d' : gmap string pyobj)
    (lineno lineno' : nat) :
  scan_metric fp d lineno = Ok (fp', d', lineno') ->
  d' !! "num_params" =
    Some (VInt (Z.of_nat
                  (length (split "," (lstrip comment_chars (line_at fp 3)))))) /\
  d' !! "column_names" = d !! "column_names".
Proof.
  rewrite scan_metric_unfold. cbv zeta.
  set (d0 := match d !! "metric" with
             | Some _ => d
             | None => <["metric" := VStr "diag_e"]> d
             end).
  assert (Hd0 : d0 !! "column_names" = d !! "column_names").
  { subst d0. destruct (d !! "metric"); [reflexivity|].
    apply lookup_insert_ne. discriminate. }
  destruct (negb _); [discriminate|].
  destruct (split "=" (strip (line_at fp 1))) as [|label [|stepsize [|x t]]];
    try discriminate.
  destruct (negb _); [discriminate|].
  destruct (float_of_string _); [|discriminate].
  destruct (negb _); [discriminate|].
  destruct (eq_str _ "diag_e").
  - intros H. injection H as _ <- _.
    split; [apply lookup_insert_eq|].
    rewrite lookup_insert_ne by discriminate. exact Hd0.
  - destruct (scan_metric_rows _ _ _ _) as [[fp4 n4]|e]; [|discriminate].
    simpl. intros H. injection H as _ <- _.
    split; [apply lookup_insert_eq|].
    rewrite lookup_insert_ne by discriminate. exact Hd0.
Qed.

(** The draw scan leaves both entries alone. *)
Lemma scan_draws_keeps (fp fp' : file) (d d' : gmap string pyobj)
    (lineno lineno' : nat) :
  scan_draws fp d lineno = Ok (fp', d', lineno') ->
  d' !! "num_params" = d !! "num_params" /\
  d' !! "column_names" = d !! "column_names".
Proof.
  unfold scan_draws.
  destruct (getitem d "column_names") as [names|e]; [|discriminate]. simpl.
  destruct (py_len names) as [num_cols|e]; [|discriminate]. simpl.
  destruct (scan_draws_loop _ _ _ _ _ _) as [[[[p n] k] fd]|e];
    [|discriminate].
  simpl. intros H. injection H as _ <- _.
  split; rewrite !lookup_insert_ne by discriminate; reflexivity.
Qed.

(** The metric scan does not read [num_params]: what the dictionary
    holds under it makes no difference to the outcome. *)
Lemma scan_metric_ignores_num_params (fp : file) (d : gmap string pyobj)
    (lineno : nat) (v : pyobj) :
  scan_metric fp (<["num_params" := v]> d) lineno = scan_metric fp d lineno.
Proof.
  rewrite !scan_metric_unfold. cbv zeta.
  rewrite lookup_insert_ne by discriminate.
  destruct (d !! "metric") as [m|] eqn:Em.
  - rewrite lookup_insert_ne, Em by discriminate. cbn [from_option id].
    destruct (negb _); [reflexivity|].
    destruct (split "=" (strip (line_at fp 1))) as [|label [|stepsize [|x t]]];
      try reflexivity.
    destruct (negb _); [reflexivity|].
    destruct (float_of_string _); [|reflexivity].
    destruct (negb _); [reflexivity|].
    rewrite insert_insert_eq. reflexivity.
  - rewrite !lookup_insert_eq. cbn [from_option id].
    destruct (negb _); [reflexivity|].
    destruct (split "=" (strip (line_at fp 1))) as [|label [|stepsize [|x t]]];
      try reflexivity.
    destruct (negb _); [reflexivity|].
    destruct (float_of_string _); [|reflexivity].
    destruct (negb _); [reflexivity|].
    rewrite (insert_insert_ne _ "metric" "num_params") by discriminate.
    rewrite insert_insert_eq. reflexivity.
Qed.

(** Nor does it read [column_names]: the outcome is the same, and the
    entry is left as it is. *)
Lemma scan_metric_ignores_column_names (fp : file) (d : gmap string pyobj)
    (lineno : nat) (v : pyobj) :
  scan_metric fp (<["column_names" := v]> d) lineno =
  match scan_metric fp d lineno with
  | Ok (fp', d', lineno') => Ok (fp', <["column_names" := v]> d', lineno')
  | Raise e => Raise e
  end.
Proof.
  rewrite !scan_metric_unfold. cbv zeta.
  rewrite lookup_insert_ne by discriminate.
  destruct (d !! "metric") as [m|] eqn:Em.
  - rewrite lookup_insert_ne, Em by discriminate. cbn [from_option id].
    destruct (negb _); [reflexivity|].
    destruct (split "=" (strip (line_at fp 1))) as [|label [|stepsize [|x t]]];
      try reflexivity.
    destruct (negb _); [reflexivity|].
    destruct (float_of_string _); [|reflexivity].
    destruct (negb _); [reflexivity|].
    rewrite (insert_insert_ne _ "num_params" "column_names") by discriminate.
    destruct (eq_str m "diag_e"); [reflexivity|].
    destruct (scan_metric_rows _ _ _ _) as [[fp4 n4]|e]; reflexivity.
  - rewrite !lookup_insert_eq. cbn [from_option id].
    destruct (negb _); [reflexivity|].
    destruct (split "=" (strip (line_at fp 1))) as [|label [|stepsize [|x t]]];
      try reflexivity.
    destruct (negb _); [reflexivity|].
    destruct (float_of_string _); [|reflexivity].
    destruct (negb _); [reflexivity|].
    rewrite (insert_insert_ne _ "metric" "column_names") by discriminate.
    rewrite (insert_insert_ne _ "num_params" "column_names") by discriminate.
    reflexivity.
Qed.

(** The draw scan does not read [num_params]; it reads the number of
    columns off [column_names]. *)
Lemma scan_draws_ignores_num_params (fp : file) (d : gmap string pyobj)
    (lineno : nat) (v : pyobj) :
  scan_draws fp (<["num_params" := v]> d) lineno =
  match scan_draws fp d lineno with
  | Ok (fp', d', lineno') => Ok (fp', <["num_params" := v]> d', lineno')
  | Raise e => Raise e
  end.
Proof.
  unfold scan_draws, getitem. rewrite lookup_insert_ne by discriminate.
  destruct (d !! "column_names") as [names|]; [|reflexivity]. cbn [bind].
  destruct (py_len names) as [num_cols|e]; [|reflexivity]. cbn [bind].
  destruct (scan_draws_loop _ _ _ _ _ _) as [[[[p n] k] fd]|e]; [|reflexivity].
  cbn [bind].
  rewrite (insert_insert_ne _ "draws" "num_params") by discriminate.
  rewrite (insert_insert_ne _ "first_draw" "num_params") by discriminate.
  reflexivity.
Qed.

(** C4, as the code has it. After a successful scan, [num_params] is
    [len(column_names) - 1] when the metric section is not scanned; when
    it is scanned, [num_params] is the number of fields of the first row
    of the mass matrix, whatever the number of columns. The two numbers
    are never compared, for any file: the scanner is the header scan
    followed by the metric scan (when sampling) and the draw scan; the
    outcome of the metric scan is the same whatever [num_params] and
    [column_names] hold, and the outcome of the draw scan is the same
    whatever [num_params] holds. *)
Theorem scan_stan_csv_num_params (text : string) (is_sampling : bool)
    (meta : gmap string pyobj) :
  scan_stan_csv text is_sampling = Ok meta ->
  (exists names,
      meta !! "column_names" = Some (VTuple names) /\
      meta !! "num_params" =
        Some (VInt
                (if is_sampling then
                   Z.of_nat
                     (length
                        (split ","
                           (lstrip comment_chars
                              (line_at (before_metric text).1.1 3))))
                 else Z.of_nat (length names) - 1))) /\
  (forall is_sampling' : bool,
      scan_stan_csv text is_sampling' =
      let '(fp, d, lineno) := before_metric text in
      do (fp1, d1, lineno1) <-
         (if is_sampling' then scan_metric fp d lineno
          else Ok (fp, d, lineno));
      do (fp2, d2, lineno2) <- scan_draws fp1 d1 lineno1;
      Ok d2) /\
  (forall fp d lineno v,
      scan_metric fp (<["num_params" := v]> d) lineno =
      scan_metric fp d lineno) /\
  (forall fp d lineno v,
      scan_metric fp (<["column_names" := v]> d) lineno =
      match scan_metric fp d lineno with
      | Ok (fp', d', lineno') =>
          Ok (fp', <["column_names" := v]> d', lineno')
      | Raise e => Raise e
      end) /\
  (forall fp d lineno v,
      scan_draws fp (<["num_params" := v]> d) lineno =
      match scan_draws fp d lineno with
      | Ok (fp', d', lineno') => Ok (fp', <["num_params" := v]> d', lineno')
      | Raise e => Raise e
      end).
Proof.
  intros H. split; [|split; [|split; [|split]]].
  2: { intros b. rewrite scan_stan_csv_unfold. unfold before_draws.
       destruct (before_metric text) as [[fp d] n]. reflexivity. }
  2: exact scan_metric_ignores_num_params.
  2: exact scan_metric_ignores_column_names.
  2: exact scan_draws_ignores_num_params.
  revert H.
  rewrite scan_stan_csv_unfold. unfold before_draws. intros H.
  destruct (before_metric_columns text) as (names & Hc & Hp).
  destruct (before_metric text) as [[fp d] n]. simpl in Hc, Hp |- *.
  exists names. destruct is_sampling.
  - destruct (scan_metric fp d n) as [[[fp1 d1] n1]|e] eqn:Em;
      [|discriminate H].
    simpl in H.
    destruct (scan_draws fp1 d1 n1) as [[[fp2 d2] n2]|e] eqn:Ed;
      [|discriminate H].
    simpl in H. injection H as <-.
    apply scan_metric_num_params in Em as [Em1 Em2].
    apply scan_draws_keeps in Ed as [Ed1 Ed2].
    rewrite Ed1, Ed2, Em1, Em2. auto.
  - simpl in H.
    destruct (scan_draws fp d n) as [[[fp2 d2] n2]|e] eqn:Ed;
      [|discriminate H].
    simpl in H. injection H as <-.
    apply scan_draws_keeps in Ed as [Ed1 Ed2].
    rewrite Ed1, Ed2. auto.
Qed.

Lemma scan_stan_csv_num_params_witness :
  exists meta names,
    scan_stan_csv Examples.stan_csv_one_param true = Ok meta /\
    meta !! "column_names" = Some (VTuple names) /\
    meta !! "num_params" = Some (VInt 1).
Proof.
  destruct (scan_stan_csv Examples.stan_csv_one_param true) as [meta|e] eqn:E;
    [|vm_compute in E; discriminate E].
  destruct (scan_stan_csv_num_params _ _ _ E) as ((names & Hc & Hp) & _).
  exists meta, names. split; [reflexivity|]. split; [exact Hc|].
  rewrite Hp. vm_compute. reflexivity.
Defined.

(** C4, as claimed, fails: a file with eight columns and one parameter
    is scanned without error, and [num_params] is 1, not 7. *)
Lemma scan_stan_csv_num_params_differs :
  exists meta names,
    scan_stan_csv Examples.stan_csv_one_param true = Ok meta /\
    meta !! "column_names" = Some (VTuple names) /\
    length names = 8 /\
    meta !! "num_params" = Some (VInt 1) /\
    (1 <> Z.of_nat (length names) - 1)%Z.
Proof.
  eexists. eexists.
  split; [vm_compute; reflexivity|].
  split; [vm_compute; reflexivity|].
  split; [reflexivity|].
  split; [vm_compute; reflexivity|].
  vm_compute. discriminate.
Qed.

(** *** The line counter follows the cursor *)

Lemma in_step_after (fp : file) (lineno k : nat) :
  in_step fp lineno -> in_step (seek fp (pos_after fp k)) (lineno + k).
Proof.
  unfold in_step, pos_after, seek; simpl. intros H Hlt.
  rewrite H by lia. lia.
Qed.

Lemma in_step_section (fp : file) (lineno k : nat) :
  in_step fp lineno -> in_step (seek fp (f_pos fp + k)) (lineno + k).
Proof.
  unfold in_step, seek; simpl. intros H Hlt. rewrite H by lia. reflexivity.
Qed.

Lemma scan_warmup_loop_spec (rest : list string) (cur_pos lineno : nat) :
  scan_warmup_loop rest cur_pos lineno =
  (cur_pos + length (section_lines false rest),
   lineno + length (section_lines false rest)).
Proof.
  revert cur_pos lineno.
  induction rest as [|l rest IH]; intros cur_pos lineno; simpl.
  - rewrite !Nat.add_0_r. reflexivity.
  - destruct (startswith "#" (strip l)); simpl.
    + rewrite andb_false_r. simpl. rewrite !Nat.add_0_r. reflexivity.
    + destruct (0 <? String.length (strip l)); simpl.
      * rewrite IH, !Nat.add_succ_r. reflexivity.
      * rewrite !Nat.add_0_r. reflexivity.
Qed.

Lemma scan_metric_rows_cursor (fp fp' : file) (N k j lineno lineno' : nat) :
  scan_metric_rows k N (seek fp (pos_after fp j)) lineno = Ok (fp', lineno') ->
  fp' = seek fp (pos_after fp (j + k)) /\ lineno' = lineno + k.
Proof.
  revert j lineno. induction k as [|k IH]; intros j lineno; simpl.
  - intros H. injection H as <- <-. rewrite !Nat.add_0_r. auto.
  - rewrite readline_after. destruct (negb _); [discriminate|].
    intros H. apply IH in H as [-> ->].
    replace (j + 1 + k) with (j + S k) by lia. split; [reflexivity|lia].
Qed.

Lemma scan_metric_in_step (fp fp' : file) (d d' : gmap string pyobj)
    (lineno lineno' : nat) :
  scan_metric fp d lineno = Ok (fp', d', lineno') ->
  in_step fp lineno -> in_step fp' lineno'.
Proof.
  rewrite scan_metric_unfold. cbv zeta.
  destruct (negb _); [discriminate|].
  destruct (split "=" (strip (line_at fp 1))) as [|label [|stepsize [|x t]]];
    try discriminate.
  destruct (negb _); [discriminate|].
  destruct (float_of_string _); [|discriminate].
  destruct (negb _); [discriminate|].
  destruct (eq_str _ "diag_e").
  - intros H Hs. injection H as <- _ <-.
    replace (S (S (S (S lineno)))) with (lineno + 4) by lia.
    apply in_step_after. exact Hs.
  - destruct (scan_metric_rows _ _ _ _) as [[fp4 n4]|e] eqn:E; [|discriminate].
    simpl. intros H Hs. injection H as <- _ <-.
    apply scan_metric_rows_cursor in E as [-> ->].
    replace (S (S (S (S lineno))) + _) with
      (lineno + (4 + (length (split "," (lstrip comment_chars (line_at fp 3)))
                      - 1))) by lia.
    apply in_step_after. exact Hs.
Qed.

(** When the scan reaches the draws, [lineno] is the number of lines
    before the cursor: the number the draw scan reports for a line is
    its 1-based number in the file. *)
Lemma before_draws_in_step (text : string) (is_sampling : bool)
    (fp : file) (d : gmap string pyobj) (lineno : nat) :
  before_draws text is_sampling = Ok (fp, d, lineno) -> in_step fp lineno.
Proof.
  unfold before_draws.
  assert (H3 : in_step (before_metric text).1.1 (before_metric text).2).
  { unfold before_metric. rewrite scan_config_spec.
    assert (H1 : in_step
                   (seek (open text)
                         (f_pos (open text) + length (section_at true (open text))))
                   (0 + length (section_at true (open text))))
      by (apply in_step_section; intros _; reflexivity).
    revert H1. generalize (0 + length (section_at true (open text))).
    generalize (seek (open text)
                     (f_pos (open text) + length (section_at true (open text)))).
    generalize (foldl (fun d line => scan_config_line line d) ∅
                      (section_at true (open text))).
    intros d1 fp1 n1 H1.
    unfold scan_column_names. rewrite readline_spec.
    assert (H2 : in_step (seek fp1 (pos_after fp1 1)) (S n1)).
    { replace (S n1) with (n1 + 1) by lia. apply in_step_after. exact H1. }
    revert H2. generalize (seek fp1 (pos_after fp1 1)). generalize (S n1).
    intros n2 fp2 H2. unfold scan_warmup.
    destruct (_ !! "save_warmup"); [|exact H2].
    rewrite scan_warmup_loop_spec. simpl. unfold tell.
    apply in_step_section. exact H2. }
  destruct (before_metric text) as [[fp3 d3] n3]. simpl in H3.
  destruct is_sampling.
  - intros H. exact (scan_metric_in_step _ _ _ _ _ _ H H3).
  - intros H. injection H as <- _ <-. exact H3.
Qed.

End ScanCsv.

(** ** Row-major and column-major order *)

Module NumpyFacts.
Import PyNum Numpy CodecSpec.

Lemma map_fmap {A B : Type} (f : A -> B) (l : list A) : map f l = f <$> l.
Proof. reflexivity. Qed.

Lemma prod_cons (d : nat) (ds : list nat) : prod (d :: ds) = d * prod ds.
Proof. reflexivity. Qed.

Lemma unravel_C_valid (shp : list nat) (p : nat) :
  p < prod shp -> valid_index shp (unravel_C shp p).
Proof.
  revert p. induction shp as [|d ds IH]; intros p H; simpl.
  - constructor.
  - rewrite prod_cons in H.
    assert (Hp : prod ds <> 0) by (intros E; rewrite E in H; lia).
    constructor.
    + apply Nat.Div0.div_lt_upper_bound. lia.
    + apply IH. apply Nat.mod_upper_bound. exact Hp.
Qed.

Lemma ravel_C_unravel_C (shp : list nat) (p : nat) :
  p < prod shp -> ravel_C shp (unravel_C shp p) = p.
Proof.
  revert p. induction shp as [|d ds IH]; intros p H; simpl.
  - simpl in H. lia.
  - rewrite prod_cons in H.
    assert (Hp : prod ds <> 0) by (intros E; rewrite E in H; lia).
    rewrite IH by (apply Nat.mod_upper_bound; exact Hp).
    pose proof (Nat.div_mod_eq p (prod ds)). lia.
Qed.

Lemma ravel_F_lt (shp idx : list nat) :
  valid_index shp idx -> ravel_F shp idx < prod shp.
Proof.
  intros H. induction H as [|i d idx ds Hi _ IH].
  - simpl. lia.
  - rewrite prod_cons. cbn [ravel_F]. nia.
Qed.

Lemma unravel_F_ravel_F (shp idx : list nat) :
  valid_index shp idx -> unravel_F shp (ravel_F shp idx) = idx.
Proof.
  intros H. induction H as [|i d idx ds Hi _ IH]; simpl; [reflexivity|].
  set (r := ravel_F ds idx) in *.
  replace (i + d * r) with (i + r * d) by lia.
  f_equal.
  - rewrite Nat.Div0.mod_add. apply Nat.mod_small. exact Hi.
  - rewrite Nat.div_add by lia.
    rewrite (Nat.div_small i d Hi). exact IH.
Qed.

Lemma length_T_flat (a : ndarray) : length (T_flat a) = size a.
Proof. unfold T_flat. rewrite length_map, length_seq. reflexivity. Qed.

Lemma T_flat_lookup (a : ndarray) (q : nat) :
  q < size a ->
  T_flat a !!! q = data a !!! ravel_C (shape a) (unravel_F (shape a) q).
Proof.
  intros H. apply list_lookup_total_correct. unfold T_flat.
  rewrite map_fmap, list_lookup_fmap, lookup_seq_lt by exact H. reflexivity.
Qed.

(** Reading the column-major elements of an array back in column-major
    order gives the array: [reshape(order='F')] undoes [.T.flat]. *)
Lemma reshape_T_flat (a : ndarray) (g : num -> num) :
  wf_ndarray a ->
  map (fun p => map g (T_flat a)
                !!! ravel_F (shape a) (unravel_C (shape a) p))
      (seq 0 (prod (shape a)))
  = map g (data a).
Proof.
  intros Hwf. unfold wf_ndarray, size in Hwf.
  apply list_eq. intros i. rewrite !map_fmap, !list_lookup_fmap.
  destruct (decide (i < prod (shape a))) as [Hi|Hi].
  - rewrite lookup_seq_lt by exact Hi. simpl.
    assert (Hq : ravel_F (shape a) (unravel_C (shape a) i) < size a)
      by (apply ravel_F_lt, unravel_C_valid; exact Hi).
    rewrite (list_lookup_total_correct (map g (T_flat a)) _
               (g (T_flat a !!! ravel_F (shape a) (unravel_C (shape a) i)))).
    2:{ rewrite map_fmap, list_lookup_fmap,
          (list_lookup_lookup_total_lt (T_flat a))
          by (rewrite length_T_flat; exact Hq). reflexivity. }
    rewrite T_flat_lookup by exact Hq.
    rewrite unravel_F_ravel_F by (apply unravel_C_valid; exact Hi).
    rewrite ravel_C_unravel_C by exact Hi.
    rewrite (list_lookup_lookup_total_lt (data a) i) by lia. reflexivity.
  - rewrite lookup_seq_ge by lia.
    rewrite (proj2 (lookup_ge_None (data a) i)) by lia. reflexivity.
Qed.

(** The elements of a vector are in both orders at once. *)
Lemma T_flat_vector (a : ndarray) (n : nat) :
  shape a = [n] -> wf_ndarray a -> T_flat a = data a.
Proof.
  intros Hs Hwf. unfold wf_ndarray, size in Hwf.
  unfold T_flat, size. rewrite Hs in *. simpl in Hwf |- *.
  rewrite Nat.mul_1_r in *.
  apply list_eq. intros i. rewrite map_fmap, list_lookup_fmap.
  destruct (decide (i < n)) as [Hi|Hi].
  - rewrite lookup_seq_lt by exact Hi. simpl.
    rewrite Nat.mod_small by exact Hi.
    rewrite Nat.mul_1_r, Nat.add_0_r.
    rewrite (list_lookup_lookup_total_lt (data a) i) by lia. reflexivity.
  - rewrite lookup_seq_ge by lia.
    rewrite (proj2 (lookup_ge_None (data a) i)) by lia. reflexivity.
Qed.

End NumpyFacts.

(** ** More facts about strings: character sets, [strip], [replace],
       [split], [readlines] *)

Module TextFacts.
Import PyStr StrFacts.

Lemma all_chars_app (P : ascii -> bool) (a b : string) :
  all_chars P (a +:+ b) = all_chars P a && all_chars P b.
Proof.
  induction a as [|c a IH]; [reflexivity|].
  rewrite app_String. simpl. rewrite IH, andb_assoc. reflexivity.
Qed.

Lemma all_chars_impl (P Q : ascii -> bool) (s : string) :
  (forall c, P c = true -> Q c = true) ->
  all_chars P s = true -> all_chars Q s = true.
Proof.
  intros HPQ. induction s as [|c s IH]; [reflexivity|]. simpl.
  intros H. apply andb_true_iff in H as [H1 H2].
  rewrite (HPQ c H1), (IH H2). reflexivity.
Qed.

Lemma all_chars_substring (P : ascii -> bool) (s : string) (n m : nat) :
  all_chars P s = true -> all_chars P (String.substring n m s) = true.
Proof.
  revert n m. induction s as [|c s IH]; intros n m H.
  - destruct n, m; reflexivity.
  - simpl in H. apply andb_true_iff in H as [H1 H2].
    destruct n as [|n].
    + destruct m as [|m]; [reflexivity|]. simpl. rewrite H1. apply IH, H2.
    + simpl. apply IH, H2.
Qed.

(** *** [lstrip], [rstrip], [strip] *)

Lemma lstrip_with_fixed (p : ascii -> bool) (c : ascii) (s : string) :
  p c = false -> lstrip_with p (String c s) = String c s.
Proof. intros H. simpl. rewrite H. reflexivity. Qed.

Lemma rstrip_with_String (p : ascii -> bool) (c : ascii) (s : string) :
  rstrip_with p (String c s) =
  match rstrip_with p s with
  | EmptyString => if p c then EmptyString else String c EmptyString
  | t => String c t
  end.
Proof. reflexivity. Qed.

Lemma rstrip_with_snoc_drop (p : ascii -> bool) (s : string) (c : ascii) :
  p c = true -> rstrip_with p (s +:+ String c "") = rstrip_with p s.
Proof.
  intros H. induction s as [|d s IH].
  - simpl. rewrite H. reflexivity.
  - rewrite app_String, !rstrip_with_String, IH. reflexivity.
Qed.

Lemma rstrip_with_snoc_keep (p : ascii -> bool) (s : string) (c : ascii) :
  p c = false -> rstrip_with p (s +:+ String c "") = s +:+ String c "".
Proof.
  intros H. induction s as [|d s IH].
  - simpl. rewrite H. reflexivity.
  - rewrite app_String, rstrip_with_String, IH.
    destruct s; reflexivity.
Qed.

Lemma rstrip_with_none (p : ascii -> bool) (s : string) :
  all_chars (fun c => negb (p c)) s = true -> rstrip_with p s = s.
Proof.
  induction s as [|c s IH]; [reflexivity|]. simpl. intros H.
  apply andb_true_iff in H as [H1 H2]. rewrite (IH H2).
  apply negb_true_iff in H1. rewrite H1. destruct s; reflexivity.
Qed.

Lemma lstrip_with_none (p : ascii -> bool) (s : string) :
  all_chars (fun c => negb (p c)) s = true -> lstrip_with p s = s.
Proof.
  destruct s as [|c s]; [reflexivity|]. simpl. intros H.
  apply andb_true_iff in H as [H1 _].
  apply negb_true_iff in H1. rewrite H1. reflexivity.
Qed.

Lemma strip_none (s : string) :
  all_chars (fun c => negb (isspace c)) s = true -> strip s = s.
Proof.
  intros H. unfold strip. rewrite lstrip_with_none by exact H.
  apply rstrip_with_none, H.
Qed.

Lemma length_lstrip_with (p : ascii -> bool) (s : string) :
  String.length (lstrip_with p s) <= String.length s.
Proof.
  induction s as [|c s IH]; simpl; [lia|].
  destruct (p c); simpl; lia.
Qed.

Lemma length_rstrip_with (p : ascii -> bool) (s : string) :
  String.length (rstrip_with p s) <= String.length s.
Proof.
  induction s as [|c s IH]; [simpl; lia|].
  rewrite rstrip_with_String.
  destruct (rstrip_with p s); [destruct (p c)|]; simpl in *; lia.
Qed.

(** A stripped text that is not empty starts with a character that is
    not blank. *)
Lemma strip_fixed_head (c : ascii) (s : string) :
  strip (String c s) = String c s -> isspace c = false.
Proof.
  unfold strip. intros H. destruct (isspace c) eqn:E; [|reflexivity].
  exfalso. simpl in H. rewrite E in H.
  apply (f_equal String.length) in H.
  pose proof (length_rstrip_with isspace (lstrip_with isspace s)).
  pose proof (length_lstrip_with isspace s).
  simpl in H. lia.
Qed.

(** A blank after a stripped text is stripped away. *)
Lemma strip_snoc_space (s : string) :
  strip s = s -> strip (s +:+ " ") = s.
Proof.
  intros H. destruct s as [|c s]; [reflexivity|].
  pose proof (strip_fixed_head c s H) as Hc.
  unfold strip in *. rewrite app_String.
  rewrite lstrip_with_fixed in * by exact Hc.
  change (String c (s +:+ " ")) with (String c s +:+ String " " "").
  rewrite rstrip_with_snoc_drop by reflexivity. exact H.
Qed.

(** A blank before a text does not change what [strip] gives. *)
Lemma strip_cons_space (s : string) : strip (String " " s) = strip s.
Proof. reflexivity. Qed.

(** *** [replace] *)

Lemma replace_none (old : ascii) (new s : string) :
  all_chars (fun c => negb (Ascii.eqb c old)) s = true ->
  replace old new s = s.
Proof.
  induction s as [|c s IH]; [reflexivity|]. simpl. intros H.
  apply andb_true_iff in H as [H1 H2].
  apply negb_true_iff in H1. rewrite H1, (IH H2). reflexivity.
Qed.

Lemma replace_app (old : ascii) (new a b : string) :
  replace old new (a +:+ b) = replace old new a +:+ replace old new b.
Proof.
  induction a as [|c a IH]; [reflexivity|].
  rewrite app_String. simpl. rewrite IH.
  destruct (Ascii.eqb c old); [rewrite app_assoc|]; reflexivity.
Qed.

(** *** [split] *)

Lemma split_go_String (sep : string) (cur : string) (c : ascii) (s : string) :
  split_go sep 0 cur (String c s) =
  if String.prefix sep (String c s)
  then cur :: split_go sep (String.length sep - 1) "" s
  else split_go sep 0 (cur +:+ String c "") s.
Proof. reflexivity. Qed.

Lemma prefix_char (d c : ascii) (s : string) :
  String.prefix (String d "") (String c s) = Ascii.eqb c d.
Proof.
  simpl. destruct (ascii_dec d c) as [->|Hn].
  - rewrite Ascii.eqb_refl. destruct s; reflexivity.
  - symmetry. apply Ascii.eqb_neq. congruence.
Qed.

(** A text without the separating character is a single piece. *)
Lemma split_go_char_none (d : ascii) (cur s : string) :
  all_chars (fun c => negb (Ascii.eqb c d)) s = true ->
  split_go (String d "") 0 cur s = [cur +:+ s].
Proof.
  revert cur. induction s as [|c s IH]; intros cur H.
  - rewrite app_nil_r. reflexivity.
  - simpl in H. apply andb_true_iff in H as [H1 H2].
    rewrite split_go_String, prefix_char.
    apply negb_true_iff in H1. rewrite H1, (IH _ H2), app_assoc.
    reflexivity.
Qed.

(** The first separating character ends the first piece. *)
Lemma split_go_char_app (d : ascii) (cur a b : string) :
  all_chars (fun c => negb (Ascii.eqb c d)) a = true ->
  split_go (String d "") 0 cur (a +:+ String d b) =
  (cur +:+ a) :: split_go (String d "") 0 "" b.
Proof.
  revert cur. induction a as [|c a IH]; intros cur H.
  - rewrite app_nil_l, app_nil_r, split_go_String, prefix_char,
      Ascii.eqb_refl. reflexivity.
  - simpl in H. apply andb_true_iff in H as [H1 H2].
    rewrite app_String, split_go_String, prefix_char.
    apply negb_true_iff in H1. rewrite H1, (IH _ H2), app_assoc.
    reflexivity.
Qed.

(** *** [readlines] *)

Lemma readlines_go_line (cur line rest : string) :
  all_chars (fun c => negb (Ascii.eqb c nl)) line = true ->
  readlines_go cur (line +:+ String nl rest) =
  (cur +:+ line +:+ String nl "") :: readlines_go "" rest.
Proof.
  revert cur. induction line as [|c line IH]; intros cur H.
  - rewrite !app_nil_l. simpl. reflexivity.
  - simpl in H. apply andb_true_iff in H as [H1 H2].
    rewrite app_String. simpl. apply negb_true_iff in H1. rewrite H1.
    rewrite (IH _ H2), !app_assoc. reflexivity.
Qed.

End TextFacts.

(** ** Lines of a text without carriage returns *)

Module Newlines.
Import PyStr CodecSpec.

Lemma readlines_text_mode_go_no_cr (s cur : string) :
  no_cr s = true -> readlines_text_mode_go cur s = readlines_go cur s.
Proof.
  revert cur. induction s as [|c s IH]; intros cur H; [reflexivity|].
  unfold no_cr in H. cbn [all_chars] in H.
  apply andb_prop in H as [Hc Hs]. apply negb_true_iff in Hc.
  cbn [readlines_text_mode_go readlines_go]. rewrite Hc.
  destruct (Ascii.eqb c nl); [f_equal|]; apply IH; exact Hs.
Qed.

(** On a text without carriage returns, the lines Python reads in text
    mode are the lines cut at the newlines. *)
Lemma readlines_text_mode_no_cr (text : string) :
  no_cr text = true -> readlines_text_mode text = readlines text.
Proof. apply readlines_text_mode_go_no_cr. Qed.

(** A carriage return ends a line, alone or before a newline. *)
Lemma readlines_text_mode_cr :
  readlines_text_mode ("a" +:+ String cr "b") = ["a" +:+ String nl ""; "b"] /\
  readlines_text_mode ("a" +:+ String cr (String nl "b"))
    = ["a" +:+ String nl ""; "b"].
Proof. split; reflexivity. Qed.

End Newlines.

(** ** The assignment marker in a statement *)

Module MarkerFacts.
Import PyStr StrFacts TextFacts.

Lemma prefix_String (a c : ascii) (p s : string) :
  String.prefix (String a p) (String c s) =
  if ascii_dec a c then String.prefix p s else false.
Proof. reflexivity. Qed.

Lemma prefix_marker (c : ascii) (s : string) :
  String.prefix "<-" (String c s) =
  Ascii.eqb c "<" && String.prefix "-" s.
Proof.
  rewrite prefix_String. destruct (ascii_dec "<" c) as [<-|Hn]; [reflexivity|].
  symmetry. apply andb_false_iff. left. apply Ascii.eqb_neq. congruence.
Qed.

Lemma prefix_dash_app (a b : string) :
  String.prefix "-" a = false -> String.prefix "-" b = false ->
  String.prefix "-" (a +:+ b) = false.
Proof.
  destruct a as [|c a]; [intros _ H; exact H|].
  rewrite app_String. intros H _. rewrite prefix_char in *. exact H.
Qed.

(** A text without [<] is a single piece. *)
Lemma split_go_marker_none (cur s : string) :
  all_chars (fun c => negb (Ascii.eqb c "<")) s = true ->
  split_go "<-" 0 cur s = [cur +:+ s].
Proof.
  revert cur. induction s as [|c s IH]; intros cur H.
  - rewrite app_nil_r. reflexivity.
  - simpl in H. apply andb_true_iff in H as [H1 H2].
    apply negb_true_iff in H1.
    rewrite split_go_String, prefix_marker, H1. simpl andb. cbv iota.
    rewrite (IH _ H2), app_assoc. reflexivity.
Qed.

(** The statement [key <- rhs] is cut at its marker when the key holds
    none. *)
Lemma split_go_statement (key rhs cur : string) :
  contains "<-" key = false ->
  split_go "<-" 0 cur (key +:+ " <- " +:+ rhs) =
  (cur +:+ key +:+ " ") :: split_go "<-" 0 "" (String " " rhs).
Proof.
  revert cur. induction key as [|c key IH]; intros cur H.
  - rewrite !app_nil_l.
    change (" <- " +:+ rhs)
      with (String " " (String "<" (String "-" (String " " rhs)))).
    reflexivity.
  - rewrite contains_String in H. apply orb_false_iff in H as [H1 H2].
    rewrite app_String, split_go_String.
    assert (Hp : String.prefix "<-" (String c (key +:+ " <- " +:+ rhs))
                 = false).
    { rewrite prefix_marker in *.
      apply andb_false_iff in H1 as [H1|H1]; [rewrite H1; reflexivity|].
      rewrite prefix_dash_app; [apply andb_false_r|exact H1|reflexivity]. }
    rewrite Hp, (IH _ H2), !app_assoc. reflexivity.
Qed.

Lemma split_statement (key rhs : string) :
  contains "<-" key = false ->
  all_chars (fun c => negb (Ascii.eqb c "<")) rhs = true ->
  split "<-" (key +:+ " <- " +:+ rhs) = [key +:+ " "; String " " rhs].
Proof.
  intros Hk Hr. unfold split.
  rewrite split_go_statement by exact Hk.
  rewrite split_go_marker_none; [reflexivity|].
  simpl. exact Hr.
Qed.

End MarkerFacts.

(** ** Printing and parsing numbers *)

Module NumFacts.
Import PyStr PyNum CodecSpec StrFacts TextFacts.

Lemma uint_value_pos (d : Decimal.uint) (p : positive) :
  uint_value d (Npos p) = Npos (Pos.of_uint_acc d p).
Proof.
  revert p. induction d; intros p; simpl; try reflexivity;
    rewrite <- IHd; f_equal; lia.
Qed.

Lemma uint_value_of_uint (d : Decimal.uint) : uint_value d 0 = N.of_uint d.
Proof.
  unfold N.of_uint.
  induction d; simpl; try reflexivity; try exact IHd;
    rewrite <- uint_value_pos; reflexivity.
Qed.

(** The text of the digits [d] is read back digit by digit. *)
Lemma digitpart_tail_uint (d : Decimal.uint) (rest : string) (acc : N)
    (cnt : nat) :
  digitpart_tail (NilEmpty.string_of_uint d +:+ rest) acc cnt =
  digitpart_tail rest (uint_value d acc) (cnt + Decimal.nb_digits d).
Proof.
  revert acc cnt.
  induction d; intros acc cnt; cbn [NilEmpty.string_of_uint];
    [rewrite app_nil_l, Nat.add_0_r; reflexivity|..];
    rewrite app_String; cbn [digitpart_tail];
    match goal with
    | |- context [is_digit ?c] =>
        change (is_digit c) with true;
        let v := eval vm_compute in (digit_val c) in
        change (digit_val c) with v
    end;
    cbv iota; rewrite IHd; cbn [Decimal.nb_digits uint_value];
    rewrite ?N.add_0_r, Nat.add_succ_r; reflexivity.
Qed.

Lemma string_of_uint_digits (d : Decimal.uint) :
  all_chars is_digit (NilEmpty.string_of_uint d) = true.
Proof. induction d; simpl; try reflexivity; exact IHd. Qed.

Lemma str_N_digits (n : N) : all_chars is_digit (str_N n) = true.
Proof. apply string_of_uint_digits. Qed.

Lemma to_uint_nonnil (n : N) : N.to_uint n <> Decimal.Nil.
Proof.
  destruct n as [|p]; [discriminate|]. apply DecimalPos.Unsigned.to_uint_nonnil.
Qed.

(** The text of a natural number starts with a digit. *)
Lemma str_N_head (n : N) :
  exists c s, str_N n = String c s /\ is_digit c = true.
Proof.
  unfold str_N. pose proof (to_uint_nonnil n) as H.
  pose proof (string_of_uint_digits (N.to_uint n)) as Hd.
  destruct (N.to_uint n); [congruence|..]; simpl in *;
    eexists; eexists; (split; [reflexivity|reflexivity]).
Qed.

Lemma uint_value_to_uint (n : N) : uint_value (N.to_uint n) 0 = n.
Proof. rewrite uint_value_of_uint. apply DecimalN.Unsigned.of_to. Qed.

Lemma digitpart_head (c : ascii) (s : string) :
  is_digit c = true ->
  digitpart (String c s) = Some (digitpart_tail (String c s) 0 0).
Proof. intros H. simpl. rewrite H. reflexivity. Qed.

Lemma digitpart_tail_stop (rest : string) (acc : N) (cnt : nat) :
  ends_digits rest = true -> digitpart_tail rest acc cnt = (acc, cnt, rest).
Proof.
  destruct rest as [|c r]; [reflexivity|]. simpl. intros H.
  apply andb_true_iff in H as [H1 H2].
  apply negb_true_iff in H1. apply negb_true_iff in H2.
  rewrite H1, H2. reflexivity.
Qed.

(** The digits of [n] are read back as [n]. *)
Lemma digitpart_str_N (n : N) (rest : string) :
  ends_digits rest = true ->
  digitpart (str_N n +:+ rest) =
  Some (n, Decimal.nb_digits (N.to_uint n), rest).
Proof.
  intros H. destruct (str_N_head n) as (c & s & E & Hc).
  assert (E' : str_N n +:+ rest = String c (s +:+ rest))
    by (rewrite E; reflexivity).
  rewrite E', (digitpart_head _ _ Hc), <- E'. unfold str_N.
  rewrite digitpart_tail_uint, uint_value_to_uint.
  rewrite digitpart_tail_stop by exact H. reflexivity.
Qed.

Lemma str_Z_cases (z : Z) :
  str_Z z = if (z <? 0)%Z then String "-" (str_N (Z.abs_N z))
            else str_N (Z.to_N z).
Proof. destruct z; reflexivity. Qed.

(** Facts about single characters are settled by going through the
    characters. *)
Ltac by_char c :=
  destruct c as [[] [] [] [] [] [] [] []]; intros;
  first [ match goal with
          | H : _ = true |- _ => vm_compute in H; discriminate H
          end
        | repeat split; reflexivity ].

Lemma take_sign_digit (c : ascii) (s : string) :
  is_digit c = true -> take_sign (String c s) = (false, String c s).
Proof. revert s. by_char c. Qed.

Lemma lower_digit_not_word (c : ascii) (s : string) :
  is_digit c = true ->
  String.eqb (lower (String c s)) "inf" ||
  String.eqb (lower (String c s)) "infinity" = false /\
  String.eqb (lower (String c s)) "nan" = false.
Proof. revert s. by_char c. Qed.

Lemma digit_is_num_char (c : ascii) : is_digit c = true -> num_char c = true.
Proof. unfold num_char. intros ->. reflexivity. Qed.

Lemma num_char_not (c : ascii) :
  num_char c = true ->
  isspace c = false /\
  Ascii.eqb c nl = false /\ Ascii.eqb c "," = false /\
  Ascii.eqb c ")" = false /\ Ascii.eqb c "<" = false /\
  Ascii.eqb c "L" = false /\ Ascii.eqb c "s" = false /\
  Ascii.eqb c "c" = false /\ Ascii.eqb c "_" = false.
Proof. by_char c. Qed.

Lemma str_Z_chars (z : Z) : all_chars num_char (str_Z z) = true.
Proof.
  rewrite str_Z_cases.
  destruct (z <? 0)%Z; simpl;
    apply (all_chars_impl is_digit); auto using digit_is_num_char, str_N_digits.
Qed.

(** [int] reads back what [str] writes for an integer. *)
Lemma int_of_string_str_Z (z : Z) : int_of_string (str_Z z) = Some z.
Proof.
  unfold int_of_string.
  rewrite strip_none.
  2:{ apply (all_chars_impl num_char); [|apply str_Z_chars].
      intros c Hc. apply num_char_not in Hc as [-> _]. reflexivity. }
  rewrite str_Z_cases. destruct (z <? 0)%Z eqn:Ez.
  - simpl take_sign. cbv iota.
    rewrite <- (app_nil_r (str_N (Z.abs_N z))).
    rewrite digitpart_str_N by reflexivity.
    f_equal. apply Z.ltb_lt in Ez. lia.
  - destruct (str_N_head (Z.to_N z)) as (c & s & E & Hc).
    rewrite E, (take_sign_digit _ _ Hc), <- E.
    rewrite <- (app_nil_r (str_N (Z.to_N z))).
    rewrite digitpart_str_N by reflexivity.
    f_equal. apply Z.ltb_ge in Ez. lia.
Qed.

(** [float] reads what [str] writes for an integer as the float of the
    same value. *)
Lemma float_of_string_str_Z (z : Z) :
  float_of_string (str_Z z) = Some (float_of_Z z).
Proof.
  unfold float_of_string, float_of_Z.
  rewrite strip_none.
  2:{ apply (all_chars_impl num_char); [|apply str_Z_chars].
      intros c Hc. apply num_char_not in Hc as [-> _]. reflexivity. }
  rewrite str_Z_cases.
  assert (Hbody : forall n, float_body (str_N n) = Some (n, 0%Z)).
  { intros n. unfold float_body.
    rewrite <- (app_nil_r (str_N n)).
    rewrite digitpart_str_N by reflexivity. reflexivity. }
  destruct (z <? 0)%Z eqn:Ez.
  - simpl take_sign. cbv iota.
    destruct (str_N_head (Z.abs_N z)) as (c & s & E & Hc).
    rewrite E. destruct (lower_digit_not_word c s Hc) as [-> ->].
    rewrite <- E, Hbody. reflexivity.
  - destruct (str_N_head (Z.to_N z)) as (c & s & E & Hc).
    rewrite E, (take_sign_digit _ _ Hc).
    destruct (lower_digit_not_word c s Hc) as [-> ->].
    rewrite <- E, Hbody. do 2 f_equal. apply Z.ltb_ge in Ez. lia.
Qed.

End NumFacts.

(** ** Pieces of the decoder on pieces of the encoder's text *)

Module PieceFacts.
Import PyStr PyNum Numpy Rdump CodecSpec StrFacts TextFacts NumFacts.

Lemma substring_0_all (s : string) : String.substring 0 (String.length s) s = s.
Proof. induction s as [|c s IH]; [reflexivity|]. simpl. rewrite IH. reflexivity. Qed.

Lemma substring_0_app (a b : string) :
  String.substring 0 (String.length a) (a +:+ b) = a.
Proof.
  induction a as [|c a IH]; [destruct b; reflexivity|].
  rewrite app_String. simpl. rewrite IH. reflexivity.
Qed.

Lemma substring_skip_app (a b : string) (m : nat) :
  String.substring (String.length a) m (a +:+ b) = String.substring 0 m b.
Proof.
  induction a as [|c a IH]; [reflexivity|].
  rewrite app_String. simpl. exact IH.
Qed.

Lemma endswith_app (s p : string) : endswith p (s +:+ p) = true.
Proof.
  unfold endswith. rewrite length_app.
  replace (String.length s + String.length p - String.length p)
    with (String.length s) by lia.
  rewrite substring_skip_app, substring_0_all, String.eqb_refl.
  apply andb_true_iff. split; [apply Nat.leb_le; lia|reflexivity].
Qed.

Lemma expect_nil (s : string) : expect "" s = Some s.
Proof.
  unfold expect. rewrite prefix_nil. simpl. rewrite Nat.sub_0_r.
  rewrite substring_0_all. reflexivity.
Qed.

Lemma expect_String (c : ascii) (p s : string) :
  expect (String c p) (String c s) = expect p s.
Proof.
  unfold expect. simpl. destruct (ascii_dec c c); [reflexivity|congruence].
Qed.

Lemma skip_space_String (c : ascii) (s : string) :
  skip_space (String c s) = if isspace c then skip_space s else String c s.
Proof. reflexivity. Qed.

Lemma span_not_rparen_app (a rest : string) :
  all_chars (fun c => negb (Ascii.eqb c ")")) a = true ->
  span_not_rparen (a +:+ String ")" rest) = (a, String ")" rest).
Proof.
  induction a as [|c a IH]; intros H; [reflexivity|].
  simpl in H. apply andb_true_iff in H as [H1 H2].
  apply negb_true_iff in H1.
  rewrite app_String. simpl. rewrite H1, (IH H2). reflexivity.
Qed.

(** *** Lists of numbers between commas *)

Lemma all_chars_join (P : ascii -> bool) (sep : string) (l : list string) :
  all_chars P sep = true ->
  Forall (fun s => all_chars P s = true) l ->
  all_chars P (join sep l) = true.
Proof.
  intros Hsep H. induction H as [|s l Hs Hl IH]; [reflexivity|].
  destruct l as [|s' l]; [exact Hs|].
  change (join sep (s :: s' :: l)) with (s +:+ sep +:+ join sep (s' :: l)).
  rewrite !all_chars_app, Hs, Hsep, IH. reflexivity.
Qed.

Lemma split_go_join (cur s0 : string) (rest : list string) :
  Forall (fun s => all_chars (fun c => negb (Ascii.eqb c ",")) s = true)
         (s0 :: rest) ->
  split_go "," 0 cur (join ", " (s0 :: rest)) =
  (cur +:+ s0) :: map (String " ") rest.
Proof.
  revert cur s0. induction rest as [|s1 rest IH]; intros cur s0 H.
  - inversion H; subst. simpl join. rewrite split_go_char_none by assumption.
    reflexivity.
  - inversion H as [|x y H0 H1]; subst.
    change (join ", " (s0 :: s1 :: rest))
      with (s0 +:+ String "," (String " " (join ", " (s1 :: rest)))).
    rewrite split_go_char_app by exact H0.
    rewrite split_go_String.
    change (String.prefix "," (String " " (join ", " (s1 :: rest))))
      with false.
    cbv iota. rewrite (IH _ _ H1). reflexivity.
Qed.

Lemma split_join (s0 : string) (rest : list string) :
  Forall (fun s => all_chars (fun c => negb (Ascii.eqb c ",")) s = true)
         (s0 :: rest) ->
  split "," (join ", " (s0 :: rest)) = s0 :: map (String " ") rest.
Proof. intros H. unfold split. rewrite split_go_join by exact H. reflexivity. Qed.

Lemma py_float_space (s : string) : py_float (String " " s) = py_float s.
Proof. reflexivity. Qed.

Lemma py_int_space (s : string) : py_int (String " " s) = py_int s.
Proof. reflexivity. Qed.

(** *** Numbers the encoder writes *)

Lemma num_ok_chars (x : num) :
  num_ok x = true -> all_chars num_char (str_num x) = true.
Proof.
  destruct x as [z|f]; simpl; intros H; [apply str_Z_chars|].
  unfold finite_literal in H.
  apply andb_true_iff in H as [H _]. apply andb_true_iff in H as [_ H].
  exact H.
Qed.

Lemma num_ok_float (x : num) :
  num_ok x = true -> py_float (str_num x) = Ok (to_float x).
Proof.
  unfold py_float. destruct x as [z|f]; simpl; intros H.
  - rewrite float_of_string_str_Z. reflexivity.
  - unfold finite_literal in H.
    apply andb_true_iff in H as [H _]. apply andb_true_iff in H as [H _].
    apply bool_decide_eq_true in H. rewrite H. reflexivity.
Qed.

Lemma mapR_floats_spaced (l : list num) :
  forallb num_ok l = true ->
  mapR py_float (map (String " ") (map str_num l)) = Ok (map to_float l).
Proof.
  induction l as [|x l IH]; [reflexivity|]. simpl. intros H.
  apply andb_true_iff in H as [H1 H2].
  rewrite py_float_space, (num_ok_float _ H1). simpl.
  rewrite (IH H2). reflexivity.
Qed.

Lemma mapR_floats (x : num) (l : list num) :
  forallb num_ok (x :: l) = true ->
  mapR py_float (str_num x :: map (String " ") (map str_num l)) =
  Ok (map to_float (x :: l)).
Proof.
  simpl. intros H. apply andb_true_iff in H as [H1 H2].
  rewrite (num_ok_float _ H1). simpl.
  rewrite (mapR_floats_spaced _ H2). reflexivity.
Qed.

Lemma strs_chars (P : ascii -> bool) (l : list num) :
  (forall c, num_char c = true -> P c = true) ->
  forallb num_ok l = true ->
  Forall (fun s => all_chars P s = true) (map str_num l).
Proof.
  intros HP. induction l as [|x l IH]; simpl; intros H; constructor.
  - apply andb_true_iff in H as [H1 _].
    apply (all_chars_impl num_char); [exact HP|apply num_ok_chars, H1].
  - apply andb_true_iff in H as [_ H2]. apply IH, H2.
Qed.

(** The values between the parentheses are read back as floats. *)
Lemma read_values (x : num) (l : list num) :
  forallb num_ok (x :: l) = true ->
  mapR py_float (split "," (join ", " (map str_num (x :: l)))) =
  Ok (map to_float (x :: l)).
Proof.
  intros H. change (map str_num (x :: l)) with (str_num x :: map str_num l).
  rewrite split_join.
  - apply mapR_floats, H.
  - apply (strs_chars _ (x :: l)); [|exact H].
    intros c Hc. apply num_char_not in Hc as (_ & _ & -> & _). reflexivity.
Qed.

(** *** The four forms of a right-hand side *)

(** A number is not taken for a [structure] or a vector. *)
Lemma num_text_plain (s : string) :
  all_chars num_char s = true ->
  startswith "structure" s = false /\ startswith "c(" s = false.
Proof.
  intros Hc. unfold startswith.
  destruct s as [|c s]; [split; reflexivity|].
  simpl in Hc. apply andb_true_iff in Hc as [Hc _].
  apply num_char_not in Hc as (_ & _ & _ & _ & _ & _ & Hs & Hcc & _).
  apply Ascii.eqb_neq in Hs, Hcc.
  rewrite !MarkerFacts.prefix_String.
  destruct (ascii_dec "s" c), (ascii_dec "c" c); split; congruence.
Qed.

Lemma digits_no_point (s : string) :
  all_chars is_digit s = true ->
  contains "." s || contains "e" s = false.
Proof.
  induction s as [|c s IH]; [reflexivity|]. simpl all_chars. intros H.
  apply andb_true_iff in H as [H1 H2].
  rewrite !contains_String, !prefix_char.
  specialize (IH H2). apply orb_false_iff in IH as [-> ->].
  revert H1. clear. by_char c.
Qed.

Lemma parse_int_scalar (z : Z) :
  parse_rdump_value (str_Z z) = Ok (PNum (NInt z)).
Proof.
  destruct (num_text_plain _ (str_Z_chars z)) as [Hs Hc].
  unfold parse_rdump_value. rewrite Hs, Hc. simpl andb. cbv iota.
  assert (Hd : contains "." (str_Z z) || contains "e" (str_Z z) = false).
  { rewrite str_Z_cases.
    destruct (z <? 0)%Z; [|apply digits_no_point, str_N_digits].
    rewrite !contains_String, !prefix_char.
    pose proof (digits_no_point _ (str_N_digits (Z.abs_N z))) as Hn.
    apply orb_false_iff in Hn as [-> ->]. reflexivity. }
  rewrite Hd. unfold py_int. rewrite int_of_string_str_Z. reflexivity.
Qed.

Lemma parse_float_scalar (f : pyfloat) :
  finite_literal f = true ->
  parse_rdump_value (str_float f) = Ok (PNum (NFloat f)).
Proof.
  intros H. pose proof (num_ok_chars (NFloat f) H) as Hc.
  pose proof (num_ok_float (NFloat f) H) as Hf. simpl in Hc, Hf.
  destruct (num_text_plain _ Hc) as [Hs Hcc].
  unfold finite_literal in H. apply andb_true_iff in H as [_ Hp].
  unfold parse_rdump_value. rewrite Hs, Hcc. simpl andb. cbv iota.
  rewrite Hp, Hf. reflexivity.
Qed.

Lemma parse_vector (x : num) (l : list num) :
  forallb num_ok (x :: l) = true ->
  parse_rdump_value ("c(" +:+ join ", " (map str_num (x :: l)) +:+ ")") =
  Ok (PArr (array1 (as_floats (x :: l)))).
Proof.
  intros H. set (vals := join ", " (map str_num (x :: l))).
  unfold parse_rdump_value.
  change ("c(" +:+ vals +:+ ")") with (String "c" (String "(" (vals +:+ ")"))).
  change (startswith "structure" (String "c" (String "(" (vals +:+ ")"))))
    with false.
  assert (Hc : startswith "c(" (String "c" (String "(" (vals +:+ ")")))
               = true).
  { unfold startswith. rewrite 2!MarkerFacts.prefix_String, prefix_nil.
    reflexivity. }
  rewrite Hc. cbv iota.
  assert (He : endswith ")" (String "c" (String "(" (vals +:+ ")"))) = true).
  { change (String "c" (String "(" (vals +:+ ")")))
      with (String "c" (String "(" vals) +:+ ")").
    apply endswith_app. }
  rewrite He. simpl andb. cbv iota.
  assert (Hsl : slice_inner 2 1 (String "c" (String "(" (vals +:+ ")")))
                = vals).
  { unfold slice_inner. cbn [String.length]. rewrite length_app.
    cbn [String.length String.substring].
    replace (S (S (String.length vals + 1)) - 2 - 1)
      with (String.length vals) by lia.
    apply substring_0_app. }
  rewrite Hsl. subst vals. rewrite (read_values _ _ H).
  simpl bind. unfold as_floats. rewrite map_map. reflexivity.
Qed.

Lemma str_nat_Z (n : nat) : str_nat n = str_Z (Z.of_nat n).
Proof.
  unfold str_nat. rewrite str_Z_cases.
  destruct (Z.of_nat n <? 0)%Z eqn:E; [apply Z.ltb_lt in E; lia|].
  rewrite <- nat_N_Z, N2Z.id. reflexivity.
Qed.

Lemma str_nat_chars (n : nat) : all_chars num_char (str_nat n) = true.
Proof. rewrite str_nat_Z. apply str_Z_chars. Qed.

Lemma py_int_str_nat (n : nat) : py_int (str_nat n) = Ok (Z.of_nat n).
Proof.
  unfold py_int. rewrite str_nat_Z, int_of_string_str_Z. reflexivity.
Qed.

Lemma mapR_ints_spaced (ds : list nat) :
  mapR py_int (map (String " ") (map str_nat ds)) = Ok (map Z.of_nat ds).
Proof.
  induction ds as [|d ds IH]; [reflexivity|]. simpl.
  rewrite py_int_space, py_int_str_nat. simpl. rewrite IH. reflexivity.
Qed.

(** The dimensions between the parentheses are read back. *)
Lemma read_dims (d : nat) (ds : list nat) :
  mapR py_int (split "," (join ", " (map str_nat (d :: ds)))) =
  Ok (map Z.of_nat (d :: ds)).
Proof.
  change (map str_nat (d :: ds)) with (str_nat d :: map str_nat ds).
  rewrite split_join.
  - simpl. rewrite py_int_str_nat. simpl.
    rewrite mapR_ints_spaced. reflexivity.
  - change (str_nat d :: map str_nat ds) with (map str_nat (d :: ds)).
    rewrite NumpyFacts.map_fmap. apply Forall_fmap, Forall_forall.
    intros n _. simpl.
    apply (all_chars_impl num_char); [|apply str_nat_chars].
    intros c Hc. apply num_char_not in Hc as (_ & _ & -> & _). reflexivity.
Qed.

Lemma resolve_dims_shape (shp : list nat) :
  resolve_dims (map Z.of_nat shp) (prod shp) = Ok shp.
Proof.
  unfold resolve_dims.
  assert (H1 : existsb (fun d => (d <? -1)%Z) (map Z.of_nat shp) = false).
  { induction shp as [|d shp IH]; [reflexivity|]. simpl. rewrite IH.
    rewrite orb_false_r. apply Z.ltb_ge. lia. }
  assert (H2 : filter (fun d => d = (-1)%Z) (map Z.of_nat shp) = []).
  { clear H1. induction shp as [|d shp IH]; [reflexivity|]. simpl.
    rewrite filter_cons_False by lia. exact IH. }
  assert (H3 : map Z.to_nat (map Z.of_nat shp) = shp).
  { clear H1 H2. rewrite map_map. induction shp as [|d shp IH]; [reflexivity|]. simpl.
    rewrite Nat2Z.id, IH. reflexivity. }
  rewrite H1, H2, H3. simpl. rewrite Nat.eqb_refl. reflexivity.
Qed.

Lemma match_structure_encoded (vals dims : string) :
  all_chars (fun c => negb (Ascii.eqb c ")")) vals = true ->
  all_chars (fun c => negb (Ascii.eqb c ")")) dims = true ->
  match_structure
    ("structure(c(" +:+ vals +:+ "), .Dim = c(" +:+ dims +:+ "))")
  = Some (vals, Some dims).
Proof.
  intros Hv Hd. unfold match_structure, dim_group.
  rewrite !app_String, !app_nil_l.
  repeat first
    [ rewrite expect_String
    | rewrite expect_nil
    | progress cbn [mbind option_bind]
    | rewrite (span_not_rparen_app _ _ Hv)
    | rewrite (span_not_rparen_app _ _ Hd)
    | rewrite skip_space_String;
      match goal with
      | |- context [isspace ?c] =>
          let b := eval vm_compute in (isspace c) in
          change (isspace c) with b
      end; cbv iota ].
  reflexivity.
Qed.

Lemma parse_structure (x : num) (l : list num) (d0 d1 : nat) (ds : list nat) :
  forallb num_ok (x :: l) = true ->
  prod (d0 :: d1 :: ds) = length (x :: l) ->
  parse_rdump_value
    ("structure(" +:+ ("c(" +:+ join ", " (map str_num (x :: l)) +:+ ")") +:+
     ", " +:+ (".Dim = c" +:+ str_tuple (d0 :: d1 :: ds)) +:+ ")")
  = Ok (PArr {| shape := d0 :: d1 :: ds;
                data := map (fun p => as_floats (x :: l)
                                      !!! ravel_F (d0 :: d1 :: ds)
                                            (unravel_C (d0 :: d1 :: ds) p))
                            (seq 0 (prod (d0 :: d1 :: ds))) |}).
Proof.
  intros Hok Hlen.
  set (shp := d0 :: d1 :: ds) in *.
  set (vals := join ", " (map str_num (x :: l))).
  set (dims := join ", " (map str_nat shp)).
  assert (E : "structure(" +:+ ("c(" +:+ vals +:+ ")") +:+
              ", " +:+ (".Dim = c" +:+ str_tuple shp) +:+ ")"
              = "structure(c(" +:+ vals +:+ "), .Dim = c(" +:+ dims +:+ "))").
  { change (str_tuple shp) with ("(" +:+ dims +:+ ")").
    rewrite !app_assoc. reflexivity. }
  rewrite E. clear E. unfold parse_rdump_value.
  assert (Hs : startswith "structure"
                 ("structure(c(" +:+ vals +:+ "), .Dim = c(" +:+ dims +:+ "))")
               = true) by (apply prefix_app_l; reflexivity).
  rewrite Hs. cbv iota.
  rewrite match_structure_encoded.
  - subst vals dims shp. rewrite (read_values _ _ Hok). cbn [bind].
    rewrite read_dims. cbn [bind].
    unfold reshape_F. rewrite !length_map, <- Hlen.
    rewrite resolve_dims_shape. cbn [bind catch_TypeError].
    unfold as_floats. rewrite map_map. reflexivity.
  - subst vals. apply all_chars_join; [reflexivity|].
    apply (strs_chars _ (x :: l)); [|exact Hok].
    intros c Hc. apply num_char_not in Hc as (_ & _ & _ & -> & _).
    reflexivity.
  - subst dims. apply all_chars_join; [reflexivity|].
    rewrite NumpyFacts.map_fmap. apply Forall_fmap, Forall_forall.
    intros n _. simpl.
    apply (all_chars_impl num_char); [|apply str_nat_chars].
    intros c Hc. apply num_char_not in Hc as (_ & _ & _ & -> & _).
    reflexivity.
Qed.

End PieceFacts.

(** ** One item through the encoder and the decoder *)

Module LineFacts.
Import PyStr PyNum Numpy Rdump CodecSpec.
Import StrFacts TextFacts MarkerFacts NumFacts NumpyFacts PieceFacts.

Lemma rhs_char_not (c : ascii) :
  rhs_char c = true ->
  Ascii.eqb c nl = false /\ Ascii.eqb c "<" = false /\
  Ascii.eqb c "L" = false.
Proof. by_char c. Qed.

Lemma num_char_rhs (c : ascii) : num_char c = true -> rhs_char c = true.
Proof. unfold rhs_char. intros ->. reflexivity. Qed.

Lemma strip_wrapped (c d : ascii) (s : string) :
  isspace c = false -> isspace d = false ->
  strip (String c (s +:+ String d "")) = String c (s +:+ String d "").
Proof.
  intros Hc Hd. unfold strip. rewrite lstrip_with_fixed by exact Hc.
  change (String c (s +:+ String d "")) with (String c s +:+ String d "").
  apply rstrip_with_snoc_keep, Hd.
Qed.

Lemma clean_num (x : num) : num_ok x = true -> clean_rhs (str_num x).
Proof.
  intros H. pose proof (num_ok_chars x H) as Hc. split.
  - apply (all_chars_impl num_char); [exact num_char_rhs|exact Hc].
  - apply strip_none. apply (all_chars_impl num_char); [|exact Hc].
    intros c Hcc. apply num_char_not in Hcc as [-> _]. reflexivity.
Qed.

Lemma values_rhs_chars (l : list num) :
  forallb num_ok l = true ->
  all_chars rhs_char (join ", " (map str_num l)) = true.
Proof.
  intros H. apply all_chars_join; [reflexivity|].
  apply strs_chars; [exact num_char_rhs|exact H].
Qed.

Lemma dims_rhs_chars (shp : list nat) :
  all_chars rhs_char (join ", " (map str_nat shp)) = true.
Proof.
  apply all_chars_join; [reflexivity|].
  rewrite map_fmap. apply Forall_fmap, Forall_forall. intros n _. simpl.
  apply (all_chars_impl num_char); [exact num_char_rhs|apply str_nat_chars].
Qed.

Lemma clean_vector (l : list num) :
  forallb num_ok l = true ->
  clean_rhs ("c(" +:+ join ", " (map str_num l) +:+ ")").
Proof.
  intros H. split.
  - rewrite !all_chars_app, (values_rhs_chars _ H). reflexivity.
  - change ("c(" +:+ join ", " (map str_num l) +:+ ")")
      with (String "c" (("(" +:+ join ", " (map str_num l)) +:+ String ")" "")).
    apply strip_wrapped; reflexivity.
Qed.

Lemma clean_structure (l : list num) (d0 d1 : nat) (ds : list nat) :
  forallb num_ok l = true ->
  clean_rhs ("structure(" +:+ ("c(" +:+ join ", " (map str_num l) +:+ ")") +:+
             ", " +:+ (".Dim = c" +:+ str_tuple (d0 :: d1 :: ds)) +:+ ")").
Proof.
  intros H. split.
  - change (str_tuple (d0 :: d1 :: ds))
      with ("(" +:+ join ", " (map str_nat (d0 :: d1 :: ds)) +:+ ")").
    rewrite !all_chars_app, (values_rhs_chars _ H), dims_rhs_chars.
    reflexivity.
  - set (c := "c(" +:+ join ", " (map str_num l) +:+ ")").
    set (dim := ".Dim = c" +:+ str_tuple (d0 :: d1 :: ds)).
    change ("structure(" +:+ c +:+ ", " +:+ dim +:+ ")")
      with (String "s" ("tructure(" +:+ (c +:+ (", " +:+ (dim +:+ ")"))))).
    rewrite <- !app_assoc.
    apply strip_wrapped; reflexivity.
Qed.

Lemma forallb_lookup_total (l : list num) (j : nat) :
  forallb num_ok l = true -> num_ok (l !!! j) = true.
Proof.
  revert j. induction l as [|x l IH]; intros j H; [reflexivity|].
  simpl in H. apply andb_true_iff in H as [H1 H2].
  destruct j as [|j]; [exact H1|]. apply (IH j H2).
Qed.

Lemma T_flat_ok (a : ndarray) :
  forallb num_ok (data a) = true -> forallb num_ok (T_flat a) = true.
Proof.
  intros H. unfold T_flat. apply forallb_forall. intros x Hx.
  apply in_map_iff in Hx as (p & <- & _).
  apply forallb_lookup_total, H.
Qed.

Lemma rdump_array_decodes (key : string) (a : ndarray) :
  wf_ndarray a -> 1 < size a -> forallb num_ok (data a) = true ->
  exists rhs,
    _rdump_array key a = key +:+ " <- " +:+ rhs /\
    clean_rhs rhs /\
    parse_rdump_value rhs =
    Ok (PArr {| shape := shape a; data := as_floats (data a) |}).
Proof.
  intros Hwf Hsize Hok. pose proof (T_flat_ok a Hok) as Hfl.
  pose proof (length_T_flat a) as Hlen.
  unfold _rdump_array.
  destruct (T_flat a) as [|x l] eqn:Et; [simpl in Hlen; lia|].
  destruct (decide ([size a] = shape a)) as [Hs|Hs].
  - eexists. split; [reflexivity|]. split; [apply clean_vector, Hfl|].
    rewrite (parse_vector _ _ Hfl).
    rewrite <- Et, (T_flat_vector a (size a)) by (auto using eq_sym).
    unfold array1, as_floats. rewrite length_map, Hwf, Hs. reflexivity.
  - destruct (shape a) as [|d0 [|d1 ds]] eqn:Esh.
    + unfold size in Hsize. rewrite Esh in Hsize. simpl in Hsize. lia.
    + exfalso. apply Hs. unfold size. rewrite Esh. simpl.
      rewrite Nat.mul_1_r. reflexivity.
    + exists ("structure(" +:+
              ("c(" +:+ join ", " (map str_num (x :: l)) +:+ ")") +:+
              ", " +:+ (".Dim = c" +:+ str_tuple (d0 :: d1 :: ds)) +:+ ")").
      split; [reflexivity|]. split; [apply clean_structure, Hfl|].
      rewrite (parse_structure _ _ _ _ _ Hfl)
        by (rewrite Hlen; unfold size; rewrite Esh; reflexivity).
      rewrite <- Et, <- Esh. unfold as_floats.
      rewrite (reshape_T_flat a (fun x => NFloat (to_float x)) Hwf).
      reflexivity.
Qed.

Lemma as_floats_asarray (l : list num) :
  as_floats (data (asarray l)) = as_floats l /\
  length (data (asarray l)) = length l.
Proof.
  unfold asarray, array1. simpl. destruct (existsb is_float l).
  - unfold as_floats. rewrite map_map, length_map. split; reflexivity.
  - split; reflexivity.
Qed.

(** The line written for a value of the round trip holds a right-hand
    side that the decoder reads as that value. *)
Lemma rdump_line_decodes (key : string) (v : pyval) :
  value_ok v ->
  exists rhs,
    rdump_line key v = Ok (key +:+ " <- " +:+ rhs) /\
    clean_rhs rhs /\
    parse_rdump_value rhs = Ok (decoded v).
Proof.
  destruct v as [x|a|l]; simpl.
  - intros H. exists (str_num x). split; [reflexivity|].
    split; [apply clean_num, H|].
    destruct x as [z|f]; [apply parse_int_scalar|apply parse_float_scalar, H].
  - intros (Hwf & Hsize & Hok).
    rewrite (proj2 (Nat.ltb_lt 1 (size a)) Hsize).
    destruct (rdump_array_decodes key a Hwf Hsize Hok) as (rhs & E & Hc & Hp).
    exists rhs. rewrite E. auto.
  - intros (Hlen & Hok).
    rewrite (proj2 (Nat.ltb_lt 1 (length l)) Hlen).
    destruct (as_floats_asarray l) as [Ef El].
    assert (Hwf : wf_ndarray (asarray l)).
    { unfold wf_ndarray, size, asarray, array1. simpl. lia. }
    assert (Hsize : 1 < size (asarray l)).
    { unfold wf_ndarray in Hwf. rewrite <- Hwf, El. exact Hlen. }
    destruct (rdump_array_decodes key (asarray l) Hwf Hsize Hok)
      as (rhs & E & Hc & Hp).
    exists rhs. rewrite E, Hp, Ef. repeat split; try apply Hc.
    do 3 f_equal. unfold asarray, array1. simpl. rewrite <- El.
    reflexivity.
Qed.

End LineFacts.

(** ** The round trip *)

Module RoundTrip.
Import PyStr PyNum Numpy Rdump CodecSpec.
Import StrFacts TextFacts MarkerFacts NumFacts NumpyFacts PieceFacts LineFacts.
Import Newlines.

Lemma plain_key_facts (key : string) :
  plain_key key = true ->
  contains "<-" key = false /\
  all_chars (fun c => negb (Ascii.eqb c "034")) key = true /\
  all_chars (fun c => negb (Ascii.eqb c nl)) key = true /\
  strip key = key.
Proof.
  unfold plain_key. intros H.
  apply andb_true_iff in H as [H H3]. apply andb_true_iff in H as [H1 H2].
  apply negb_true_iff in H1. apply String.eqb_eq in H3.
  repeat split; try assumption.
  - apply (all_chars_impl _ _ _ (fun c Hc => proj1 (proj1 (andb_true_iff _ _) Hc)) H2).
  - apply (all_chars_impl _ _ _ (fun c Hc => proj2 (proj1 (andb_true_iff _ _) Hc)) H2).
Qed.

Lemma clean_rhs_facts (rhs : string) :
  clean_rhs rhs ->
  all_chars (fun c => negb (Ascii.eqb c nl)) rhs = true /\
  all_chars (fun c => negb (Ascii.eqb c "<")) rhs = true /\
  all_chars (fun c => negb (Ascii.eqb c "L")) rhs = true /\
  strip rhs = rhs.
Proof.
  intros [Hc Hs]. repeat split; try exact Hs;
    apply (all_chars_impl rhs_char); try exact Hc;
    intros c H; apply rhs_char_not in H as (H1 & H2 & H3);
    rewrite ?H1, ?H2, ?H3; reflexivity.
Qed.

(** The statement of one line is stored under its key. *)
Lemma store_statement (key rhs : string) (v : pyval)
    (d : gmap string pyval) :
  plain_key key = true -> clean_rhs rhs -> parse_rdump_value rhs = Ok v ->
  rload_store [key +:+ " <- " +:+ rhs +:+ String nl ""] 0 1 d =
  Ok (<[key := v]> d).
Proof.
  intros Hk Hr Hp.
  destruct (plain_key_facts key Hk) as (Hk1 & Hk2 & Hk3 & Hk4).
  destruct (clean_rhs_facts rhs Hr) as (Hr1 & Hr2 & Hr3 & Hr4).
  unfold rload_store, slice. cbn [Nat.sub drop take join].
  rewrite !replace_app, (replace_none nl) by exact Hk3.
  rewrite (replace_none nl "" rhs) by exact Hr1.
  change (replace nl "" " <- ") with " <- ".
  change (replace nl "" (String nl "")) with "".
  rewrite app_nil_r, split_statement by assumption.
  cbn [map]. rewrite strip_snoc_space by exact Hk4.
  rewrite strip_cons_space, Hr4.
  rewrite (replace_none _ "" key) by exact Hk2.
  rewrite (replace_none _ "" rhs) by exact Hr3.
  rewrite Hp. reflexivity.
Qed.

Lemma slice_one (pre rest : list string) (cur : string)
    (d : gmap string pyval) :
  rload_store (pre ++ cur :: rest) (length pre) (S (length pre)) d =
  rload_store [cur] 0 1 d.
Proof.
  unfold rload_store, slice.
  replace (S (length pre) - length pre) with 1 by lia.
  rewrite drop_app_length. reflexivity.
Qed.

Lemma statement_has_marker (key rhs : string) :
  contains "<-" (key +:+ " <- " +:+ rhs +:+ String nl "") = true.
Proof.
  apply contains_app_r.
  change (" <- " +:+ rhs +:+ String nl "")
    with (String " " ("<-" +:+ (String " " (rhs +:+ String nl "")))).
  rewrite contains_String, contains_app_l; [apply orb_true_r|].
  reflexivity.
Qed.

(** The main loop on the lines of [rdump]: every line is a statement of
    its own. *)
Lemma rload_loop_statements (data : list (string * pyval))
    (lines : list string) :
  Forall2 states data lines ->
  forall (pre : list string) (item : string * pyval) (line : string)
         (d : gmap string pyval),
    states item line ->
    rload_loop
      (pre ++ (line +:+ String nl "")
           :: map (fun l => l +:+ String nl "") lines)
      (map (fun l => l +:+ String nl "") lines)
      (length pre) (S (length pre)) d
    = Ok (store_all d (item :: data)).
Proof.
  intros H. induction H as [|item' line' data lines Hst _ IH];
    intros pre item line d (rhs & -> & Hk & Hr & Hp).
  - simpl map. cbn [rload_loop]. rewrite slice_one.
    rewrite app_assoc, (store_statement _ _ _ _ Hk Hr Hp). reflexivity.
  - cbn [map rload_loop].
    pose proof Hst as (rhs' & E' & _). subst line'.
    rewrite !app_assoc, statement_has_marker.
    rewrite slice_one, (store_statement _ _ _ _ Hk Hr Hp).
    cbn [bind].
    specialize (IH (pre ++ [item.1 +:+ " <- " +:+ rhs +:+ String nl ""])
                   item' _ (<[item.1 := decoded item.2]> d) Hst).
    rewrite List.length_app, Nat.add_1_r, <- (List.app_assoc pre) in IH.
    simpl app in IH. rewrite !app_assoc in IH. rewrite IH. reflexivity.
Qed.

(** The text [rdump] writes, line by line. *)
Lemma rdump_lines (data : list (string * pyval)) :
  Forall (fun item => plain_key item.1 = true /\ value_ok item.2) data ->
  exists lines,
    rdump data = Ok (text_of_lines lines) /\ Forall2 states data lines.
Proof.
  intros H. induction H as [|[key v] data [Hk Hv] _ (lines & E & Hl)].
  - exists []. split; [reflexivity|constructor].
  - simpl in Hk, Hv.
    destruct (rdump_line_decodes key v Hv) as (rhs & El & Hc & Hp).
    exists ((key +:+ " <- " +:+ rhs) :: lines). split.
    + cbn [rdump]. rewrite El, E. reflexivity.
    + constructor; [|exact Hl]. exists rhs. auto.
Qed.

Lemma states_no_newline (item : string * pyval) (line : string) :
  states item line ->
  all_chars (fun c => negb (Ascii.eqb c nl)) line = true.
Proof.
  intros (rhs & -> & Hk & Hr & _).
  destruct (plain_key_facts _ Hk) as (_ & _ & Hk3 & _).
  destruct (clean_rhs_facts _ Hr) as (Hr1 & _).
  rewrite !all_chars_app, Hk3, Hr1. reflexivity.
Qed.

Lemma readlines_text (data : list (string * pyval)) (lines : list string) :
  Forall2 states data lines ->
  readlines (text_of_lines lines) = map (fun l => l +:+ String nl "") lines.
Proof.
  unfold readlines. intros H.
  induction H as [|item line data lines Hst _ IH]; [reflexivity|].
  cbn [text_of_lines foldr map].
  change (line +:+ String nl "" +:+ foldr _ "" lines)
    with (line +:+ String nl (text_of_lines lines)).
  rewrite readlines_go_line by (eapply states_no_newline, Hst).
  rewrite IH. reflexivity.
Qed.

(** With distinct keys, storing the items in order gives the map of the
    items. *)
Lemma store_all_list_to_map (data : list (string * pyval))
    (d : gmap string pyval) :
  NoDup (map fst data) ->
  store_all d data = (decoded <$> list_to_map data) ∪ d.
Proof.
  unfold store_all. revert d.
  induction data as [|[key v] data IH]; intros d Hnd.
  - simpl. rewrite fmap_empty, (left_id_L ∅ (∪)). reflexivity.
  - simpl in Hnd. apply NoDup_cons in Hnd as [Hin Hnd].
    cbn [foldl]. rewrite (IH _ Hnd). simpl.
    rewrite fmap_insert, <- insert_union_l, <- insert_union_r; [reflexivity|].
    rewrite lookup_fmap.
    rewrite (not_elem_of_list_to_map_1 data key); [reflexivity|].
    exact Hin.
Qed.

(** What the decoder gives has the shape and the numeric values of what
    was encoded. *)
Lemma decoded_same (v : pyval) :
  py_shape (decoded v) = py_shape v /\ py_floats (decoded v) = py_floats v.
Proof.
  destruct v as [x|a|l]; simpl; (split; [reflexivity|]); try reflexivity;
    unfold as_floats; rewrite map_map; reflexivity.
Qed.

Lemma rload_rdump (data : list (string * pyval)) :
  data <> [] ->
  Forall (fun item => plain_key item.1 = true /\ value_ok item.2) data ->
  exists text,
    rdump data = Ok text /\ rload text = Ok (Some (store_all ∅ data)).
Proof.
  intros Hne Hok. destruct (rdump_lines data Hok) as (lines & E & Hst).
  exists (text_of_lines lines). split; [exact E|].
  unfold rload. rewrite (readlines_text data lines Hst).
  destruct Hst as [|item line data lines Hi Hst]; [congruence|].
  pose proof Hi as (rhs & El & _).
  assert (Hm : contains "<-" (line +:+ String nl "") = true)
    by (rewrite El, !app_assoc; apply statement_has_marker).
  cbn [map next_marker]. rewrite Hm. cbn [Nat.eqb length drop].
  rewrite (rload_loop_statements data lines Hst [] item line ∅ Hi).
  reflexivity.
Qed.

Lemma rhs_char_no_cr (c : ascii) :
  rhs_char c = true -> negb (Ascii.eqb c cr) = true.
Proof.
  intros H. destruct (Ascii.eqb_spec c cr) as [->|]; [|reflexivity].
  vm_compute in H. discriminate H.
Qed.

(** A text of statements with keys that hold no carriage return holds
    none: the right-hand sides the encoder writes have none. *)
Lemma statements_no_cr {A : Type} (R : string * A -> string -> Prop)
    (items : list (string * A)) (lines : list string) :
  (forall item line,
      R item line ->
      exists rhs, line = item.1 +:+ " <- " +:+ rhs /\ clean_rhs rhs) ->
  Forall2 R items lines ->
  Forall (fun item => no_cr item.1 = true) items ->
  no_cr (text_of_lines lines) = true.
Proof.
  intros HR H. induction H as [|item line items lines Hi _ IH]; intros Hk.
  - reflexivity.
  - apply Forall_cons in Hk as [Hk Hks].
    destruct (HR _ _ Hi) as (rhs & -> & Hc & _).
    cbn [text_of_lines foldr]. unfold no_cr in *.
    rewrite !all_chars_app, Hk. cbn [all_chars].
    rewrite (all_chars_impl rhs_char _ rhs rhs_char_no_cr Hc).
    apply (IH Hks).
Qed.

(** C1, as the code has it. For every mapping that is not empty, with
    distinct keys that hold no marker, double quote, newline or carriage
    return and no blank at either end, and whose values are numbers
    (integers, or floats that are finite literals), arrays of more than
    one element, and lists of more than one number, the integers in
    arrays and lists being at most [2**53] in absolute value: the text
    [rdump] writes holds no carriage return, so that Python reads its
    lines as [readlines] cuts them, and it is decoded by [rload] into the
    mapping with the same keys, in which every value has the shape and
    the numeric values of the value encoded; numbers come back as they
    are, the elements of arrays and lists come back as floats. *)
Theorem rdump_rload_round_trip (data : list (string * pyval)) :
  data <> [] ->
  NoDup (map fst data) ->
  Forall (fun item =>
            plain_key item.1 = true /\ no_cr item.1 = true /\
            value_ok item.2 /\ exact_elements item.2 = true) data ->
  exists (text : string) (d : gmap string pyval),
    rdump data = Ok text /\
    readlines_text_mode text = readlines text /\
    rload text = Ok (Some d) /\
    d = decoded <$> list_to_map data /\
    dom d = list_to_set (map fst data) /\
    (forall key v,
        (key, v) ∈ data ->
        exists v',
          d !! key = Some v' /\
          py_shape v' = py_shape v /\ py_floats v' = py_floats v).
Proof.
  intros Hne Hnd Hall.
  assert (Hok : Forall (fun item => plain_key item.1 = true /\ value_ok item.2)
                       data).
  { eapply Forall_impl; [exact Hall|]. intros item (Hk & _ & Hv & _). auto. }
  assert (Hcr : Forall (fun item : string * pyval => no_cr item.1 = true) data).
  { eapply Forall_impl; [exact Hall|]. intros item (_ & Hk & _). exact Hk. }
  destruct (rdump_lines data Hok) as (lines & El & Hst).
  destruct (rload_rdump data Hne Hok) as (text & E & Hl).
  assert (Et : text = text_of_lines lines) by congruence.
  exists text, (decoded <$> list_to_map data).
  rewrite (store_all_list_to_map data ∅ Hnd), (right_id_L ∅ (∪)) in Hl.
  split; [exact E|]. split.
  { apply readlines_text_mode_no_cr. rewrite Et.
    apply (statements_no_cr states data lines); [|exact Hst|exact Hcr].
    intros item line (rhs & -> & _ & Hc & _). exists rhs. auto. }
  split; [exact Hl|]. split; [reflexivity|]. split.
  - rewrite dom_fmap_L, dom_list_to_map_L. reflexivity.
  - intros key v Hin. exists (decoded v). split; [|apply decoded_same].
    rewrite lookup_fmap.
    rewrite (elem_of_list_to_map_1 data key v); [reflexivity| |exact Hin].
    exact Hnd.
Qed.

End RoundTrip.

(** ** The round trip on concrete mappings *)

Module RoundTripExamples.
Import PyStr PyNum Numpy Rdump CodecSpec Examples RoundTrip.

Lemma rdump_rload_round_trip_witness :
  round_trip_data <> [] /\
  NoDup (map fst round_trip_data) /\
  Forall (fun item =>
            plain_key item.1 = true /\ no_cr item.1 = true /\
            value_ok item.2 /\ exact_elements item.2 = true)
         round_trip_data /\
  exists (text : string) (d : gmap string pyval),
    rdump round_trip_data = Ok text /\
    rload text = Ok (Some d) /\
    d = decoded <$> list_to_map round_trip_data.
Proof.
  assert (H1 : round_trip_data <> []) by discriminate.
  assert (H2 : NoDup (map fst round_trip_data)).
  { apply (bool_decide_unpack _). vm_compute. exact I. }
  assert (H3 : Forall (fun item =>
                         plain_key item.1 = true /\ no_cr item.1 = true /\
                         value_ok item.2 /\ exact_elements item.2 = true)
                      round_trip_data).
  { repeat constructor; vm_compute; repeat constructor. }
  split; [exact H1|]. split; [exact H2|]. split; [exact H3|].
  destruct (rdump_rload_round_trip round_trip_data H1 H2 H3)
    as (text & d & E1 & _ & E2 & E3 & _).
  exists text, d. auto.
Defined.

(** C1, as claimed, fails: a 1x1 array is written as a scalar and comes
    back as the integer 5, without its shape. *)
Lemma round_trip_loses_shape :
  exists (text : string) (d : gmap string pyval) (v' : pyval),
    rdump one_by_one = Ok text /\
    rload text = Ok (Some d) /\
    d !! "x" = Some v' /\
    py_shape v' = [] /\
    (forall v, (list_to_map one_by_one : gmap string pyval) !! "x" = Some v ->
               py_shape v = [1; 1]).
Proof.
  eexists. eexists. eexists.
  split; [vm_compute; reflexivity|].
  split; [vm_compute; reflexivity|].
  split; [vm_compute; reflexivity|].
  split; [reflexivity|].
  intros v H. vm_compute in H. injection H as <-. reflexivity.
Qed.

(** The empty mapping is written as the empty text, which decodes to
    [None]. *)
Lemma round_trip_empty : rdump [] = Ok "" /\ rload "" = Ok None.
Proof. split; reflexivity. Qed.

(** A double quote in a key does not come back. *)
Lemma round_trip_quoted_key :
  exists (text : string) (d : gmap string pyval),
    rdump [(String "034" "x", PNum (NInt 5))] = Ok text /\
    rload text = Ok (Some d) /\
    d !! String "034" "x" = None /\ d !! "x" = Some (PNum (NInt 5)).
Proof.
  eexists. eexists.
  split; [vm_compute; reflexivity|].
  split; [vm_compute; reflexivity|].
  split; vm_compute; reflexivity.
Qed.

End RoundTripExamples.

(** ** A list of one element *)

Module Brackets.
Import PyStr PyNum Numpy Rdump CodecSpec.
Import StrFacts TextFacts MarkerFacts NumFacts PieceFacts.

(** *** A right-hand side that starts with a bracket is not decoded *)

Lemma rstrip_with_head (p : ascii -> bool) (c : ascii) (s : string) :
  p c = false -> exists s', rstrip_with p (String c s) = String c s'.
Proof.
  intros H. rewrite rstrip_with_String.
  destruct (rstrip_with p s); [rewrite H|]; eauto.
Qed.

Lemma strip_bracket (s : string) :
  exists s', strip (String "[" s) = String "[" s'.
Proof.
  unfold strip. rewrite lstrip_with_fixed by reflexivity.
  apply rstrip_with_head. reflexivity.
Qed.

Lemma int_of_string_bracket (s : string) : int_of_string (String "[" s) = None.
Proof.
  unfold int_of_string. destruct (strip_bracket s) as [s' ->]. reflexivity.
Qed.

Lemma float_of_string_bracket (s : string) :
  float_of_string (String "[" s) = None.
Proof.
  unfold float_of_string. destruct (strip_bracket s) as [s' ->]. reflexivity.
Qed.

Lemma parse_bracket (s : string) : raises (parse_rdump_value (String "[" s)).
Proof.
  unfold parse_rdump_value.
  change (startswith "structure" (String "[" s)) with false.
  change (startswith "c(" (String "[" s)) with false.
  simpl andb. cbv iota. unfold py_float, py_int.
  rewrite float_of_string_bracket, int_of_string_bracket.
  destruct (_ || _); eexists; reflexivity.
Qed.

(** *** The pieces of a statement with a bracket after the marker *)

Lemma split_go_skip (cur : string) (c : ascii) (s : string) :
  split_go "<-" 1 cur (String c s) = split_go "<-" 0 cur s.
Proof. reflexivity. Qed.

Lemma split_go_head (s cur : string) :
  exists x rest, split_go "<-" 0 cur s = (cur +:+ x) :: rest.
Proof.
  revert cur. induction s as [|c s IH]; intros cur.
  - exists "", []. rewrite app_nil_r. reflexivity.
  - rewrite split_go_String. destruct (String.prefix "<-" (String c s)).
    + exists "". eexists. rewrite app_nil_r. reflexivity.
    + destruct (IH (cur +:+ String c "")) as (x & rest & ->).
      exists (String c x), rest. rewrite app_assoc. reflexivity.
Qed.

Lemma split_go_bracket (k w : string) :
  forall cur,
    bracket_pieces (split_go "<-" 0 cur (k +:+ " <- [" +:+ w)) /\
    bracket_pieces (split_go "<-" 1 cur (k +:+ " <- [" +:+ w)).
Proof.
  assert (Hbase : forall cur,
             bracket_pieces (split_go "<-" 0 cur (" <- [" +:+ w))).
  { intros cur.
    change (split_go "<-" 0 cur (" <- [" +:+ w))
      with ((cur +:+ " ") :: split_go "<-" 0 " [" w).
    destruct (split_go_head w " [") as (x & rest & ->).
    destruct rest; simpl; [|exact I]. eexists. reflexivity. }
  induction k as [|c k IH]; intros cur.
  - rewrite app_nil_l. split; [apply Hbase|].
    change (split_go "<-" 1 cur (" <- [" +:+ w))
      with (cur :: split_go "<-" 0 " [" w).
    destruct (split_go_head w " [") as (x & rest & ->).
    destruct rest; simpl; [|exact I]. eexists. reflexivity.
  - rewrite app_String. split.
    + rewrite split_go_String.
      destruct (String.prefix "<-" (String c (k +:+ " <- [" +:+ w))).
      * destruct (IH "") as [_ H]. cbn [String.length Nat.sub].
        destruct (split_go "<-" 1 "" (k +:+ " <- [" +:+ w))
          as [|p0 [|p1 [|p2 t]]]; simpl in *; try contradiction; exact I.
      * apply IH.
    + rewrite split_go_skip. apply IH.
Qed.

(** *** A statement with a bracket after the marker is not stored *)

Lemma join_empty_cons (x : string) (l : list string) :
  join "" (x :: l) = x +:+ join "" l.
Proof. destruct l; [rewrite app_nil_r|]; reflexivity. Qed.

Lemma raises_bind {A B : Type} (r : result A) (k : A -> result B) :
  raises r -> raises (bind r k).
Proof. intros [e ->]. exists e. reflexivity. Qed.

Lemma rload_store_bracket (lines : list string) (start next : nat)
    (k w : string) (d : gmap string pyval) :
  lines !! start = Some (k +:+ " <- [" +:+ w) -> start < next ->
  raises (rload_store lines start next d).
Proof.
  intros Hl Hlt. unfold rload_store, slice.
  rewrite (drop_S _ _ _ Hl).
  destruct (next - start) as [|m] eqn:E; [lia|]. cbn [take].
  rewrite join_empty_cons, !app_assoc, !replace_app.
  change (replace nl "" " <- [") with " <- [".
  destruct (split_go_bracket (replace nl "" k)
              (replace nl "" w +:+
               replace nl "" (join "" (take m (drop (S start) lines)))) "")
    as [H _].
  unfold split.
  destruct (split_go "<-" 0 "" _) as [|p0 [|p1 [|p2 t]]]; simpl in H;
    try contradiction; cbn [map]; try (eexists; reflexivity).
  destruct H as [w' ->]. rewrite strip_cons_space.
  destruct (strip_bracket w') as [z ->].
  change (replace "L" "" (String "[" z)) with (String "[" (replace "L" "" z)).
  apply raises_bind, parse_bracket.
Qed.

(** *** The main loop meets the statement *)

Lemma bracket_line_has_marker (k w : string) :
  contains "<-" (k +:+ " <- [" +:+ w) = true.
Proof.
  apply contains_app_r.
  change (" <- [" +:+ w) with (String " " ("<-" +:+ String " " (String "[" w))).
  rewrite contains_String, contains_app_l; [apply orb_true_r|reflexivity].
Qed.

Lemma rload_loop_bracket (lines : list string) (j : nat) (k w : string) :
  lines !! j = Some (k +:+ " <- [" +:+ w) ->
  forall (rest : list string) (start idx : nat) (d : gmap string pyval),
    rest = drop idx lines ->
    (start = j /\ j < idx) \/ idx <= j ->
    raises (rload_loop lines rest start idx d).
Proof.
  intros Hj rest. induction rest as [|l rest IH]; intros start idx d Hr Hinv.
  - cbn [rload_loop].
    assert (length lines <= idx).
    { destruct (decide (idx < length lines)) as [Hlt|]; [|lia].
      apply (f_equal length) in Hr. rewrite length_drop in Hr.
      simpl in Hr. lia. }
    apply lookup_lt_Some in Hj as Hjl.
    destruct Hinv as [[-> Hlt]|]; [|lia].
    eapply rload_store_bracket; eauto.
  - assert (Hidx : lines !! idx = Some l).
    { rewrite <- (Nat.add_0_r idx), <- lookup_drop, <- Hr. reflexivity. }
    assert (Hr' : rest = drop (S idx) lines).
    { rewrite (drop_S _ _ _ Hidx) in Hr. congruence. }
    cbn [rload_loop]. destruct (contains "<-" l) eqn:Hm.
    + destruct Hinv as [[-> Hlt]|Hle].
      * apply raises_bind. eapply rload_store_bracket; eauto.
      * destruct (rload_store lines start idx d) as [d'|e] eqn:Es;
          [|exists e; reflexivity].
        cbn [bind]. apply IH; [exact Hr'|].
        destruct (decide (idx = j)) as [->|]; [left; split; [reflexivity|lia]|].
        right. lia.
    + apply IH; [exact Hr'|].
      destruct Hinv as [[-> Hlt]|Hle]; [left; split; [reflexivity|lia]|].
      right. assert (idx <> j); [|lia].
      intros ->. rewrite Hj in Hidx. injection Hidx as <-.
      rewrite bracket_line_has_marker in Hm. discriminate Hm.
Qed.

Lemma next_marker_le (rest : list string) (idx j : nat) (l : string) :
  rest !! j = Some l -> contains "<-" l = true ->
  next_marker rest idx <= idx + j /\ next_marker rest idx < idx + length rest.
Proof.
  revert idx j. induction rest as [|x rest IH]; intros idx j Hl Hm;
    [discriminate Hl|].
  cbn [next_marker length]. destruct (contains "<-" x) eqn:Hx; [lia|].
  destruct j as [|j]; [simpl in Hl; congruence|]. simpl in Hl.
  destruct (IH (S idx) j Hl Hm). lia.
Qed.

(** A text with a line that holds a bracket after the marker is not
    decoded. *)
Lemma rload_bracket_line (text : string) (j : nat) (k w : string) :
  readlines text !! j = Some (k +:+ " <- [" +:+ w) -> raises (rload text).
Proof.
  intros Hj. unfold rload.
  destruct (next_marker_le _ 0 j _ Hj (bracket_line_has_marker k w))
    as [Hle Hlt].
  simpl in Hle, Hlt.
  destruct (next_marker (readlines text) 0 =? length (readlines text)) eqn:E;
    [apply Nat.eqb_eq in E; lia|].
  apply raises_bind. eapply rload_loop_bracket; [exact Hj|reflexivity|].
  destruct (decide (next_marker (readlines text) 0 = j)) as [->|];
    [left; split; [reflexivity|lia]|right; lia].
Qed.

(** *** The text [rdump] writes for a list of one element *)

Lemma readlines_go_head (B cur : string) :
  cur <> "" -> exists w, readlines_go cur B !! 0 = Some (cur +:+ w).
Proof.
  revert cur. induction B as [|c B IH]; intros cur Hc.
  - exists "". rewrite app_nil_r. destruct cur; [congruence|reflexivity].
  - cbn [readlines_go]. destruct (Ascii.eqb c nl).
    + eexists. reflexivity.
    + destruct (IH (cur +:+ String c "")) as [w Hw].
      { destruct cur; discriminate. }
      exists (String c w). rewrite Hw, app_assoc. reflexivity.
Qed.

Lemma readlines_go_bracket (A B cur : string) :
  exists j k w,
    readlines_go cur (A +:+ " <- [" +:+ B) !! j = Some (k +:+ " <- [" +:+ w).
Proof.
  revert cur. induction A as [|c A IH]; intros cur.
  - rewrite app_nil_l.
    change (readlines_go cur (" <- [" +:+ B))
      with (readlines_go
              (((((cur +:+ " ") +:+ "<") +:+ "-") +:+ " ") +:+ "[") B).
    rewrite !app_assoc.
    change (" " +:+ "<" +:+ "-" +:+ " " +:+ "[") with " <- [".
    destruct (readlines_go_head B (cur +:+ " <- [")) as [w Hw].
    { destruct cur; discriminate. }
    exists 0, cur, w. rewrite Hw, app_assoc. reflexivity.
  - rewrite app_String. cbn [readlines_go]. destruct (Ascii.eqb c nl).
    + destruct (IH "") as (j & k & w & H). exists (S j), k, w. exact H.
    + apply IH.
Qed.

Lemma rdump_app (data1 data2 : list (string * pyval)) :
  rdump (data1 ++ data2) =
  do t1 <- rdump data1; do t2 <- rdump data2; Ok (t1 +:+ t2).
Proof.
  induction data1 as [|[key v] data1 IH].
  - simpl. destruct (rdump data2); reflexivity.
  - simpl. destruct (rdump_line key v) as [line|e]; [|reflexivity]. simpl.
    rewrite IH. destruct (rdump data1) as [t1|e]; [|reflexivity]. simpl.
    destruct (rdump data2) as [t2|e]; [|reflexivity]. simpl.
    rewrite !app_assoc. reflexivity.
Qed.

(** C10. A list of one number [[v]] is written as the line
    [key <- [v]], with the list as Python prints it and not the scalar
    [v]; the decoder does not read a right-hand side that starts with a
    bracket, so the text of a mapping with such an entry is not decoded:
    [rload] raises. *)
Theorem rdump_single_element_list (data1 data2 : list (string * pyval))
    (key : string) (v : num) (text : string) :
  rdump (data1 ++ (key, PList [v]) :: data2) = Ok text ->
  rdump_line key (PList [v]) =
    Ok (key +:+ " <- " +:+ "[" +:+ str_num v +:+ "]") /\
  (exists t1 t2,
      rdump data1 = Ok t1 /\ rdump data2 = Ok t2 /\
      text = t1 +:+ (key +:+ " <- " +:+ "[" +:+ str_num v +:+ "]") +:+
             String nl "" +:+ t2) /\
  raises (parse_rdump_value ("[" +:+ str_num v +:+ "]")) /\
  raises (rload text).
Proof.
  intros H. split; [reflexivity|].
  rewrite rdump_app in H.
  destruct (rdump data1) as [t1|e]; [|discriminate H].
  cbn [bind rdump rdump_line length Nat.ltb Nat.leb] in H.
  destruct (rdump data2) as [t2|e]; [|discriminate H].
  cbn [bind] in H. injection H as <-.
  split; [exists t1, t2; auto|].
  split; [apply parse_bracket|].
  unfold str_list, join, map. rewrite !app_assoc.
  change (" <- " +:+ "[" +:+ str_num v +:+ "]" +:+ String nl "" +:+ t2)
    with (" <- [" +:+ (str_num v +:+ "]" +:+ String nl "" +:+ t2)).
  rewrite <- (app_assoc t1 key).
  destruct (readlines_go_bracket (t1 +:+ key)
              (str_num v +:+ "]" +:+ String nl "" +:+ t2) "")
    as (j & k & w & Hj).
  exact (rload_bracket_line _ j k w Hj).
Qed.

Lemma rdump_single_element_list_witness :
  rdump ([("N", PNum (NInt 3))] ++
         ("x", PList [NFloat (FFin false 5 0)]) :: [("M", PNum (NInt 2))])
  = Ok (Examples.unlines ["N <- 3"; "x <- [5.0]"; "M <- 2"]) /\
  raises (rload (Examples.unlines ["N <- 3"; "x <- [5.0]"; "M <- 2"])).
Proof.
  assert (H : rdump ([("N", PNum (NInt 3))] ++
                     ("x", PList [NFloat (FFin false 5 0)])
                     :: [("M", PNum (NInt 2))])
              = Ok (Examples.unlines ["N <- 3"; "x <- [5.0]"; "M <- 2"]))
    by (vm_compute; reflexivity).
  split; [exact H|].
  exact (proj2 (proj2 (proj2 (rdump_single_element_list _ _ _ _ _ H)))).
Defined.

End Brackets.

(** ** The text of a float *)

Module FloatText.
Import PyStr PyNum CodecSpec StrFacts TextFacts NumFacts.

(** *** Strings of digits *)

Lemma digitpart_tail_digits (s rest : string) (acc : N) (cnt : nat) :
  all_chars is_digit s = true ->
  digitpart_tail (s +:+ rest) acc cnt =
  digitpart_tail rest (digits_value s acc) (cnt + String.length s).
Proof.
  revert acc cnt. induction s as [|c s IH]; intros acc cnt H.
  - rewrite app_nil_l, Nat.add_0_r. reflexivity.
  - cbn [all_chars] in H. apply andb_true_iff in H as [H1 H2].
    rewrite app_String. cbn [digitpart_tail]. rewrite H1.
    rewrite (IH _ _ H2). cbn [digits_value String.length].
    rewrite Nat.add_succ_r. reflexivity.
Qed.

Lemma digits_value_app (a b : string) (acc : N) :
  digits_value (a +:+ b) acc = digits_value b (digits_value a acc).
Proof.
  revert acc. induction a as [|c a IH]; intros acc; [reflexivity|].
  rewrite app_String. cbn [digits_value]. apply IH.
Qed.

Lemma digits_value_shift (s : string) (acc : N) :
  digits_value s acc =
  (acc * 10 ^ N.of_nat (String.length s) + digits_value s 0)%N.
Proof.
  revert acc. induction s as [|c s IH]; intros acc.
  - cbn [digits_value String.length]. change (10 ^ N.of_nat 0)%N with 1%N. lia.
  - cbn [digits_value String.length].
    rewrite (IH (10 * acc + digit_val c)%N), (IH (10 * 0 + digit_val c)%N).
    rewrite Nat2N.inj_succ, N.pow_succ_r'. lia.
Qed.

Lemma digits_value_uint (d : Decimal.uint) (acc : N) :
  digits_value (NilEmpty.string_of_uint d) acc = uint_value d acc.
Proof.
  revert acc. induction d; intros acc;
    cbn [NilEmpty.string_of_uint digits_value uint_value]; try reflexivity;
    rewrite IHd;
    match goal with
    | |- context [digit_val ?c] =>
        let v := eval vm_compute in (digit_val c) in
        change (digit_val c) with v
    end; rewrite ?N.add_0_r; reflexivity.
Qed.

Lemma digits_value_str_N (m : N) : digits_value (str_N m) 0 = m.
Proof. unfold str_N. rewrite digits_value_uint. apply uint_value_to_uint. Qed.

Lemma zeros_digits (k : nat) : all_chars is_digit (zeros k) = true.
Proof. induction k as [|k IH]; [reflexivity|]. simpl. exact IH. Qed.

Lemma length_zeros (k : nat) : String.length (zeros k) = k.
Proof. induction k as [|k IH]; [reflexivity|]. simpl. rewrite IH. reflexivity. Qed.

Lemma digits_value_zeros (k : nat) (acc : N) :
  digits_value (zeros k) acc = (acc * 10 ^ N.of_nat k)%N.
Proof.
  revert acc. induction k as [|k IH]; intros acc.
  - cbn [zeros digits_value]. change (10 ^ N.of_nat 0)%N with 1%N. lia.
  - cbn [zeros digits_value]. rewrite IH.
    change (digit_val "0") with 0%N.
    rewrite Nat2N.inj_succ, N.pow_succ_r'. lia.
Qed.

Lemma substring_split (s : string) (k : nat) :
  k <= String.length s ->
  s = String.substring 0 k s +:+ String.substring k (String.length s - k) s.
Proof.
  revert k. induction s as [|c s IH]; intros k H.
  - destruct k; [reflexivity|simpl in H; lia].
  - destruct k as [|k].
    + cbn [String.substring]. rewrite app_nil_l, Nat.sub_0_r.
      cbn [String.length String.substring].
      rewrite PieceFacts.substring_0_all. reflexivity.
    + cbn [String.length] in H |- *. cbn [String.substring Nat.sub].
      rewrite app_String. f_equal. apply IH. lia.
Qed.

Lemma length_substring (s : string) (n m : nat) :
  n + m <= String.length s -> String.length (String.substring n m s) = m.
Proof.
  revert n m. induction s as [|c s IH]; intros n m H.
  - simpl in H. destruct n, m; try reflexivity; lia.
  - cbn [String.length] in H. destruct n as [|n].
    + destruct m as [|m]; [reflexivity|]. cbn [String.substring String.length].
      rewrite IH by lia. reflexivity.
    + cbn [String.substring]. apply IH. lia.
Qed.

(** A run of digits before a character that ends it. *)
Lemma digitpart_digits (s rest : string) :
  s <> "" -> all_chars is_digit s = true -> ends_digits rest = true ->
  digitpart (s +:+ rest) = Some (digits_value s 0, String.length s, rest).
Proof.
  intros Hne Hd Hr. destruct s as [|c s]; [congruence|].
  pose proof Hd as Hd'. cbn [all_chars] in Hd'.
  apply andb_true_iff in Hd' as [Hc _].
  rewrite app_String, (digitpart_head _ _ Hc).
  change (String c (s +:+ rest)) with (String c s +:+ rest).
  rewrite (digitpart_tail_digits _ _ _ _ Hd), digitpart_tail_stop by exact Hr.
  reflexivity.
Qed.

(** *** The body of a float literal *)

Lemma float_body_point (a b rest : string) (ex : Z) :
  a <> "" -> all_chars is_digit a = true ->
  b <> "" -> all_chars is_digit b = true ->
  ends_digits rest = true -> take_exponent rest = Some ex ->
  float_body (a +:+ "." +:+ b +:+ rest) =
  Some ((digits_value a 0 * 10 ^ N.of_nat (String.length b)
         + digits_value b 0)%N,
        (ex - Z.of_nat (String.length b))%Z).
Proof.
  intros Ha Hda Hb Hdb Hr He. unfold float_body.
  rewrite (digitpart_digits a _ Ha Hda) by reflexivity.
  change ("." +:+ b +:+ rest) with (String "." (b +:+ rest)). cbv iota.
  rewrite (digitpart_digits b _ Hb Hdb Hr), He. reflexivity.
Qed.

Lemma float_body_exp (a r : string) (ex : Z) :
  a <> "" -> all_chars is_digit a = true ->
  take_exponent (String "e" r) = Some ex ->
  float_body (a +:+ String "e" r) = Some (digits_value a 0, ex).
Proof.
  intros Ha Hda He. unfold float_body.
  rewrite (digitpart_digits a _ Ha Hda) by reflexivity.
  cbv iota. rewrite He. reflexivity.
Qed.

Lemma str_N_nonempty (n : N) : str_N n <> "".
Proof. destruct (str_N_head n) as (c & s & -> & _). discriminate. Qed.

(** The exponent as [str] writes it: a sign and at least two digits. *)
Lemma take_exponent_text (ex : Z) :
  take_exponent
    ("e" +:+ (if (ex <? 0)%Z then "-" else "+") +:+
     (if String.length (str_N (Z.abs_N ex)) =? 1
      then "0" +:+ str_N (Z.abs_N ex) else str_N (Z.abs_N ex)))
  = Some ex.
Proof.
  set (xs := str_N (Z.abs_N ex)).
  assert (Hp : forall pad,
             pad = xs \/ pad = String "0" xs ->
             digitpart pad = Some (Z.abs_N ex, String.length pad, "")).
  { intros pad Hpad.
    rewrite <- (app_nil_r pad) at 1.
    rewrite digitpart_digits; try reflexivity.
    - f_equal. f_equal. f_equal.
      destruct Hpad as [-> | ->]; [apply digits_value_str_N|].
      cbn [digits_value]. apply digits_value_str_N.
    - destruct Hpad as [-> | ->]; [apply str_N_nonempty|discriminate].
    - destruct Hpad as [-> | ->]; [apply str_N_digits|].
      cbn [all_chars]. apply str_N_digits. }
  destruct (String.length xs =? 1), (ex <? 0)%Z eqn:Es;
    rewrite !app_String, !app_nil_l; unfold take_exponent;
    change (Ascii.eqb (lower_char "e") "e") with true; cbv iota;
    cbn [take_sign];
    rewrite Hp by auto; f_equal;
    [apply Z.ltb_lt in Es|apply Z.ltb_ge in Es
    |apply Z.ltb_lt in Es|apply Z.ltb_ge in Es]; lia.
Qed.

(** *** Normal forms *)

Lemma strip_zeros_pow (fuel k : nat) (m : N) (x : Z) :
  (m mod 10 <> 0)%N -> k < fuel ->
  strip_zeros fuel (m * 10 ^ N.of_nat k) x = (m, (x + Z.of_nat k)%Z).
Proof.
  intros Hm. revert fuel x. induction k as [|k IH]; intros fuel x Hk;
    (destruct fuel as [|fuel]; [lia|]); cbn [strip_zeros].
  - change (10 ^ N.of_nat 0)%N with 1%N. rewrite N.mul_1_r.
    assert (m <> 0)%N by (intros ->; apply Hm; reflexivity).
    rewrite (proj2 (N.eqb_neq m 0)), (proj2 (N.eqb_neq (m mod 10) 0))
      by assumption.
    rewrite Z.add_0_r. reflexivity.
  - rewrite Nat2N.inj_succ, N.pow_succ_r'.
    assert (m <> 0)%N by (intros ->; apply Hm; reflexivity).
    assert (Hnz : (m * (10 * 10 ^ N.of_nat k) <> 0)%N)
      by (pose proof (N.pow_nonzero 10 (N.of_nat k)); lia).
    rewrite (proj2 (N.eqb_neq _ 0) Hnz).
    replace (m * (10 * 10 ^ N.of_nat k))%N
      with (m * 10 ^ N.of_nat k * 10)%N by lia.
    rewrite N.Div0.mod_mul, N.div_mul by lia. cbn [N.eqb].
    rewrite IH by lia. f_equal. lia.
Qed.

Lemma size_nat_gt (p : positive) :
  (Npos p < 2 ^ N.of_nat (Pos.size_nat p))%N.
Proof.
  induction p as [p IH|p IH|]; cbn [Pos.size_nat];
    rewrite ?Nat2N.inj_succ, ?N.pow_succ_r'; [lia|lia|reflexivity].
Qed.

Lemma fnorm_pow (neg : bool) (m : N) (k : nat) (x : Z) :
  (m mod 10 <> 0)%N ->
  fnorm neg (m * 10 ^ N.of_nat k) x = FFin neg m (x + Z.of_nat k).
Proof.
  intros Hm. unfold fnorm. rewrite strip_zeros_pow; [reflexivity|exact Hm|].
  assert (m <> 0)%N by (intros ->; apply Hm; reflexivity).
  pose proof (N.pow_nonzero 10 (N.of_nat k)) as Hp.
  destruct (m * 10 ^ N.of_nat k)%N as [|p] eqn:E; [lia|].
  cbn [N.size_nat]. pose proof (size_nat_gt p) as Hs.
  assert (H2 : (2 ^ N.of_nat k <= 10 ^ N.of_nat k)%N)
    by (apply N.pow_le_mono_l; lia).
  assert (Hlt : (2 ^ N.of_nat k < 2 ^ N.of_nat (Pos.size_nat p))%N) by nia.
  apply N.pow_lt_mono_r_iff in Hlt; lia.
Qed.

Lemma fnorm_canonical (neg : bool) (m : N) (e : Z) :
  (m mod 10 <> 0)%N -> fnorm neg m e = FFin neg m e.
Proof.
  intros Hm. pose proof (fnorm_pow neg m 0 e Hm) as H.
  change (10 ^ N.of_nat 0)%N with 1%N in H.
  rewrite N.mul_1_r, Z.add_0_r in H. exact H.
Qed.

(** *** Reading a signed literal *)

Lemma float_of_string_signed (neg : bool) (body : string) (m : N) (e : Z) :
  all_chars num_char body = true ->
  (exists c s, body = String c s /\ is_digit c = true) ->
  float_body body = Some (m, e) ->
  float_of_string ((if neg then "-" else "") +:+ body) = Some (fnorm neg m e).
Proof.
  intros Hc (c & s & E & Hd) Hb. unfold float_of_string.
  rewrite strip_none.
  2:{ rewrite all_chars_app. apply andb_true_iff. split.
      - destruct neg; reflexivity.
      - apply (all_chars_impl num_char); [|exact Hc].
        intros x Hx. apply num_char_not in Hx as [-> _]. reflexivity. }
  assert (Hs : take_sign ((if neg then "-" else "") +:+ body) = (neg, body)).
  { destruct neg; [reflexivity|].
    rewrite app_nil_l, E. apply take_sign_digit, Hd. }
  rewrite Hs. destruct (lower_digit_not_word c s Hd) as [H1 H2].
  rewrite <- E in H1, H2. cbv zeta. rewrite H1, H2, Hb. reflexivity.
Qed.

(** *** The text [str] writes for a canonical float *)

Lemma digits_num_char (s : string) :
  all_chars is_digit s = true -> all_chars num_char s = true.
Proof. apply all_chars_impl, digit_is_num_char. Qed.

Lemma head_digit (s rest : string) :
  s <> "" -> all_chars is_digit s = true ->
  exists c s', s +:+ rest = String c s' /\ is_digit c = true.
Proof.
  intros Hne Hd. destruct s as [|c s]; [congruence|].
  cbn [all_chars] in Hd. apply andb_true_iff in Hd as [Hc _].
  exists c, (s +:+ rest). auto.
Qed.

Lemma contains_mark (mark a b : string) :
  mark <> "" -> contains mark (a +:+ mark +:+ b) = true.
Proof.
  intros Hne. apply contains_app_r, contains_app_l.
  destruct mark as [|c mark]; [congruence|].
  rewrite contains_String.
  rewrite <- (app_nil_r (String c mark)) at 2.
  rewrite prefix_app. reflexivity.
Qed.

Lemma reads_zero : reads_as "0.0" 0 0.
Proof.
  repeat split; try reflexivity.
  - exists "0"%char, ".0". split; reflexivity.
  - exists 0%N, (-1)%Z. split; reflexivity.
Qed.

(** Positional notation with the point before the digits. *)
Lemma reads_small (m : N) (k : nat) :
  (m mod 10 <> 0)%N ->
  reads_as ("0." +:+ zeros k +:+ str_N m) m
           (- Z.of_nat (k + String.length (str_N m))).
Proof.
  intros Hm. pose proof (str_N_digits m) as Hd.
  pose proof (zeros_digits k) as Hz.
  assert (Hb : all_chars is_digit (zeros k +:+ str_N m) = true)
    by (rewrite all_chars_app, Hz, Hd; reflexivity).
  assert (Hne : zeros k +:+ str_N m <> "").
  { intros E. apply (f_equal String.length) in E.
    rewrite length_app in E. pose proof (str_N_nonempty m).
    destruct (str_N m); [congruence|simpl in E; lia]. }
  split; [|split; [|split]].
  - change ("0." +:+ zeros k +:+ str_N m)
      with ("0." +:+ (zeros k +:+ str_N m)).
    rewrite all_chars_app, (digits_num_char _ Hb). reflexivity.
  - exists "0"%char, ("." +:+ zeros k +:+ str_N m). split; reflexivity.
  - change ("0." +:+ zeros k +:+ str_N m)
      with ("0" +:+ "." +:+ (zeros k +:+ str_N m)).
    rewrite contains_mark by discriminate. reflexivity.
  - eexists. eexists. split.
    + change ("0." +:+ zeros k +:+ str_N m)
        with ("0" +:+ "." +:+ (zeros k +:+ str_N m)).
      rewrite <- (app_nil_r (zeros k +:+ str_N m)).
      apply (float_body_point "0" (zeros k +:+ str_N m) "" 0);
        try reflexivity; try assumption; discriminate.
    + intros neg. rewrite digits_value_app, digits_value_zeros.
      change (digits_value "0" 0) with 0%N.
      rewrite !N.mul_0_l, N.add_0_l, digits_value_str_N.
      rewrite length_app, length_zeros.
      rewrite fnorm_canonical by exact Hm. f_equal; lia.
Qed.

(** Positional notation with the point after the digits. *)
Lemma reads_large (m : N) (j : nat) :
  (m mod 10 <> 0)%N ->
  reads_as (str_N m +:+ zeros j +:+ ".0") m (Z.of_nat j).
Proof.
  intros Hm. pose proof (str_N_digits m) as Hd.
  pose proof (zeros_digits j) as Hz.
  assert (Ha : all_chars is_digit (str_N m +:+ zeros j) = true)
    by (rewrite all_chars_app, Hz, Hd; reflexivity).
  assert (Hne : str_N m +:+ zeros j <> "").
  { pose proof (str_N_nonempty m). destruct (str_N m); [congruence|].
    discriminate. }
  assert (E : str_N m +:+ zeros j +:+ ".0"
              = (str_N m +:+ zeros j) +:+ "." +:+ "0" +:+ "")
    by (rewrite !app_assoc; reflexivity).
  split; [|split; [|split]].
  - rewrite E, !all_chars_app, (digits_num_char _ Hd),
      (digits_num_char _ Hz). reflexivity.
  - rewrite <- app_assoc. apply head_digit; assumption.
  - rewrite E, contains_mark by discriminate. reflexivity.
  - eexists. eexists. split.
    + rewrite E.
      apply (float_body_point (str_N m +:+ zeros j) "0" "" 0);
        try reflexivity; try assumption; discriminate.
    + intros neg. rewrite digits_value_app, digits_value_zeros.
      rewrite digits_value_str_N. change (digits_value "0" 0) with 0%N.
      change (String.length "0") with 1. rewrite N.add_0_r.
      replace (m * 10 ^ N.of_nat j * 10 ^ N.of_nat 1)%N
        with (m * 10 ^ N.of_nat (S j))%N
        by (rewrite Nat2N.inj_succ, N.pow_succ_r'; change (10 ^ N.of_nat 1)%N
              with 10%N; lia).
      rewrite fnorm_pow by exact Hm. f_equal; lia.
Qed.

(** Positional notation with the point between the digits. *)
Lemma reads_mid (m : N) (d : nat) :
  (m mod 10 <> 0)%N ->
  0 < d < String.length (str_N m) ->
  reads_as (String.substring 0 d (str_N m) +:+ "." +:+
            String.substring d (String.length (str_N m) - d) (str_N m))
           m (- Z.of_nat (String.length (str_N m) - d)).
Proof.
  intros Hm Hd. set (ds := str_N m) in *.
  set (a := String.substring 0 d ds).
  set (b := String.substring d (String.length ds - d) ds).
  pose proof (str_N_digits m) as Hds. fold ds in Hds.
  assert (Hda : all_chars is_digit a = true)
    by (apply all_chars_substring, Hds).
  assert (Hdb : all_chars is_digit b = true)
    by (apply all_chars_substring, Hds).
  assert (Hla : String.length a = d) by (apply length_substring; lia).
  assert (Hlb : String.length b = String.length ds - d)
    by (apply length_substring; lia).
  assert (Hna : a <> "") by (intros E; rewrite E in Hla; simpl in Hla; lia).
  assert (Hnb : b <> "") by (intros E; rewrite E in Hlb; simpl in Hlb; lia).
  assert (Hsplit : ds = a +:+ b) by (apply substring_split; lia).
  split; [|split; [|split]].
  - rewrite !all_chars_app, (digits_num_char _ Hda), (digits_num_char _ Hdb).
    reflexivity.
  - apply head_digit; assumption.
  - rewrite contains_mark by discriminate. reflexivity.
  - pose proof (float_body_point a b "" 0 Hna Hda Hnb Hdb eq_refl eq_refl)
      as Hfb.
    rewrite app_nil_r in Hfb.
    eexists. eexists. split; [exact Hfb|].
    intros neg.
    rewrite <- (digits_value_shift b (digits_value a 0)).
    rewrite <- digits_value_app, <- Hsplit.
    unfold ds. rewrite digits_value_str_N, Hlb.
    rewrite fnorm_canonical by exact Hm. f_equal; lia.
Qed.

(** Exponent notation. *)
Lemma reads_sci (m : N) (ex : Z) :
  (m mod 10 <> 0)%N ->
  reads_as
    (String.substring 0 1 (str_N m) +:+
     (if String.length (str_N m) =? 1 then ""
      else "." +:+ String.substring 1 (String.length (str_N m) - 1) (str_N m))
     +:+ "e" +:+ (if (ex <? 0)%Z then "-" else "+") +:+
     (if String.length (str_N (Z.abs_N ex)) =? 1
      then "0" +:+ str_N (Z.abs_N ex) else str_N (Z.abs_N ex)))
    m (ex - Z.of_nat (String.length (str_N m) - 1)).
Proof.
  intros Hm. set (ds := str_N m) in *.
  set (tail := "e" +:+ (if (ex <? 0)%Z then "-" else "+") +:+
               (if String.length (str_N (Z.abs_N ex)) =? 1
                then "0" +:+ str_N (Z.abs_N ex) else str_N (Z.abs_N ex))).
  pose proof (take_exponent_text ex) as Hex. fold tail in Hex.
  pose proof (str_N_digits m) as Hds. fold ds in Hds.
  pose proof (str_N_nonempty m) as Hne. fold ds in Hne.
  assert (Hlen : 1 <= String.length ds)
    by (destruct ds; [congruence|simpl; lia]).
  assert (Htail : exists r, tail = String "e" r) by (eexists; reflexivity).
  assert (Htc : all_chars num_char tail = true).
  { unfold tail.
    destruct (ex <? 0)%Z, (String.length (str_N (Z.abs_N ex)) =? 1);
      rewrite !all_chars_app,
        (digits_num_char _ (str_N_digits (Z.abs_N ex))); reflexivity. }
  set (a := String.substring 0 1 ds).
  assert (Hda : all_chars is_digit a = true)
    by (apply all_chars_substring, Hds).
  assert (Hla : String.length a = 1) by (apply length_substring; lia).
  assert (Hna : a <> "") by (intros E; rewrite E in Hla; simpl in Hla; lia).
  destruct (String.length ds =? 1) eqn:E1.
  - apply Nat.eqb_eq in E1. rewrite app_nil_l.
    assert (Ea : a = ds).
    { unfold a. rewrite <- E1. apply PieceFacts.substring_0_all. }
    destruct Htail as [r Er].
    split; [|split; [|split]].
    + rewrite all_chars_app, (digits_num_char _ Hda), Htc. reflexivity.
    + apply head_digit; assumption.
    + rewrite <- (app_nil_l tail), <- app_assoc.
      destruct (contains "." ((a +:+ "") +:+ tail)); [reflexivity|].
      rewrite app_assoc, app_nil_l, Er.
      change (String "e" r) with ("e" +:+ r).
      rewrite contains_mark by discriminate. reflexivity.
    + eexists. eexists. split.
      * rewrite Er. apply float_body_exp; try assumption.
        rewrite <- Er. exact Hex.
      * intros neg. rewrite Ea. unfold ds.
        rewrite digits_value_str_N, fnorm_canonical by exact Hm.
        fold ds. rewrite E1. f_equal; lia.
  - apply Nat.eqb_neq in E1.
    set (b := String.substring 1 (String.length ds - 1) ds).
    assert (Hdb : all_chars is_digit b = true)
      by (apply all_chars_substring, Hds).
    assert (Hlb : String.length b = String.length ds - 1)
      by (apply length_substring; lia).
    assert (Hnb : b <> "")
      by (intros E; rewrite E in Hlb; simpl in Hlb; lia).
    assert (Hsplit : ds = a +:+ b) by (apply (substring_split ds 1); lia).
    rewrite !app_assoc.
    split; [|split; [|split]].
    + rewrite !all_chars_app, (digits_num_char _ Hda),
        (digits_num_char _ Hdb), Htc. reflexivity.
    + apply head_digit; assumption.
    + rewrite contains_mark by discriminate. reflexivity.
    + eexists. eexists. split.
      * apply (float_body_point a b tail ex); try assumption.
        destruct Htail as [r ->]. reflexivity.
      * intros neg.
        rewrite <- (digits_value_shift b (digits_value a 0)).
        rewrite <- digits_value_app, <- Hsplit.
        unfold ds. rewrite digits_value_str_N, Hlb.
        rewrite fnorm_canonical by exact Hm. reflexivity.
Qed.

(** The text of a canonical float: an optional sign and a body that
    reads as the float. *)
Lemma str_float_reads (neg : bool) (m : N) (e : Z) :
  canonical (FFin neg m e) = true ->
  exists body,
    str_float (FFin neg m e) = (if neg then "-" else "") +:+ body /\
    reads_as body m e.
Proof.
  unfold canonical. intros H. apply orb_true_iff in H as [H|H].
  - apply andb_true_iff in H as [Hm He].
    apply N.eqb_eq in Hm. apply Z.eqb_eq in He. subst m e.
    exists "0.0". split; [reflexivity|exact reads_zero].
  - apply negb_true_iff, N.eqb_neq in H.
    assert (Hm0 : N.eqb m 0 = false).
    { apply N.eqb_neq. intros ->. apply H. reflexivity. }
    unfold str_float. rewrite Hm0. cbv zeta.
    pose proof (str_N_nonempty m) as Hne.
    assert (Hlen : 1 <= String.length (str_N m))
      by (destruct (str_N m); [congruence|simpl; lia]).
    set (n := String.length (str_N m)) in *.
    destruct ((-4 <? Z.of_nat n + e) && (Z.of_nat n + e <=? 16))%Z.
    + destruct (Z.of_nat n + e <=? 0)%Z eqn:E0.
      * apply Z.leb_le in E0. eexists. split; [reflexivity|].
        pose proof (reads_small m (Z.to_nat (- (Z.of_nat n + e))) H) as R.
        fold n in R.
        replace (- Z.of_nat (Z.to_nat (- (Z.of_nat n + e)) + n))%Z
          with e in R by lia.
        exact R.
      * apply Z.leb_gt in E0.
        destruct (Z.of_nat n <=? Z.of_nat n + e)%Z eqn:E1.
        -- apply Z.leb_le in E1. eexists. split; [reflexivity|].
           pose proof (reads_large m (Z.to_nat (Z.of_nat n + e - Z.of_nat n))
                         H) as R.
           fold n in R.
           replace (Z.of_nat (Z.to_nat (Z.of_nat n + e - Z.of_nat n)))
             with e in R by lia.
           exact R.
        -- apply Z.leb_gt in E1. eexists. split; [reflexivity|].
           pose proof (reads_mid m (Z.to_nat (Z.of_nat n + e)) H) as R.
           fold n in R.
           replace (- Z.of_nat (n - Z.to_nat (Z.of_nat n + e)))%Z
             with e in R by lia.
           apply R. lia.
    + eexists. split; [reflexivity|].
      pose proof (reads_sci m (Z.of_nat n + e - 1) H) as R. fold n in R.
      replace (Z.of_nat n + e - 1 - Z.of_nat (n - 1))%Z with e in R by lia.
      exact R.
Qed.

(** Every canonical float is a finite literal. *)
Lemma canonical_finite_literal (f : pyfloat) :
  canonical f = true -> finite_literal f = true.
Proof.
  destruct f as [neg m e| |]; [|discriminate|discriminate].
  intros H. destruct (str_float_reads neg m e H) as (body & E & R).
  destruct R as (Hc & Hd & Hp & m' & e' & Hb & Hn).
  unfold finite_literal. rewrite E.
  rewrite (float_of_string_signed neg body m' e' Hc Hd Hb), Hn.
  rewrite bool_decide_eq_true_2 by reflexivity.
  rewrite all_chars_app, Hc.
  replace (all_chars num_char (if neg then "-" else "")) with true
    by (destruct neg; reflexivity).
  apply orb_true_iff in Hp as [Hp|Hp].
  - rewrite (contains_app_r _ _ _ Hp). reflexivity.
  - rewrite (contains_app_r _ _ _ Hp). apply orb_true_r.
Qed.

End FloatText.

(** ** Canonical floats through the codec *)

Module CanonicalFacts.
Import PyStr PyNum Numpy Rdump CodecSpec RoundTripSpec.
Import StrFacts TextFacts NumFacts NumpyFacts PieceFacts LineFacts FloatText.

Lemma strip_zeros_canonical (fuel : nat) (m : N) (e : Z) :
  (m <> 0)%N -> (m < 2 ^ N.of_nat fuel)%N ->
  ((strip_zeros fuel m e).1 mod 10 <> 0)%N.
Proof.
  revert m e. induction fuel as [|fuel IH]; intros m e Hm Hlt.
  - change (2 ^ N.of_nat 0)%N with 1%N in Hlt. lia.
  - cbn [strip_zeros]. rewrite (proj2 (N.eqb_neq m 0) Hm).
    destruct (N.eqb (m mod 10) 0) eqn:E.
    + apply N.eqb_eq in E.
      assert (Hd : (m = 10 * (m / 10))%N).
      { pose proof (N.div_mod m 10). lia. }
      apply IH; [lia|].
      rewrite Nat2N.inj_succ, N.pow_succ_r' in Hlt. lia.
    + apply N.eqb_neq in E. exact E.
Qed.

(** Every float [fnorm] builds is canonical. *)
Lemma canonical_fnorm (neg : bool) (m : N) (e : Z) :
  canonical (fnorm neg m e) = true.
Proof.
  unfold fnorm. destruct m as [|p].
  - reflexivity.
  - pose proof (strip_zeros_canonical (S (N.size_nat (Npos p))) (Npos p) e)
      as H.
    destruct (strip_zeros (S (N.size_nat (N.pos p))) (N.pos p) e)
      as [m' e'] eqn:E.
    cbn [canonical]. simpl in H.
    rewrite (proj2 (N.eqb_neq (m' mod 10) 0)); [apply orb_true_r|].
    apply H; [discriminate|].
    pose proof (size_nat_gt p) as Hs. cbn [N.size_nat].
    rewrite Nat2N.inj_succ, N.pow_succ_r'. lia.
Qed.

Lemma num_canonical_ok (x : num) : num_canonical x = true -> num_ok x = true.
Proof.
  destruct x as [z|f]; [reflexivity|]. apply canonical_finite_literal.
Qed.

Lemma forallb_canonical_ok (l : list num) :
  forallb num_canonical l = true -> forallb num_ok l = true.
Proof.
  rewrite !forallb_forall. intros H x Hx. apply num_canonical_ok, H, Hx.
Qed.

Lemma asarray_canonical (l : list num) :
  forallb num_canonical l = true ->
  forallb num_canonical (data (asarray l)) = true.
Proof.
  intros H. unfold asarray, array1. cbn [data].
  destruct (existsb is_float l); [|exact H].
  rewrite forallb_forall. intros y Hy. apply in_map_iff in Hy as (x & <- & Hx).
  rewrite forallb_forall in H. specialize (H x Hx).
  destruct x as [z|f]; [apply canonical_fnorm|exact H].
Qed.

End CanonicalFacts.

(** ** The decoder on the lines of a text *)

Module RloadFacts.
Import PyStr PyNum Numpy Rdump CodecSpec RoundTripSpec.
Import StrFacts TextFacts MarkerFacts NumFacts PieceFacts LineFacts RoundTrip.

(** *** Lines *)

Lemma join_nil_cons (x : string) (l : list string) :
  join "" (x :: l) = x +:+ join "" l.
Proof. destruct l; [rewrite app_nil_r|]; reflexivity. Qed.

Lemma join_readlines_go (s cur : string) :
  join "" (readlines_go cur s) = cur +:+ s.
Proof.
  revert cur. induction s as [|c s IH]; intros cur.
  - rewrite app_nil_r. destruct cur; reflexivity.
  - cbn [readlines_go]. destruct (Ascii.eqb c nl) eqn:E.
    + apply Ascii.eqb_eq in E. subst c.
      rewrite join_nil_cons, IH, app_nil_l, app_assoc. reflexivity.
    + rewrite IH, app_assoc. reflexivity.
Qed.

Lemma readlines_go_app_nl (a b cur : string) :
  readlines_go cur (a +:+ String nl b) =
  readlines_go cur (a +:+ String nl "") ++ readlines_go "" b.
Proof.
  revert cur. induction a as [|c a IH]; intros cur.
  - rewrite !app_nil_l. cbn [readlines_go].
    change (Ascii.eqb nl nl) with true. reflexivity.
  - rewrite !app_String. cbn [readlines_go].
    destruct (Ascii.eqb c nl).
    + rewrite (IH ""). reflexivity.
    + apply IH.
Qed.

Lemma readlines_go_plain (s cur : string) :
  all_chars (fun c => negb (Ascii.eqb c nl)) s = true ->
  cur +:+ s <> "" ->
  readlines_go cur s = [cur +:+ s].
Proof.
  revert cur. induction s as [|c s IH]; intros cur H Hne.
  - rewrite app_nil_r in *. destruct cur; [congruence|reflexivity].
  - cbn [all_chars] in H. apply andb_true_iff in H as [H1 H2].
    apply negb_true_iff in H1. cbn [readlines_go]. rewrite H1.
    rewrite IH, app_assoc; [reflexivity|exact H2|].
    rewrite app_assoc. exact Hne.
Qed.

(** *** The marker *)

Lemma prefix_dash_snoc (s : string) (c : ascii) :
  Ascii.eqb c "-" = false ->
  String.prefix "-" (s +:+ String c "") = String.prefix "-" s.
Proof.
  intros Hc. destruct s as [|d s].
  - rewrite app_nil_l, prefix_char, Hc. reflexivity.
  - rewrite app_String, !prefix_char. reflexivity.
Qed.

Lemma contains_marker_snoc (s : string) (c : ascii) :
  Ascii.eqb c "-" = false ->
  contains "<-" (s +:+ String c "") = contains "<-" s.
Proof.
  intros Hc. induction s as [|d s IH].
  - rewrite app_nil_l, contains_String, prefix_marker.
    change (String.prefix "-" "") with false. rewrite andb_false_r.
    reflexivity.
  - rewrite app_String, !contains_String, !prefix_marker, IH.
    rewrite prefix_dash_snoc by exact Hc. reflexivity.
Qed.

Lemma contains_marker_nonempty (s : string) :
  contains "<-" s = true -> s <> "".
Proof. intros H ->. discriminate H. Qed.

Lemma next_marker_shift (rest : list string) (idx n : nat) :
  next_marker rest (n + idx) = n + next_marker rest idx.
Proof.
  revert idx. induction rest as [|l rest IH]; intros idx; cbn [next_marker].
  - reflexivity.
  - destruct (contains "<-" l); [reflexivity|].
    rewrite <- IH, Nat.add_succ_r. reflexivity.
Qed.

Lemma next_marker_app_none (P L : list string) (idx : nat) :
  Forall (fun l => contains "<-" l = false) P ->
  next_marker (P ++ L) idx = length P + next_marker L idx.
Proof.
  intros H. revert idx. induction H as [|l P Hl _ IH]; intros idx.
  - reflexivity.
  - cbn [app next_marker length]. rewrite Hl, IH.
    change (S idx) with (1 + idx). rewrite next_marker_shift. lia.
Qed.

(** *** The loop behind a prefix of lines *)

Lemma slice_shift {A : Type} (P L : list A) (s j : nat) :
  slice (P ++ L) (length P + s) (length P + j) = slice L s j.
Proof.
  unfold slice.
  replace (length P + j - (length P + s)) with (j - s) by lia.
  rewrite drop_app_add. reflexivity.
Qed.

Lemma rload_store_shift (P L : list string) (s j : nat)
    (d : gmap string pyval) :
  rload_store (P ++ L) (length P + s) (length P + j) d = rload_store L s j d.
Proof. unfold rload_store. rewrite slice_shift. reflexivity. Qed.

Lemma rload_loop_shift (P L rest : list string) (s i : nat)
    (d : gmap string pyval) :
  rload_loop (P ++ L) rest (length P + s) (length P + i) d =
  rload_loop L rest s i d.
Proof.
  revert s i d. induction rest as [|l rest IH]; intros s i d;
    cbn [rload_loop].
  - apply rload_store_shift.
  - destruct (contains "<-" l).
    + rewrite rload_store_shift.
      destruct (rload_store L s i d) as [d'|e]; [|reflexivity].
      cbn [bind]. rewrite <- Nat.add_succ_r. apply IH.
    + rewrite <- Nat.add_succ_r. apply IH.
Qed.

(** *** A text that is one statement *)

Lemma rload_loop_no_marker (lines rest : list string) (s i : nat)
    (d : gmap string pyval) :
  Forall (fun l => contains "<-" l = false) rest ->
  rload_loop lines rest s i d = rload_store lines s (i + length rest) d.
Proof.
  intros H. revert i. induction H as [|l rest Hl _ IH]; intros i;
    cbn [rload_loop length].
  - rewrite Nat.add_0_r. reflexivity.
  - rewrite Hl, IH. f_equal. lia.
Qed.

Lemma rload_store_all (lines : list string) (d : gmap string pyval) :
  rload_store lines 0 (length lines) d =
  rload_store [join "" lines] 0 1 d.
Proof.
  unfold rload_store, slice. rewrite Nat.sub_0_r, drop_0, firstn_all.
  reflexivity.
Qed.

Lemma replace_clean (old : ascii) (s : string) :
  all_chars (fun c => negb (Ascii.eqb c old)) (replace old "" s) = true.
Proof.
  induction s as [|c s IH]; [reflexivity|].
  cbn [replace]. destruct (Ascii.eqb c old) eqn:E.
  - rewrite app_nil_l. exact IH.
  - cbn [all_chars]. rewrite E, IH. reflexivity.
Qed.

Lemma all_chars_replace_none (P : ascii -> bool) (old : ascii) (s : string) :
  all_chars P s = true -> all_chars P (replace old "" s) = true.
Proof.
  induction s as [|c s IH]; [reflexivity|].
  cbn [all_chars replace]. intros H. apply andb_true_iff in H as [Hc Hs].
  destruct (Ascii.eqb c old).
  - rewrite app_nil_l. exact (IH Hs).
  - cbn [all_chars]. rewrite Hc. exact (IH Hs).
Qed.

Lemma rload_store_flat (t : string) (d : gmap string pyval) :
  rload_store [t] 0 1 d = rload_store [replace nl "" t] 0 1 d.
Proof.
  unfold rload_store, slice. cbn [Nat.sub drop take join].
  rewrite (replace_none nl "" (replace nl "" t)) by apply replace_clean.
  reflexivity.
Qed.

(** A text whose first line holds the marker and whose other lines do
    not is one statement: the text without its newlines. *)
Lemma rload_single (text l : string) (ls : list string) :
  readlines text = l :: ls ->
  contains "<-" l = true ->
  Forall (fun l => contains "<-" l = false) ls ->
  rload text =
  do d <- rload_store [replace nl "" text] 0 1 ∅; Ok (Some d).
Proof.
  intros E Hl Hls. unfold rload. rewrite E.
  cbn [next_marker]. rewrite Hl. cbn [length Nat.eqb drop].
  rewrite drop_0, (rload_loop_no_marker _ _ _ _ _ Hls).
  change (1 + length ls) with (length (l :: ls)).
  rewrite rload_store_all, <- E. unfold readlines.
  rewrite join_readlines_go, app_nil_l, rload_store_flat. reflexivity.
Qed.

End RloadFacts.

(** ** What the decoder accepts beyond the encoder's text *)

Module RloadLines.
Import PyStr PyNum Numpy Rdump CodecSpec RoundTripSpec.
Import StrFacts TextFacts MarkerFacts NumFacts PieceFacts LineFacts RoundTrip.
Import RloadFacts.
Import Newlines.

(** X1. Whatever stands before the first line that holds the marker [<-] is
    ignored: a text decodes as the text after such a preamble. *)
Theorem rload_skips_preamble (pre text : string) :
  contains "<-" pre = false ->
  rload (pre +:+ String nl text) = rload text.
Proof.
  intros Hpre. unfold rload, readlines.
  rewrite readlines_go_app_nl.
  set (P := readlines_go "" (pre +:+ String nl "")).
  set (L := readlines_go "" text).
  assert (HP : Forall (fun l => contains "<-" l = false) P).
  { apply readlines_go_not_contains.
    rewrite app_nil_l, contains_marker_snoc by reflexivity. exact Hpre. }
  cbv zeta. rewrite (next_marker_app_none P L 0 HP), List.length_app.
  set (n := next_marker L 0).
  assert (E : (length P + n =? length P + length L) = (n =? length L)).
  { destruct (n =? length L) eqn:En.
    - apply Nat.eqb_eq in En. apply Nat.eqb_eq. lia.
    - apply Nat.eqb_neq in En. apply Nat.eqb_neq. lia. }
  rewrite E. destruct (n =? length L); [reflexivity|].
  rewrite <- Nat.add_succ_r, drop_app_add, rload_loop_shift. reflexivity.
Qed.

Lemma rload_skips_preamble_witness :
  contains "<-" "# written by hand" = false /\
  rload ("# written by hand" +:+ String nl "N <- 3") = rload "N <- 3".
Proof.
  split; [reflexivity|]. apply rload_skips_preamble. reflexivity.
Defined.

(** X2. A statement may go on over several lines: in a text without
    carriage returns, the line breaks after the first line of a
    statement make no difference to what is decoded. Python reads the
    lines of both texts as [readlines] cuts them. *)
Theorem rload_continuation_lines (first rest : string) :
  no_cr first = true ->
  no_cr rest = true ->
  all_chars (fun c => negb (Ascii.eqb c nl)) first = true ->
  contains "<-" first = true ->
  contains "<-" rest = false ->
  rload (first +:+ String nl rest) = rload (first +:+ replace nl "" rest) /\
  readlines_text_mode (first +:+ String nl rest)
    = readlines (first +:+ String nl rest) /\
  readlines_text_mode (first +:+ replace nl "" rest)
    = readlines (first +:+ replace nl "" rest).
Proof.
  intros Hc1 Hc2 Hnl Hm Hrest. split.
  2:{ split; apply readlines_text_mode_no_cr; unfold no_cr in *;
        rewrite all_chars_app, Hc1.
      - cbn [all_chars]. exact Hc2.
      - apply all_chars_replace_none, Hc2. }
  assert (Hl : readlines (first +:+ String nl rest)
               = (first +:+ String nl "") :: readlines rest).
  { unfold readlines. rewrite readlines_go_line, app_nil_l by exact Hnl.
    reflexivity. }
  rewrite (rload_single _ _ _ Hl).
  2:{ apply contains_app_l, Hm. }
  2:{ apply readlines_go_not_contains. rewrite app_nil_l. exact Hrest. }
  assert (Hl' : readlines (first +:+ replace nl "" rest)
                = [first +:+ replace nl "" rest]).
  { unfold readlines. rewrite readlines_go_plain, app_nil_l; [reflexivity| |].
    - rewrite all_chars_app, Hnl. apply replace_clean.
    - rewrite app_nil_l. apply contains_marker_nonempty, contains_app_l, Hm. }
  rewrite (rload_single _ _ _ Hl').
  2:{ apply contains_app_l, Hm. }
  2:{ constructor. }
  change (first +:+ String nl rest)
    with (first +:+ (String nl "" +:+ rest)).
  rewrite !replace_app.
  rewrite (replace_none nl "" (replace nl "" rest)) by apply replace_clean.
  reflexivity.
Qed.

Lemma rload_continuation_lines_witness :
  no_cr "y <- c(1," = true /\
  no_cr (" 2," +:+ String nl " 3)") = true /\
  all_chars (fun c => negb (Ascii.eqb c nl)) "y <- c(1," = true /\
  contains "<-" "y <- c(1," = true /\
  contains "<-" (" 2," +:+ String nl " 3)") = false /\
  rload ("y <- c(1," +:+ String nl (" 2," +:+ String nl " 3)")) =
  rload "y <- c(1, 2, 3)".
Proof.
  split; [reflexivity|]. split; [reflexivity|]. split; [reflexivity|].
  split; [reflexivity|]. split; [reflexivity|].
  apply (rload_continuation_lines "y <- c(1," (" 2," +:+ String nl " 3)"));
    reflexivity.
Defined.

(** *** One line *)

Lemma rload_one_line (line : string) :
  all_chars (fun c => negb (Ascii.eqb c nl)) line = true ->
  contains "<-" line = true ->
  rload (line +:+ String nl "") =
  do d <- rload_store [line] 0 1 ∅; Ok (Some d).
Proof.
  intros Hnl Hm.
  assert (Hl : readlines (line +:+ String nl "") = [line +:+ String nl ""]).
  { unfold readlines. rewrite readlines_go_line, app_nil_l by exact Hnl.
    reflexivity. }
  rewrite (rload_single _ _ _ Hl).
  - rewrite replace_app, (replace_none nl "" line) by exact Hnl.
    change (replace nl "" (String nl "")) with "". rewrite app_nil_r.
    reflexivity.
  - apply contains_app_l, Hm.
  - constructor.
Qed.

Lemma rload_store_one (line : string) (d : gmap string pyval) :
  all_chars (fun c => negb (Ascii.eqb c nl)) line = true ->
  rload_store [line] 0 1 d =
  match map strip (split "<-" line) with
  | [lhs; rhs] =>
      do val <- parse_rdump_value (replace "L" "" rhs);
      Ok (<[replace "034" "" lhs := val]> d)
  | _ => Raise (ValueError "wrong number of values to unpack (expected 2)")
  end.
Proof.
  intros Hnl. unfold rload_store, slice. cbn [Nat.sub drop take join].
  rewrite (replace_none nl "" line) by exact Hnl. reflexivity.
Qed.

(** The statement is cut at the first marker. *)
Lemma split_go_marker_app (a rest cur : string) :
  contains "<-" a = false ->
  split_go "<-" 0 cur (a +:+ "<-" +:+ rest) =
  (cur +:+ a) :: split_go "<-" 0 "" rest.
Proof.
  revert cur. induction a as [|c a IH]; intros cur H.
  - rewrite app_nil_l, app_nil_r.
    change ("<-" +:+ rest) with (String "<" (String "-" rest)).
    rewrite split_go_String, prefix_marker, prefix_char.
    change (String.length "<-" - 1) with 1.
    rewrite Brackets.split_go_skip. reflexivity.
  - rewrite contains_String in H. apply orb_false_iff in H as [H1 H2].
    rewrite app_String, split_go_String.
    assert (Hp : String.prefix "<-" (String c (a +:+ "<-" +:+ rest))
                 = false).
    { rewrite prefix_marker in *.
      apply andb_false_iff in H1 as [H1|H1]; [rewrite H1; reflexivity|].
      rewrite prefix_dash_app; [apply andb_false_r|exact H1|reflexivity]. }
    rewrite Hp, (IH _ H2), !app_assoc. reflexivity.
Qed.

(** X3. A line with two markers is rejected: the statement must be cut in
    exactly two pieces. The line holds no newline and no carriage
    return, so that Python reads it as one line as well. *)
Theorem rload_two_markers (a b c : string) :
  no_cr (a +:+ b +:+ c) = true ->
  all_chars (fun x => negb (Ascii.eqb x nl)) (a +:+ b +:+ c) = true ->
  contains "<-" a = false ->
  contains "<-" b = false ->
  readlines_text_mode (a +:+ "<-" +:+ b +:+ "<-" +:+ c)
    = readlines (a +:+ "<-" +:+ b +:+ "<-" +:+ c) /\
  exists msg, rload (a +:+ "<-" +:+ b +:+ "<-" +:+ c) = Raise (ValueError msg).
Proof.
  intros Hcr Hnl Ha Hb. split.
  { apply readlines_text_mode_no_cr. unfold no_cr in *.
    rewrite !all_chars_app in Hcr.
    apply andb_true_iff in Hcr as [Hca Hcr].
    apply andb_true_iff in Hcr as [Hcb Hcc].
    rewrite !all_chars_app, Hca, Hcb, Hcc. reflexivity. }
  eexists. rewrite !all_chars_app in Hnl.
  apply andb_true_iff in Hnl as [Hna Hnl].
  apply andb_true_iff in Hnl as [Hnb Hnc].
  set (line := a +:+ "<-" +:+ b +:+ "<-" +:+ c).
  assert (Hline : all_chars (fun x => negb (Ascii.eqb x nl)) line = true).
  { unfold line. rewrite !all_chars_app, Hna, Hnb, Hnc. reflexivity. }
  assert (Hm : contains "<-" line = true).
  { unfold line. apply contains_app_r, contains_app_l. reflexivity. }
  assert (Hl : readlines line = [line]).
  { unfold readlines. rewrite readlines_go_plain, app_nil_l;
      [reflexivity|exact Hline|].
    rewrite app_nil_l. apply contains_marker_nonempty, Hm. }
  rewrite (rload_single _ _ _ Hl Hm) by constructor.
  rewrite (replace_none nl "" line) by exact Hline.
  rewrite rload_store_one by exact Hline.
  unfold split, line.
  rewrite split_go_marker_app by exact Ha.
  rewrite split_go_marker_app by exact Hb.
  destruct (Brackets.split_go_head c "") as (x & rest & ->).
  reflexivity.
Qed.

Lemma rload_two_markers_witness :
  exists msg, rload "a <- b <- 1" = Raise (ValueError msg).
Proof.
  apply (proj2 (rload_two_markers "a " " b " " 1" eq_refl eq_refl eq_refl eq_refl)).
Defined.

End RloadLines.

(** ** The decoder on a file of one-line statements *)

Module RloadStatements.
Import PyStr PyNum Numpy Rdump CodecSpec RoundTripSpec.
Import StrFacts TextFacts MarkerFacts NumFacts PieceFacts LineFacts RoundTrip.
Import RloadFacts RloadLines CanonicalFacts.
Import Newlines.

(** X4. The quotes Jags puts around a name and the [L] that R puts after a
    long integer are dropped, for a name that holds no marker, quote,
    newline or carriage return and no blank at either end. *)
Theorem rload_quoted_key_long_int (key : string) (z : Z) :
  plain_key key = true ->
  no_cr key = true ->
  rload (String "034" (key +:+ String "034" "") +:+ " <- " +:+
         str_Z z +:+ "L" +:+ String nl "")
  = Ok (Some {[ key := PNum (NInt z) ]}) /\
  readlines_text_mode
    (String "034" (key +:+ String "034" "") +:+ " <- " +:+
     str_Z z +:+ "L" +:+ String nl "")
  = readlines
      (String "034" (key +:+ String "034" "") +:+ " <- " +:+
       str_Z z +:+ "L" +:+ String nl "").
Proof.
  intros Hk Hcr. split.
  2:{ apply readlines_text_mode_no_cr. unfold no_cr in *.
      rewrite !all_chars_app. cbn [all_chars]. rewrite all_chars_app, Hcr.
      rewrite (all_chars_impl num_char _ (str_Z z)
                 (fun c Hc => rhs_char_no_cr c (num_char_rhs c Hc))
                 (str_Z_chars z)).
      reflexivity. }
  destruct (plain_key_facts key Hk) as (Hk1 & Hk2 & Hk3 & Hk4).
  set (qkey := String "034" (key +:+ String "034" "")).
  pose proof (str_Z_chars z) as Hz.
  assert (Hznl : all_chars (fun c => negb (Ascii.eqb c nl)) (str_Z z) = true).
  { apply (all_chars_impl num_char); [|exact Hz].
    intros c Hc. apply num_char_not in Hc as (_ & -> & _). reflexivity. }
  assert (Hzlt : all_chars (fun c => negb (Ascii.eqb c "<")) (str_Z z) = true).
  { apply (all_chars_impl num_char); [|exact Hz].
    intros c Hc. apply num_char_not in Hc as (_ & _ & _ & _ & -> & _).
    reflexivity. }
  assert (HzL : all_chars (fun c => negb (Ascii.eqb c "L")) (str_Z z) = true).
  { apply (all_chars_impl num_char); [|exact Hz].
    intros c Hc. apply num_char_not in Hc as (_ & _ & _ & _ & _ & -> & _).
    reflexivity. }
  assert (Hzsp : all_chars (fun c => negb (isspace c)) (str_Z z) = true).
  { apply (all_chars_impl num_char); [|exact Hz].
    intros c Hc. apply num_char_not in Hc as (-> & _). reflexivity. }
  assert (Hq : contains "<-" qkey = false).
  { unfold qkey. rewrite contains_String, prefix_marker.
    rewrite contains_marker_snoc by reflexivity. exact Hk1. }
  set (line := qkey +:+ " <- " +:+ (str_Z z +:+ "L")).
  assert (E : qkey +:+ " <- " +:+ str_Z z +:+ "L" +:+ String nl ""
              = line +:+ String nl "").
  { unfold line. rewrite !app_assoc. reflexivity. }
  assert (Hline : all_chars (fun c => negb (Ascii.eqb c nl)) line = true).
  { unfold line, qkey. rewrite !all_chars_app. cbn [all_chars].
    rewrite !all_chars_app, Hk3, Hznl. reflexivity. }
  rewrite E, rload_one_line; [|exact Hline|].
  2:{ unfold line. apply contains_app_r. reflexivity. }
  rewrite rload_store_one by exact Hline. unfold line.
  rewrite split_statement; [|exact Hq|].
  2:{ rewrite all_chars_app, Hzlt. reflexivity. }
  cbn [map].
  rewrite strip_snoc_space.
  2:{ unfold qkey. apply strip_wrapped; reflexivity. }
  rewrite strip_cons_space, strip_none.
  2:{ rewrite all_chars_app, Hzsp. reflexivity. }
  rewrite replace_app, (replace_none "L" "" (str_Z z)) by exact HzL.
  change (replace "L" "" "L") with "". rewrite app_nil_r.
  rewrite parse_int_scalar. cbn [bind]. unfold qkey.
  change (String "034" (key +:+ String "034" ""))
    with (String "034" "" +:+ (key +:+ String "034" "")).
  rewrite !replace_app, (replace_none "034" "" key) by exact Hk2.
  change (replace "034" "" (String "034" "")) with "".
  rewrite app_nil_l, app_nil_r. reflexivity.
Qed.

Lemma rload_quoted_key_long_int_witness :
  plain_key "N" = true /\
  no_cr "N" = true /\
  rload (String "034" ("N" +:+ String "034" "") +:+ " <- " +:+
         str_Z 12 +:+ "L" +:+ String nl "")
  = Ok (Some {[ "N" := PNum (NInt 12) ]}).
Proof.
  split; [reflexivity|]. split; [reflexivity|].
  apply (rload_quoted_key_long_int "N" 12); reflexivity.
Defined.

(** *** Statements stored in order *)

Lemma stated_no_newline (item : string * pyval) (line : string) :
  stated item line ->
  all_chars (fun c => negb (Ascii.eqb c nl)) line = true.
Proof.
  intros (rhs & -> & Hk & Hr & _).
  destruct (plain_key_facts _ Hk) as (_ & _ & Hk3 & _).
  destruct (clean_rhs_facts _ Hr) as (Hr1 & _).
  rewrite !all_chars_app, Hk3, Hr1. reflexivity.
Qed.

Lemma readlines_stated (items : list (string * pyval)) (lines : list string) :
  Forall2 stated items lines ->
  readlines (text_of_lines lines) = map (fun l => l +:+ String nl "") lines.
Proof.
  unfold readlines. intros H.
  induction H as [|item line items lines Hst _ IH]; [reflexivity|].
  cbn [text_of_lines foldr map].
  change (line +:+ String nl "" +:+ foldr _ "" lines)
    with (line +:+ String nl (text_of_lines lines)).
  rewrite readlines_go_line by (eapply stated_no_newline, Hst).
  rewrite IH. reflexivity.
Qed.

Lemma rload_loop_stated (items : list (string * pyval))
    (lines : list string) :
  Forall2 stated items lines ->
  forall (pre : list string) (item : string * pyval) (line : string)
         (d : gmap string pyval),
    stated item line ->
    rload_loop
      (pre ++ (line +:+ String nl "")
           :: map (fun l => l +:+ String nl "") lines)
      (map (fun l => l +:+ String nl "") lines)
      (length pre) (S (length pre)) d
    = Ok (foldl (fun m it => <[it.1 := it.2]> m) d (item :: items)).
Proof.
  intros H. induction H as [|item' line' items lines Hst _ IH];
    intros pre item line d (rhs & -> & Hk & Hr & Hp).
  - simpl map. cbn [rload_loop]. rewrite slice_one.
    rewrite app_assoc, (store_statement _ _ _ _ Hk Hr Hp). reflexivity.
  - cbn [map rload_loop].
    pose proof Hst as (rhs' & E' & _). subst line'.
    rewrite !app_assoc, statement_has_marker.
    rewrite slice_one, (store_statement _ _ _ _ Hk Hr Hp).
    cbn [bind].
    specialize (IH (pre ++ [item.1 +:+ " <- " +:+ rhs +:+ String nl ""])
                   item' _ (<[item.1 := item.2]> d) Hst).
    rewrite List.length_app, Nat.add_1_r, <- (List.app_assoc pre) in IH.
    simpl app in IH. rewrite !app_assoc in IH. rewrite IH. reflexivity.
Qed.

Lemma foldl_insert_list_to_map (items : list (string * pyval))
    (d : gmap string pyval) :
  foldl (fun m it => <[it.1 := it.2]> m) d items =
  list_to_map (reverse items) ∪ d.
Proof.
  revert d. induction items as [|[k v] items IH]; intros d.
  - simpl. rewrite (left_id_L ∅ (∪)). reflexivity.
  - cbn [foldl]. rewrite IH, reverse_cons, list_to_map_app.
    cbn [list_to_map foldr fst snd].
    rewrite <- (assoc_L (∪)), <- insert_union_l, (left_id_L ∅ (∪)).
    reflexivity.
Qed.

(** A file of statements decodes to the dictionary of the statements;
    of two statements for one key the later one counts. *)
Lemma rload_stated (items : list (string * pyval)) (lines : list string) :
  Forall2 stated items lines -> items <> [] ->
  rload (text_of_lines lines) = Ok (Some (list_to_map (reverse items))).
Proof.
  intros Hst Hne. unfold rload. rewrite (readlines_stated items lines Hst).
  destruct Hst as [|item line items lines Hi Hst]; [congruence|].
  pose proof Hi as (rhs & El & _).
  assert (Hm : contains "<-" (line +:+ String nl "") = true)
    by (rewrite El, !app_assoc; apply statement_has_marker).
  cbn [map next_marker]. rewrite Hm. cbn [Nat.eqb length drop].
  rewrite (rload_loop_stated items lines Hst [] item line ∅ Hi).
  rewrite foldl_insert_list_to_map, (right_id_L ∅ (∪)). reflexivity.
Qed.

(** A file of statements whose keys hold no carriage return holds
    none. *)
Lemma stated_no_cr (items : list (string * pyval)) (lines : list string) :
  Forall2 stated items lines ->
  Forall (fun item => no_cr item.1 = true) items ->
  no_cr (text_of_lines lines) = true.
Proof.
  apply (statements_no_cr stated).
  intros item line (rhs & -> & _ & Hc & _). exists rhs. auto.
Qed.

End RloadStatements.

(** ** Later statements, and the round trip without conditions on floats *)

Module RoundTripMore.
Import PyStr PyNum Numpy Rdump CodecSpec RoundTripSpec Metric.
Import StrFacts TextFacts MarkerFacts NumFacts PieceFacts LineFacts RoundTrip.
Import RloadFacts RloadLines CanonicalFacts RloadStatements.
Import Newlines.

(** X5. In a file of one-line statements whose keys hold no carriage
    return, every key is decoded to the value of the last statement that
    assigns it. The file holds no carriage return, so that Python reads
    its lines as [readlines] cuts them. *)
Theorem rload_later_statement_counts (items : list (string * pyval))
    (lines : list string) :
  Forall2 stated items lines -> items <> [] ->
  Forall (fun item => no_cr item.1 = true) items ->
  readlines_text_mode (text_of_lines lines) = readlines (text_of_lines lines) /\
  exists d : gmap string pyval,
    rload (text_of_lines lines) = Ok (Some d) /\
    dom d = list_to_set (map fst items) /\
    (forall items1 key v items2,
        items = items1 ++ (key, v) :: items2 ->
        key ∉ map fst items2 ->
        d !! key = Some v).
Proof.
  intros Hst Hne Hcr. split.
  { apply readlines_text_mode_no_cr, (stated_no_cr items lines Hst Hcr). }
  exists (list_to_map (reverse items)).
  split; [apply (rload_stated items lines Hst Hne)|]. split.
  - rewrite dom_list_to_map_L. apply set_eq. intros k.
    rewrite !elem_of_list_to_set, fmap_reverse, elem_of_reverse.
    reflexivity.
  - intros items1 key v items2 -> Hnot.
    rewrite reverse_app, reverse_cons, list_to_map_app, list_to_map_app.
    apply lookup_union_Some_l. rewrite lookup_union_r.
    + cbn [list_to_map foldr fst snd]. apply lookup_insert_eq.
    + apply not_elem_of_list_to_map_1.
      rewrite fmap_reverse, elem_of_reverse. exact Hnot.
Qed.

Lemma rload_later_statement_counts_witness :
  exists d : gmap string pyval,
    rload (text_of_lines ["N <- 1"; "M <- 7"; "N <- 2"]) = Ok (Some d) /\
    d !! "N" = Some (PNum (NInt 2)).
Proof.
  assert (Hst : Forall2 stated
                  [("N", PNum (NInt 1)); ("M", PNum (NInt 7));
                   ("N", PNum (NInt 2))]
                  ["N <- 1"; "M <- 7"; "N <- 2"]).
  { repeat constructor.
    - exists "1". repeat split; reflexivity.
    - exists "7". repeat split; reflexivity.
    - exists "2". repeat split; reflexivity. }
  assert (Hcr : Forall (fun item : string * pyval => no_cr item.1 = true)
                  [("N", PNum (NInt 1)); ("M", PNum (NInt 7));
                   ("N", PNum (NInt 2))]).
  { repeat constructor. }
  destruct (rload_later_statement_counts _ _ Hst ltac:(discriminate) Hcr)
    as (_ & d & E & _ & H).
  exists d. split; [exact E|].
  apply (H [("N", PNum (NInt 1)); ("M", PNum (NInt 7))] "N" (PNum (NInt 2)) []);
    [reflexivity|].
  apply not_elem_of_nil.
Defined.

(** *** The lines of the encoder *)

Lemma rdump_line_scalar_form (key : string) (v : pyval) :
  rdump_line key v = rdump_line key (scalar_form v).
Proof.
  destruct v as [x|a|l]; try reflexivity.
  cbn [scalar_form rdump_line]. destruct (1 <? size a) eqn:E.
  - cbn [rdump_line]. rewrite E. reflexivity.
  - destruct (data a) as [|x xs] eqn:Ed.
    + cbn [rdump_line]. rewrite E, Ed. reflexivity.
    + reflexivity.
Qed.

Lemma value_canonical_ok (v : pyval) :
  value_canonical v -> value_ok (scalar_form v).
Proof.
  destruct v as [x|a|l]; cbn [value_canonical scalar_form].
  - apply num_canonical_ok.
  - intros (Hwf & Hsize & Hok). destruct (1 <? size a) eqn:E.
    + apply Nat.ltb_lt in E. cbn [value_ok].
      auto using forallb_canonical_ok.
    + apply Nat.ltb_ge in E. unfold wf_ndarray in Hwf.
      destruct (data a) as [|x xs]; [simpl in Hwf; lia|].
      cbn [value_ok]. cbn [forallb] in Hok.
      apply andb_true_iff in Hok as [Hx _]. apply num_canonical_ok, Hx.
  - intros (Hlen & Hok). cbn [value_ok]. split; [exact Hlen|].
    apply forallb_canonical_ok, asarray_canonical, Hok.
Qed.

Lemma rdump_stated (data : list (string * pyval)) :
  Forall (fun item => plain_key item.1 = true /\ value_canonical item.2)
         data ->
  exists lines,
    rdump data = Ok (text_of_lines lines) /\
    Forall2 stated (prod_map id decoded_value <$> data) lines.
Proof.
  intros H. induction H as [|[key v] data [Hk Hv] _ (lines & E & Hl)].
  - exists []. split; [reflexivity|constructor].
  - simpl in Hk, Hv.
    destruct (rdump_line_decodes key (scalar_form v) (value_canonical_ok v Hv))
      as (rhs & El & Hc & Hp).
    rewrite <- rdump_line_scalar_form in El.
    exists ((key +:+ " <- " +:+ rhs) :: lines). split.
    + cbn [rdump]. rewrite El, E. reflexivity.
    + constructor; [|exact Hl]. exists rhs. auto.
Qed.

(** The text [rdump] writes for a mapping with distinct plain keys is
    decoded to the mapping of the decoded values. *)
Lemma rload_rdump_canonical (data : list (string * pyval)) :
  data <> [] ->
  NoDup (map fst data) ->
  Forall (fun item => plain_key item.1 = true /\ value_canonical item.2)
         data ->
  exists text,
    rdump data = Ok text /\
    rload text = Ok (Some (decoded_value <$> list_to_map data)).
Proof.
  intros Hne Hnd Hok. destruct (rdump_stated data Hok) as (lines & E & Hst).
  exists (text_of_lines lines). split; [exact E|].
  rewrite (rload_stated _ _ Hst) by (destruct data; [congruence|discriminate]).
  rewrite <- list_to_map_fmap. do 2 f_equal.
  apply list_to_map_proper; [|apply reverse_Permutation].
  rewrite fmap_reverse, reverse_Permutation.
  rewrite <- list_fmap_compose.
  replace (fst ∘ prod_map id decoded_value) with (@fst string pyval)
    by reflexivity.
  exact Hnd.
Qed.

(** The text [rdump] writes for keys without a carriage return holds
    none. *)
Lemma rdump_canonical_no_cr (data : list (string * pyval)) (text : string) :
  Forall (fun item =>
            plain_key item.1 = true /\ no_cr item.1 = true /\
            value_canonical item.2) data ->
  rdump data = Ok text ->
  readlines_text_mode text = readlines text.
Proof.
  intros Hall E.
  assert (Hok : Forall (fun item => plain_key item.1 = true /\
                                    value_canonical item.2) data).
  { eapply Forall_impl; [exact Hall|]. intros item (Hk & _ & Hv). auto. }
  destruct (rdump_stated data Hok) as (lines & El & Hst).
  assert (Et : text = text_of_lines lines) by congruence.
  apply readlines_text_mode_no_cr. rewrite Et.
  apply (stated_no_cr _ lines Hst).
  apply Forall_fmap. eapply Forall_impl; [exact Hall|].
  intros [key v] (_ & Hk & _). exact Hk.
Qed.

(** X6. The round trip for every finite float: for a mapping that is not
    empty, with distinct plain keys that hold no carriage return, whose
    values are numbers, arrays of at least one element and lists of more
    than one number, [rload] gives for the text of [rdump] the mapping
    of the decoded values; Python reads the lines of that text as
    [readlines] cuts them. A number comes back as it is, an array or a
    list of more than one element as the array of the same shape with
    its elements as floats, and an array of one element as its element,
    without a shape. *)
Theorem rdump_rload_finite_floats (data : list (string * pyval)) :
  data <> [] ->
  NoDup (map fst data) ->
  Forall (fun item =>
            plain_key item.1 = true /\ no_cr item.1 = true /\
            value_canonical item.2) data ->
  exists (text : string) (d : gmap string pyval),
    rdump data = Ok text /\
    readlines_text_mode text = readlines text /\
    rload text = Ok (Some d) /\
    d = decoded_value <$> list_to_map data /\
    (forall key x, (key, PNum x) ∈ data -> d !! key = Some (PNum x)) /\
    (forall key a,
        (key, PArr a) ∈ data -> 1 < size a ->
        d !! key =
        Some (PArr {| shape := shape a; data := as_floats (Numpy.data a) |})) /\
    (forall key a x,
        (key, PArr a) ∈ data -> Numpy.data a = [x] ->
        d !! key = Some (PNum x)) /\
    (forall key l,
        (key, PList l) ∈ data ->
        d !! key =
        Some (PArr {| shape := [length l]; data := as_floats l |})).
Proof.
  intros Hne Hnd Hall.
  assert (Hok : Forall (fun item => plain_key item.1 = true /\
                                    value_canonical item.2) data).
  { eapply Forall_impl; [exact Hall|]. intros item (Hk & _ & Hv). auto. }
  destruct (rload_rdump_canonical data Hne Hnd Hok) as (text & E & Hl).
  exists text, (decoded_value <$> list_to_map data).
  split; [exact E|]. split; [exact (rdump_canonical_no_cr data text Hall E)|].
  split; [exact Hl|]. split; [reflexivity|].
  assert (Hlook : forall key v,
             (key, v) ∈ data ->
             (decoded_value <$> (list_to_map data : gmap string pyval))
               !! key = Some (decoded_value v)).
  { intros key v Hin. rewrite lookup_fmap.
    rewrite (elem_of_list_to_map_1 data key v Hnd Hin). reflexivity. }
  repeat split.
  - intros key x Hin. apply (Hlook _ _ Hin).
  - intros key a Hin Hsize. rewrite (Hlook _ _ Hin).
    unfold decoded_value. cbn [scalar_form].
    rewrite (proj2 (Nat.ltb_lt _ _) Hsize). reflexivity.
  - intros key a x Hin Hd. rewrite (Hlook _ _ Hin).
    rewrite Forall_forall in Hok. destruct (Hok _ Hin) as [_ (Hwf & _)].
    unfold wf_ndarray in Hwf. rewrite Hd in Hwf. simpl in Hwf.
    unfold decoded_value. cbn [scalar_form]. rewrite <- Hwf, Hd.
    reflexivity.
  - intros key l Hin. apply (Hlook _ _ Hin).
Qed.

Lemma rdump_rload_finite_floats_witness :
  exists (text : string) (d : gmap string pyval),
    rdump [("N", PNum (NInt 5));
           ("sigma", PNum (NFloat (FFin false 25 (-1))));
           ("x", PArr {| shape := [1; 1]; data := [NInt 5] |});
           ("w", PList [NInt 1; NFloat (FFin true 15 (-1))])] = Ok text /\
    rload text = Ok (Some d) /\
    d !! "x" = Some (PNum (NInt 5)).
Proof.
  set (data := [("N", PNum (NInt 5));
                ("sigma", PNum (NFloat (FFin false 25 (-1))));
                ("x", PArr {| shape := [1; 1]; data := [NInt 5] |});
                ("w", PList [NInt 1; NFloat (FFin true 15 (-1))])]).
  assert (H1 : data <> []) by discriminate.
  assert (H2 : NoDup (map fst data)).
  { apply (bool_decide_unpack _). vm_compute. exact I. }
  assert (H3 : Forall (fun item => plain_key item.1 = true /\
                                   no_cr item.1 = true /\
                                   value_canonical item.2) data).
  { repeat constructor; vm_compute; repeat constructor. }
  destruct (rdump_rload_finite_floats data H1 H2 H3)
    as (text & d & E1 & _ & E2 & _ & _ & _ & Hx & _).
  exists text, d. split; [exact E1|]. split; [exact E2|].
  apply (Hx "x" {| shape := [1; 1]; data := [NInt 5] |} (NInt 5));
    [|reflexivity].
  unfold data. do 2 apply list_elem_of_further. apply list_elem_of_here.
Defined.

End RoundTripMore.

(** ** The metric file *)

Module MetricFacts.
Import PyStr PyNum Numpy Rdump CodecSpec RoundTripSpec Metric.
Import StrFacts RoundTrip RoundTripMore.
Import Newlines.

(** X7. The shape of the metric [rdump] wrote, for a mapping with distinct
    plain keys that hold no carriage return: [read_rdump_metric] gives
    the shape of [inv_metric] when it holds more than one element; an
    [inv_metric] of one element is written as a number, which is not
    taken for a metric. Python reads the lines of the text written as
    [readlines] cuts them. *)
Theorem read_rdump_metric_rdump (path : string)
    (data : list (string * pyval)) (a : ndarray) :
  NoDup (map fst data) ->
  Forall (fun item =>
            plain_key item.1 = true /\ no_cr item.1 = true /\
            value_canonical item.2) data ->
  ("inv_metric", PArr a) ∈ data ->
  exists text,
    rdump data = Ok text /\
    readlines_text_mode text = readlines text /\
    read_rdump_metric path text =
    if 1 <? size a then Ok (shape a)
    else Raise (ValueError (msg_bad_metric path)).
Proof.
  intros Hnd Hall Hin.
  assert (Hok : Forall (fun item => plain_key item.1 = true /\
                                    value_canonical item.2) data).
  { eapply Forall_impl; [exact Hall|]. intros item (Hk & _ & Hv). auto. }
  assert (Hne : data <> []) by (intros ->; apply elem_of_nil in Hin; exact Hin).
  destruct (rload_rdump_canonical data Hne Hnd Hok) as (text & E & Hl).
  exists text. split; [exact E|].
  split; [exact (rdump_canonical_no_cr data text Hall E)|].
  unfold read_rdump_metric. rewrite Hl. cbn [bind].
  rewrite lookup_fmap, (elem_of_list_to_map_1 data _ _ Hnd Hin).
  cbn [fmap option_fmap option_map]. unfold decoded_value.
  cbn [scalar_form]. destruct (1 <? size a) eqn:Es; [reflexivity|].
  rewrite Forall_forall in Hok. destruct (Hok _ Hin) as [_ (Hwf & Hs & _)].
  unfold wf_ndarray in Hwf. simpl in Hwf, Hs.
  destruct (Numpy.data a) as [|x xs]; [simpl in Hwf; lia|]. reflexivity.
Qed.

Lemma read_rdump_metric_rdump_witness :
  exists text,
    rdump [("inv_metric",
            PArr {| shape := [2; 2];
                    data := [NInt 1; NInt 0; NInt 0; NInt 1] |})] = Ok text /\
    read_rdump_metric "metric.R" text = Ok [2; 2].
Proof.
  set (data := [("inv_metric",
                 PArr {| shape := [2; 2];
                         data := [NInt 1; NInt 0; NInt 0; NInt 1] |})]).
  assert (H2 : NoDup (map fst data)).
  { apply (bool_decide_unpack _). vm_compute. exact I. }
  assert (H3 : Forall (fun item => plain_key item.1 = true /\
                                   no_cr item.1 = true /\
                                   value_canonical item.2) data).
  { repeat constructor; vm_compute; repeat constructor. }
  destruct (read_rdump_metric_rdump "metric.R" data
              {| shape := [2; 2];
                 data := [NInt 1; NInt 0; NInt 0; NInt 1] |} H2 H3)
    as (text & E & _ & R); [apply list_elem_of_here|].
  exists text. split; [exact E|exact R].
Defined.

(** X8. A metric file without a statement is not reported as a bad metric
    file: [rload] gives [None], and the test for the entry raises
    [TypeError]. *)
Theorem read_rdump_metric_no_statement (path text : string) :
  contains "<-" text = false ->
  exists msg, read_rdump_metric path text = Raise (TypeError msg).
Proof.
  intros H. eexists. unfold read_rdump_metric, rload.
  rewrite RloadNone.next_marker_none.
  - simpl. rewrite Nat.eqb_refl. reflexivity.
  - apply readlines_go_not_contains. exact H.
Qed.

Lemma read_rdump_metric_no_statement_witness :
  exists msg, read_rdump_metric "metric.R" "" = Raise (TypeError msg).
Proof. apply read_rdump_metric_no_statement. reflexivity. Defined.

End MetricFacts.

(** ** The decoder on [structure(...)], the array encoder on any shape *)

Module StructureFacts.
Import PyStr PyNum Numpy Rdump CodecSpec RoundTripSpec.
Import StrFacts TextFacts MarkerFacts NumFacts NumpyFacts PieceFacts LineFacts.
Import CanonicalFacts.

Lemma values_no_rparen (l : list num) :
  forallb num_ok l = true ->
  all_chars (fun c => negb (Ascii.eqb c ")")) (join ", " (map str_num l))
  = true.
Proof.
  intros Hok. apply all_chars_join; [reflexivity|].
  apply (strs_chars _ l); [|exact Hok].
  intros c Hc. apply num_char_not in Hc as (_ & _ & _ & -> & _).
  reflexivity.
Qed.

Lemma dims_no_rparen (shp : list nat) :
  all_chars (fun c => negb (Ascii.eqb c ")")) (join ", " (map str_nat shp))
  = true.
Proof.
  apply all_chars_join; [reflexivity|].
  rewrite map_fmap. apply Forall_fmap, Forall_forall.
  intros n _. simpl.
  apply (all_chars_impl num_char); [|apply str_nat_chars].
  intros c Hc. apply num_char_not in Hc as (_ & _ & _ & -> & _).
  reflexivity.
Qed.

Lemma match_structure_no_dims (vals : string) :
  all_chars (fun c => negb (Ascii.eqb c ")")) vals = true ->
  match_structure ("structure(c(" +:+ vals +:+ "))") = Some (vals, None).
Proof.
  intros Hv. unfold match_structure, dim_group.
  rewrite !app_String, !app_nil_l.
  repeat first
    [ rewrite expect_String
    | rewrite expect_nil
    | progress cbn [mbind option_bind]
    | rewrite (span_not_rparen_app _ _ Hv)
    | rewrite skip_space_String;
      match goal with
      | |- context [isspace ?c] =>
          let b := eval vm_compute in (isspace c) in
          change (isspace c) with b
      end; cbv iota ].
  reflexivity.
Qed.

(** X9. A [structure] without dimensions is a vector of its values. *)
Theorem parse_structure_without_dims (x : num) (l : list num) :
  forallb num_canonical (x :: l) = true ->
  parse_rdump_value
    ("structure(c(" +:+ join ", " (map str_num (x :: l)) +:+ "))")
  = Ok (PArr (array1 (as_floats (x :: l)))).
Proof.
  intros Hc. pose proof (forallb_canonical_ok _ Hc) as Hok.
  unfold parse_rdump_value.
  assert (Hs : startswith "structure"
                 ("structure(c(" +:+ join ", " (map str_num (x :: l)) +:+ "))")
               = true) by (apply prefix_app_l; reflexivity).
  rewrite Hs. cbv iota.
  rewrite match_structure_no_dims by (apply values_no_rparen, Hok).
  rewrite (read_values _ _ Hok). cbn [bind catch_TypeError].
  unfold as_floats. rewrite map_map. reflexivity.
Qed.

Lemma parse_structure_without_dims_witness :
  parse_rdump_value "structure(c(1, 2.5))" =
  Ok (PArr {| shape := [2];
              data := [NFloat (FFin false 1 0); NFloat (FFin false 25 (-1))] |}).
Proof.
  exact (parse_structure_without_dims
           (NInt 1) [NFloat (FFin false 25 (-1))] eq_refl).
Defined.

Lemma resolve_dims_mismatch (shp : list nat) (n : nat) :
  prod shp <> n ->
  resolve_dims (map Z.of_nat shp) n = Raise (ValueError "cannot reshape array").
Proof.
  intros Hne. unfold resolve_dims.
  assert (H1 : existsb (fun d => (d <? -1)%Z) (map Z.of_nat shp) = false).
  { clear. induction shp as [|d shp IH]; [reflexivity|]. simpl. rewrite IH.
    rewrite orb_false_r. apply Z.ltb_ge. lia. }
  assert (H2 : filter (fun d => d = (-1)%Z) (map Z.of_nat shp) = []).
  { clear. induction shp as [|d shp IH]; [reflexivity|]. simpl.
    rewrite filter_cons_False by lia. exact IH. }
  assert (H3 : map Z.to_nat (map Z.of_nat shp) = shp).
  { clear. rewrite map_map. induction shp as [|d shp IH]; [reflexivity|].
    simpl. rewrite Nat2Z.id, IH. reflexivity. }
  rewrite H1, H2, H3. simpl.
  rewrite (proj2 (Nat.eqb_neq _ _) Hne). reflexivity.
Qed.

Lemma parse_structure_dims (x : num) (l : list num) (d : nat) (ds : list nat) :
  forallb num_ok (x :: l) = true ->
  parse_rdump_value
    ("structure(c(" +:+ join ", " (map str_num (x :: l)) +:+
     "), .Dim = c(" +:+ join ", " (map str_nat (d :: ds)) +:+ "))")
  = catch_TypeError
      ("structure(c(" +:+ join ", " (map str_num (x :: l)) +:+
       "), .Dim = c(" +:+ join ", " (map str_nat (d :: ds)) +:+ "))")
      (do val <- reshape_F (as_floats (x :: l)) (map Z.of_nat (d :: ds));
       Ok (PArr val)).
Proof.
  intros Hok. unfold parse_rdump_value.
  set (vals := join ", " (map str_num (x :: l))).
  set (dims := join ", " (map str_nat (d :: ds))).
  assert (Hs : startswith "structure"
                 ("structure(c(" +:+ vals +:+ "), .Dim = c(" +:+ dims +:+ "))")
               = true) by (apply prefix_app_l; reflexivity).
  rewrite Hs. cbv iota.
  rewrite match_structure_encoded;
    [|apply values_no_rparen, Hok|apply dims_no_rparen].
  subst vals dims. rewrite (read_values _ _ Hok). cbn [bind].
  rewrite read_dims. cbn [bind]. unfold as_floats. rewrite map_map.
  reflexivity.
Qed.

(** X10. Dimensions that do not hold the values are an error: their product
    must be the number of values. *)
Theorem parse_structure_wrong_dims (x : num) (l : list num)
    (d : nat) (ds : list nat) :
  forallb num_canonical (x :: l) = true ->
  prod (d :: ds) <> length (x :: l) ->
  exists msg,
    parse_rdump_value
      ("structure(c(" +:+ join ", " (map str_num (x :: l)) +:+
       "), .Dim = c(" +:+ join ", " (map str_nat (d :: ds)) +:+ "))")
    = Raise (ValueError msg).
Proof.
  intros Hc Hne. eexists. rewrite parse_structure_dims by apply forallb_canonical_ok, Hc.
  unfold reshape_F, as_floats. rewrite length_map.
  rewrite resolve_dims_mismatch by exact Hne. reflexivity.
Qed.

Lemma parse_structure_wrong_dims_witness :
  exists msg,
    parse_rdump_value "structure(c(1, 2, 3), .Dim = c(2, 2))" =
    Raise (ValueError msg).
Proof.
  apply (parse_structure_wrong_dims (NInt 1) [NInt 2; NInt 3] 2 [2]).
  - reflexivity.
  - simpl. lia.
Defined.

(** *** Row-major and column-major positions *)

Lemma ravel_C_lt (shp idx : list nat) :
  valid_index shp idx -> ravel_C shp idx < prod shp.
Proof.
  unfold valid_index. intros H. induction H as [|i d idx shp Hi _ IH].
  - simpl. lia.
  - cbn [ravel_C]. rewrite prod_cons. nia.
Qed.

Lemma unravel_C_ravel_C (shp idx : list nat) :
  valid_index shp idx -> unravel_C shp (ravel_C shp idx) = idx.
Proof.
  unfold valid_index. intros H. induction H as [|i d idx shp Hi Hv IH].
  - reflexivity.
  - cbn [ravel_C unravel_C].
    pose proof (ravel_C_lt shp idx Hv) as Hlt.
    rewrite Nat.div_add_l by lia. rewrite Nat.div_small by exact Hlt.
    rewrite Nat.add_0_r. f_equal.
    rewrite Nat.add_comm, Nat.Div0.mod_add, Nat.mod_small by exact Hlt.
    exact IH.
Qed.

(** X11. The values of a [structure] fill the array in column-major order:
    the element at a multi-index is the value at the column-major
    position of that index, as a float. *)
Theorem parse_structure_column_major (x : num) (l : list num)
    (d : nat) (ds : list nat) :
  forallb num_canonical (x :: l) = true ->
  prod (d :: ds) = length (x :: l) ->
  exists a,
    parse_rdump_value
      ("structure(c(" +:+ join ", " (map str_num (x :: l)) +:+
       "), .Dim = c(" +:+ join ", " (map str_nat (d :: ds)) +:+ "))")
    = Ok (PArr a) /\
    shape a = d :: ds /\ wf_ndarray a /\
    forall idx,
      valid_index (d :: ds) idx ->
      data a !!! ravel_C (d :: ds) idx =
      NFloat (to_float ((x :: l) !!! ravel_F (d :: ds) idx)).
Proof.
  intros Hc Hlen.
  rewrite parse_structure_dims by apply forallb_canonical_ok, Hc.
  set (shp := d :: ds) in *. unfold reshape_F. unfold as_floats at 1. rewrite length_map, <- Hlen.
  rewrite resolve_dims_shape. cbn [bind].
  eexists. split; [reflexivity|]. cbn [shape data].
  split; [reflexivity|]. split.
  - unfold wf_ndarray, size. cbn [shape data].
    rewrite length_map, length_seq. reflexivity.
  - intros idx Hv. pose proof (ravel_C_lt shp idx Hv) as Hlt.
    pose proof (ravel_F_lt shp idx Hv) as HltF.
    rewrite map_fmap.
    rewrite (list_lookup_total_correct _ _
               (as_floats (x :: l) !!! ravel_F shp idx)).
    + unfold as_floats. rewrite map_fmap.
      apply list_lookup_total_correct.
      rewrite list_lookup_fmap.
      rewrite (list_lookup_lookup_total_lt (x :: l) (ravel_F shp idx))
        by (rewrite <- Hlen; exact HltF).
      reflexivity.
    + rewrite list_lookup_fmap, lookup_seq_lt by exact Hlt.
      cbn [fmap option_fmap option_map Nat.add].
      rewrite unravel_C_ravel_C by exact Hv. reflexivity.
Qed.

Lemma parse_structure_column_major_witness :
  exists a,
    parse_rdump_value "structure(c(1, 2, 3, 4, 5, 6), .Dim = c(2, 3))"
    = Ok (PArr a) /\
    shape a = [2; 3] /\
    data a !!! ravel_C [2; 3] [1; 0] = NFloat (FFin false 2 0).
Proof.
  destruct (parse_structure_column_major
              (NInt 1) [NInt 2; NInt 3; NInt 4; NInt 5; NInt 6] 2 [3]
              eq_refl eq_refl) as (a & E & Hs & _ & H).
  exists a. split; [exact E|]. split; [exact Hs|].
  apply (H [1; 0]). repeat constructor.
Defined.

End StructureFacts.

(** ** The array encoder on its own, and an empty array *)

Module ArrayEncoder.
Import PyStr PyNum Numpy Rdump CodecSpec RoundTripSpec.
Import StrFacts TextFacts MarkerFacts NumFacts NumpyFacts PieceFacts LineFacts.
Import CanonicalFacts.

(** X12. The array encoder and the decoder are inverse on every array with
    at least one element and at least one dimension, arrays of a single
    element included: the shape of such an array is lost by the guard
    of [rdump], not by [_rdump_array]. *)
Theorem rdump_array_any_shape (key : string) (a : ndarray) :
  wf_ndarray a -> 0 < size a -> shape a <> [] ->
  forallb num_canonical (data a) = true ->
  exists rhs,
    _rdump_array key a = key +:+ " <- " +:+ rhs /\
    parse_rdump_value rhs =
    Ok (PArr {| shape := shape a; data := as_floats (data a) |}).
Proof.
  intros Hwf Hsize Hshape Hc.
  pose proof (forallb_canonical_ok _ Hc) as Hok.
  pose proof (T_flat_ok a Hok) as Hfl.
  pose proof (length_T_flat a) as Hlen.
  unfold _rdump_array.
  destruct (T_flat a) as [|x l] eqn:Et; [simpl in Hlen; lia|].
  destruct (decide ([size a] = shape a)) as [Hs|Hs].
  - eexists. split; [reflexivity|].
    rewrite (parse_vector _ _ Hfl).
    rewrite <- Et, (T_flat_vector a (size a)) by (auto using eq_sym).
    unfold array1, as_floats. rewrite length_map, Hwf, Hs. reflexivity.
  - destruct (shape a) as [|d0 [|d1 ds]] eqn:Esh.
    + congruence.
    + exfalso. apply Hs. unfold size. rewrite Esh. simpl.
      rewrite Nat.mul_1_r. reflexivity.
    + exists ("structure(" +:+
              ("c(" +:+ join ", " (map str_num (x :: l)) +:+ ")") +:+
              ", " +:+ (".Dim = c" +:+ str_tuple (d0 :: d1 :: ds)) +:+ ")").
      split; [reflexivity|].
      rewrite (parse_structure _ _ _ _ _ Hfl)
        by (rewrite Hlen; unfold size; rewrite Esh; reflexivity).
      rewrite <- Et, <- Esh. unfold as_floats.
      rewrite (reshape_T_flat a (fun x => NFloat (to_float x)) Hwf).
      reflexivity.
Qed.

Lemma rdump_array_any_shape_witness :
  exists rhs,
    _rdump_array "x" {| shape := [1; 1]; data := [NInt 5] |}
    = "x" +:+ " <- " +:+ rhs /\
    parse_rdump_value rhs =
    Ok (PArr {| shape := [1; 1]; data := [NFloat (FFin false 5 0)] |}).
Proof.
  apply (rdump_array_any_shape "x" {| shape := [1; 1]; data := [NInt 5] |});
    try reflexivity.
  - unfold size. simpl. lia.
  - discriminate.
Defined.

(** X13. An array without elements cannot be written: [val.flat[0]] raises
    [IndexError], after the items before it have been written. *)
Theorem rdump_empty_array (data1 data2 : list (string * pyval))
    (key : string) (a : ndarray) (t1 : string) :
  rdump data1 = Ok t1 ->
  wf_ndarray a -> size a = 0 ->
  exists msg,
    rdump (data1 ++ (key, PArr a) :: data2) = Raise (IndexError msg).
Proof.
  intros H1 Hwf Hs. eexists. rewrite Brackets.rdump_app, H1. cbn [bind rdump].
  unfold rdump_line. rewrite Hs. cbn [Nat.ltb Nat.leb].
  unfold wf_ndarray in Hwf. rewrite Hs in Hwf.
  destruct (data a); [reflexivity|discriminate Hwf].
Qed.

Lemma rdump_empty_array_witness :
  exists msg,
    rdump ([("N", PNum (NInt 0))] ++
           ("y", PArr {| shape := [0]; data := [] |}) :: [])
    = Raise (IndexError msg).
Proof.
  apply (rdump_empty_array [("N", PNum (NInt 0))] [] "y"
           {| shape := [0]; data := [] |} ("N <- 0" +:+ String nl ""));
    reflexivity.
Defined.

End ArrayEncoder.

(** ** The scanner: warmup rows, and what a scan leaves in the dictionary *)

Module ScanMore.
Import PyStr PyNum StanCsv ScanSpec ScanFacts ScanConfig ScanDraws ScanMetric.
Import ScanCsv.

Lemma section_lines_drop (comment : bool) (rest : list string) :
  section_lines comment (drop (length (section_lines comment rest)) rest) = [].
Proof.
  induction rest as [|l rest IH]; [reflexivity|].
  cbn [section_lines].
  destruct ((0 <? String.length (strip l)) &&
            Bool.eqb (startswith "#" (strip l)) comment) eqn:E.
  - cbn [length drop]. exact IH.
  - cbn [length drop section_lines]. rewrite E. reflexivity.
Qed.

(** X14. The warmup scan does nothing unless [save_warmup] is recorded,
    whatever its value; when it is, the scan passes the rows up to the
    next blank line or comment without looking at their fields, counts
    them in [lineno], leaves the dictionary as it is and stops before a
    line that is not a row. *)
Theorem scan_warmup_rows (fp : file) (config_dict : gmap string pyobj)
    (lineno : nat) :
  (config_dict !! "save_warmup" = None ->
   scan_warmup fp config_dict lineno = (fp, config_dict, lineno)) /\
  (is_Some (config_dict !! "save_warmup") ->
   scan_warmup fp config_dict lineno =
   (seek fp (f_pos fp + length (section_at false fp)), config_dict,
    lineno + length (section_at false fp)) /\
   section_at false (seek fp (f_pos fp + length (section_at false fp))) = []).
Proof.
  unfold scan_warmup. split.
  - intros ->. reflexivity.
  - intros [v ->]. unfold tell, section_at. rewrite scan_warmup_loop_spec.
    split; [reflexivity|].
    cbn [f_lines f_pos seek]. rewrite <- drop_drop.
    apply section_lines_drop.
Qed.

Lemma scan_warmup_rows_witness :
  let fp := open (Examples.unlines ["1,2"; "3,4,5"; "# Adaptation terminated"]) in
  let d : gmap string pyobj := {[ "save_warmup" := VStr "1" ]} in
  is_Some (d !! "save_warmup") /\
  scan_warmup fp d 7 = (seek fp 2, d, 9).
Proof.
  intros fp d.
  assert (H : is_Some (d !! "save_warmup")) by (eexists; reflexivity).
  split; [exact H|].
  exact (proj1 (proj2 (scan_warmup_rows fp d 7) H)).
Defined.

(** *** The draws a scan records *)

Lemma mapR_length {A B : Type} (f : A -> result B) (l : list A) (r : list B) :
  mapR f l = Ok r -> length r = length l.
Proof.
  revert r. induction l as [|x l IH]; intros r; simpl.
  - intros H. injection H as <-. reflexivity.
  - destruct (f x) as [y|e]; [|discriminate]. simpl.
    destruct (mapR f l) as [ys|e]; [|discriminate]. simpl.
    intros H. injection H as <-. simpl. rewrite (IH ys); reflexivity.
Qed.

Lemma scan_draws_loop_first_draw (num_cols : nat) (rest : list string) :
  forall (cur_pos lineno draws_found : nat) (first_draw : option (list pyfloat))
         (cur_pos' lineno' draws_found' : nat)
         (first_draw' : option (list pyfloat)),
    scan_draws_loop num_cols rest cur_pos lineno draws_found first_draw =
    Ok (cur_pos', lineno', draws_found', first_draw') ->
    draws_found <= draws_found' /\
    match first_draw with
    | Some a => first_draw' = Some a
    | None =>
        (draws_found' = draws_found /\ first_draw' = None) \/
        (draws_found < draws_found' /\
         exists a, first_draw' = Some a /\ length a = num_cols)
    end.
Proof.
  induction rest as [|l rest IH]; intros cp ln df fd cp' ln' df' fd';
    cbn [scan_draws_loop].
  - intros H. injection H as _ _ <- <-. split; [lia|].
    destruct fd; [reflexivity|left; auto].
  - destruct ((0 <? String.length (strip l)) &&
              negb (startswith "#" (strip l))).
    2:{ intros H. injection H as _ _ <- <-. split; [lia|].
        destruct fd; [reflexivity|left; auto]. }
    destruct (negb (length (split "," (strip l)) =? num_cols)) eqn:El;
      [discriminate|].
    apply negb_false_iff, Nat.eqb_eq in El.
    destruct fd as [a|].
    + cbn [bind]. intros H. apply IH in H as [H1 H2]. split; [lia|exact H2].
    + destruct (mapR py_float (split "," (strip l))) as [a|e] eqn:Ea;
        [|discriminate].
      cbn [bind]. intros H. apply IH in H as [H1 H2]. split; [lia|].
      right. split; [lia|]. exists a. split; [exact H2|].
      rewrite (mapR_length _ _ _ Ea). exact El.
Qed.

Lemma before_draws_columns (text : string) (is_sampling : bool)
    (fp : file) (d : gmap string pyobj) (lineno : nat) :
  before_draws text is_sampling = Ok (fp, d, lineno) ->
  exists names, d !! "column_names" = Some (VTuple names).
Proof.
  unfold before_draws. intros H.
  destruct (before_metric_columns text) as (names & Hc & _).
  destruct (before_metric text) as [[fp0 d0] n0]. simpl in Hc.
  exists names. destruct is_sampling.
  - apply scan_metric_num_params in H as [_ H]. rewrite H. exact Hc.
  - injection H as _ <- _. exact Hc.
Qed.

Lemma scan_stan_csv_draws_count (text : string) (is_sampling : bool)
    (meta : gmap string pyobj) :
  scan_stan_csv text is_sampling = Ok meta ->
  exists n : nat, meta !! "draws" = Some (VInt (Z.of_nat n)).
Proof.
  rewrite scan_stan_csv_unfold. intros H.
  destruct (before_draws text is_sampling) as [[[fp d] lineno]|e] eqn:Eb;
    [|discriminate H].
  cbn [bind] in H.
  destruct (before_draws_columns _ _ _ _ _ Eb) as (names & Hc).
  rewrite (scan_draws_unfold _ _ _ _ Hc) in H.
  destruct (scan_draws_loop _ _ _ _ _ _) as [[[[cp ln] df] fd]|e];
    [|discriminate H].
  cbn [bind] in H. injection H as <-. exists df.
  rewrite lookup_insert_ne by discriminate. apply lookup_insert_eq.
Qed.

(** X15. What every successful scan records about the draws: their number,
    and the first draw, which is [None] exactly when there is no draw
    and otherwise holds one float for each column name. *)
Theorem scan_stan_csv_draws (text : string) (is_sampling : bool)
    (meta : gmap string pyobj) :
  scan_stan_csv text is_sampling = Ok meta ->
  exists (names : list string) (n : nat),
    meta !! "column_names" = Some (VTuple names) /\
    meta !! "draws" = Some (VInt (Z.of_nat n)) /\
    ((n = 0 /\ meta !! "first_draw" = Some VNone) \/
     (0 < n /\
      exists a, meta !! "first_draw" = Some (VArray a) /\
                length a = length names)).
Proof.
  rewrite scan_stan_csv_unfold. intros H.
  destruct (before_draws text is_sampling) as [[[fp d] lineno]|e] eqn:Eb;
    [|discriminate H].
  cbn [bind] in H.
  destruct (before_draws_columns _ _ _ _ _ Eb) as (names & Hc).
  rewrite (scan_draws_unfold _ _ _ _ Hc) in H.
  destruct (scan_draws_loop _ _ _ _ _ _) as [[[[cp ln] df] fd]|e] eqn:El;
    [|discriminate H].
  cbn [bind] in H. injection H as <-.
  apply scan_draws_loop_first_draw in El as [_ Hfd].
  exists names, df.
  split; [rewrite !lookup_insert_ne by discriminate; exact Hc|].
  split; [rewrite lookup_insert_ne by discriminate; apply lookup_insert_eq|].
  rewrite lookup_insert_eq.
  destruct Hfd as [[-> ->]|(Hlt & a & -> & Ha)].
  - left. auto.
  - right. split; [lia|]. exists a. auto.
Qed.

Lemma small_csv_scans :
  exists meta, scan_stan_csv MoreExamples.small_csv false = Ok meta.
Proof. eexists. reflexivity. Qed.

Lemma scan_stan_csv_draws_witness :
  exists (meta : gmap string pyobj) (names : list string) (n : nat),
    scan_stan_csv MoreExamples.small_csv false = Ok meta /\
    meta !! "column_names" = Some (VTuple names) /\
    meta !! "draws" = Some (VInt (Z.of_nat n)).
Proof.
  destruct small_csv_scans as [meta H].
  destruct (scan_stan_csv_draws _ _ _ H) as (names & n & H1 & H2 & _).
  exists meta, names, n. auto.
Defined.

End ScanMore.

(** ** The validator on what a scan recorded *)

Module CheckCsvMore.
Import PyStr PyNum StanCsv ScanSpec ScanFacts ScanConfig ScanDraws ScanMetric.
Import ScanCsv ScanMore.

(** *** What each step leaves alone *)

Lemma scan_config_line_text (line : string) (d : gmap string pyobj) :
  (forall k v, d !! k = Some v -> exists s, v = VStr s) ->
  forall k v, scan_config_line line d !! k = Some v -> exists s, v = VStr s.
Proof.
  intros Hd k v. unfold scan_config_line.
  destruct (negb (endswith "(Default)" line)); [|apply Hd].
  destruct (split "=" (lstrip comment_chars line)) as [|a [|b [|c t]]];
    try apply Hd.
  destruct (String.eqb (strip a) "file" && negb (endswith "csv" b)).
  - destruct (decide (k = "data_file")) as [->|Hk].
    + rewrite lookup_insert_eq. intros H. injection H as <-. eauto.
    + rewrite lookup_insert_ne by congruence. apply Hd.
  - destruct (negb (String.eqb (strip a) "file")); [|apply Hd].
    destruct (decide (k = strip a)) as [->|Hk].
    + rewrite lookup_insert_eq. intros H. injection H as <-. eauto.
    + rewrite lookup_insert_ne by congruence. apply Hd.
Qed.

Lemma scan_config_lines_text (lines : list string) (d : gmap string pyobj) :
  (forall k v, d !! k = Some v -> exists s, v = VStr s) ->
  forall k v,
    foldl (fun d line => scan_config_line line d) d lines !! k = Some v ->
    exists s, v = VStr s.
Proof.
  revert d. induction lines as [|line lines IH]; intros d Hd; [exact Hd|].
  cbn [foldl]. apply IH, scan_config_line_text, Hd.
Qed.

Lemma scan_metric_keeps (fp fp' : file) (d d' : gmap string pyobj)
    (lineno lineno' : nat) (k : string) :
  scan_metric fp d lineno = Ok (fp', d', lineno') ->
  k <> "num_params" -> k <> "metric" -> d' !! k = d !! k.
Proof.
  intros H Hk1 Hk2. revert H. rewrite scan_metric_unfold. cbv zeta.
  set (d0 := match d !! "metric" with
             | Some _ => d
             | None => <["metric" := VStr "diag_e"]> d
             end).
  assert (Hd0 : d0 !! k = d !! k).
  { subst d0. destruct (d !! "metric"); [reflexivity|].
    apply lookup_insert_ne. congruence. }
  destruct (negb _); [discriminate|].
  destruct (split "=" (strip (line_at fp 1))) as [|label [|stepsize [|x t]]];
    try discriminate.
  destruct (negb _); [discriminate|].
  destruct (float_of_string _); [|discriminate].
  destruct (negb _); [discriminate|].
  destruct (eq_str _ "diag_e").
  - intros H. injection H as _ <- _.
    rewrite lookup_insert_ne by congruence. exact Hd0.
  - destruct (scan_metric_rows _ _ _ _) as [[fp4 n4]|e]; [|discriminate].
    simpl. intros H. injection H as _ <- _.
    rewrite lookup_insert_ne by congruence. exact Hd0.
Qed.

Lemma scan_draws_keeps_key (fp fp' : file) (d d' : gmap string pyobj)
    (lineno lineno' : nat) (k : string) :
  scan_draws fp d lineno = Ok (fp', d', lineno') ->
  k <> "draws" -> k <> "first_draw" -> d' !! k = d !! k.
Proof.
  unfold scan_draws. intros H Hk1 Hk2. revert H.
  destruct (getitem d "column_names") as [names|e]; [|discriminate]. simpl.
  destruct (py_len names) as [num_cols|e]; [|discriminate]. simpl.
  destruct (scan_draws_loop _ _ _ _ _ _) as [[[[p n] j] fd]|e];
    [|discriminate].
  simpl. intros H. injection H as _ <- _.
  rewrite !lookup_insert_ne by congruence. reflexivity.
Qed.

Lemma before_metric_keeps (text : string) (k : string) :
  k <> "column_names" -> k <> "num_params" ->
  (before_metric text).1.2 !! k =
  foldl (fun d line => scan_config_line line d) ∅
        (section_at true (open text)) !! k.
Proof.
  intros Hk1 Hk2. unfold before_metric. rewrite scan_config_spec.
  unfold scan_column_names.
  destruct (readline _) as [line fp2].
  unfold scan_warmup.
  destruct (_ !! "save_warmup");
    [destruct (scan_warmup_loop _ _ _)|]; simpl;
    rewrite !lookup_insert_ne by congruence; reflexivity.
Qed.

(** The keys the scan itself writes. *)
Lemma scan_stan_csv_keeps (text : string) (is_sampling : bool)
    (meta : gmap string pyobj) (k : string) :
  scan_stan_csv text is_sampling = Ok meta ->
  k ∉ ["column_names"; "num_params"; "metric"; "draws"; "first_draw"] ->
  meta !! k =
  foldl (fun d line => scan_config_line line d) ∅
        (section_at true (open text)) !! k.
Proof.
  rewrite scan_stan_csv_unfold. unfold before_draws. intros H Hk.
  assert (Hk' : k <> "column_names" /\ k <> "num_params" /\ k <> "metric" /\
                k <> "draws" /\ k <> "first_draw").
  { rewrite !not_elem_of_cons in Hk. tauto. }
  destruct Hk' as (K1 & K2 & K3 & K4 & K5).
  pose proof (before_metric_keeps text k K1 K2) as Hb.
  destruct (before_metric text) as [[fp d] n]. simpl in Hb.
  destruct is_sampling.
  - destruct (scan_metric fp d n) as [[[fp1 d1] n1]|e] eqn:Em;
      [|discriminate H].
    simpl in H.
    destruct (scan_draws fp1 d1 n1) as [[[fp2 d2] n2]|e] eqn:Ed;
      [|discriminate H].
    simpl in H. injection H as <-.
    rewrite (scan_draws_keeps_key _ _ _ _ _ _ _ Ed K4 K5).
    rewrite (scan_metric_keeps _ _ _ _ _ _ _ Em K2 K3). exact Hb.
  - simpl in H.
    destruct (scan_draws fp d n) as [[[fp2 d2] n2]|e] eqn:Ed;
      [|discriminate H].
    simpl in H. injection H as <-.
    rewrite (scan_draws_keeps_key _ _ _ _ _ _ _ Ed K4 K5). exact Hb.
Qed.

(** X16. Every entry of the configuration comes out of a scan as the config
    scan recorded it, and it is recorded as text: no value of the header
    is converted to a number. *)
Theorem scan_stan_csv_config_is_text (text : string) (is_sampling : bool)
    (meta : gmap string pyobj) (key : string) :
  scan_stan_csv text is_sampling = Ok meta ->
  key ∉ ["column_names"; "num_params"; "metric"; "draws"; "first_draw"] ->
  meta !! key =
    foldl (fun d line => scan_config_line line d) ∅
          (section_at true (open text)) !! key /\
  (forall v, meta !! key = Some v -> exists s, v = VStr s).
Proof.
  intros H Hk. pose proof (scan_stan_csv_keeps _ _ _ _ H Hk) as E.
  split; [exact E|]. rewrite E. intros v Hv.
  eapply scan_config_lines_text; [|exact Hv].
  intros k' v' H'. rewrite lookup_empty in H'. discriminate H'.
Qed.

Lemma scan_stan_csv_config_is_text_witness :
  exists meta : gmap string pyobj,
    scan_stan_csv MoreExamples.small_csv false = Ok meta /\
    meta !! "num_samples" = Some (VStr "2").
Proof.
  destruct small_csv_scans as [meta H]. exists meta. split; [exact H|].
  assert (Hk : "num_samples" ∉ ["column_names"; "num_params"; "metric";
                                  "draws"; "first_draw"]).
  { rewrite !not_elem_of_cons. repeat split; try discriminate.
    apply not_elem_of_nil. }
  rewrite (proj1 (scan_stan_csv_config_is_text _ _ _ "num_samples" H Hk)).
  vm_compute. reflexivity.
Defined.

(** *** The validator *)

(** X17. For an optimizing run the validator asks for exactly one draw,
    whatever the header records. *)
Theorem check_csv_optimizing (path text : string) (is_sampling : bool)
    (meta : gmap string pyobj) :
  scan_stan_csv text is_sampling = Ok meta ->
  exists n : nat,
    meta !! "draws" = Some (VInt (Z.of_nat n)) /\
    check_csv path text true is_sampling =
    if n =? 1 then Ok meta
    else Raise (ValueError (msg_bad_csv path 1 (VInt (Z.of_nat n)))).
Proof.
  intros H. destruct (scan_stan_csv_draws_count _ _ _ H) as (n & Hd).
  exists n. split; [exact Hd|].
  unfold check_csv. rewrite H. cbn [bind]. unfold getitem. rewrite Hd.
  cbn [bind ne_int].
  destruct (n =? 1) eqn:E.
  - apply Nat.eqb_eq in E. subst n. reflexivity.
  - apply Nat.eqb_neq in E.
    rewrite (proj2 (Z.eqb_neq (Z.of_nat n) 1)) by lia. reflexivity.
Qed.

Lemma check_csv_optimizing_witness :
  exists (meta : gmap string pyobj) (n : nat),
    scan_stan_csv MoreExamples.small_csv false = Ok meta /\
    meta !! "draws" = Some (VInt (Z.of_nat n)) /\
    check_csv "out.csv" MoreExamples.small_csv true false =
    if n =? 1 then Ok meta
    else Raise (ValueError (msg_bad_csv "out.csv" 1 (VInt (Z.of_nat n)))).
Proof.
  destruct small_csv_scans as [meta H]. exists meta.
  destruct (check_csv_optimizing "out.csv" _ _ _ H) as (n & Hn & E).
  exists n. auto.
Defined.

(** X18. A recorded [thin] is never divided by: it is text, and the division
    raises [TypeError] as soon as [num_samples] is read as a number.  No
    file of a run that is not optimizing and records [thin] is accepted. *)
Theorem check_csv_thin_is_text (path text : string) (is_sampling : bool)
    (meta : gmap string pyobj) :
  scan_stan_csv text is_sampling = Ok meta ->
  is_Some (meta !! "thin") ->
  raises (check_csv path text false is_sampling) /\
  (forall z,
      int_of_obj (default (VInt 1000) (meta !! "num_samples")) = Ok z ->
      check_csv path text false is_sampling =
      Raise (TypeError "unsupported operand type(s) for /: 'int' and 'str'")).
Proof.
  intros H [v Hv].
  assert (Hk : "thin" ∉ ["column_names"; "num_params"; "metric";
                          "draws"; "first_draw"]).
  { rewrite !not_elem_of_cons. repeat split; try discriminate.
    apply not_elem_of_nil. }
  assert (Hs : exists s, v = VStr s).
  { pose proof Hv as Hv'. rewrite (scan_stan_csv_keeps _ _ _ _ H Hk) in Hv'.
    eapply scan_config_lines_text; [|exact Hv'].
    intros k' v' H'. rewrite lookup_empty in H'. discriminate H'. }
  destruct Hs as [s ->].
  assert (E : forall z,
             int_of_obj (default (VInt 1000) (meta !! "num_samples")) = Ok z ->
             check_csv path text false is_sampling =
             Raise (TypeError
                      "unsupported operand type(s) for /: 'int' and 'str'")).
  { intros z Hz. unfold check_csv. rewrite H. cbn [bind].
    rewrite Hz, Hv. reflexivity. }
  split; [|exact E].
  destruct (int_of_obj (default (VInt 1000) (meta !! "num_samples")))
    as [z|e] eqn:Ez.
  - eexists. apply (E z). reflexivity.
  - exists e. unfold check_csv. rewrite H. cbn [bind]. rewrite Ez.
    reflexivity.
Qed.

Lemma check_csv_thin_is_text_witness :
  exists meta : gmap string pyobj,
    scan_stan_csv
      (Examples.unlines ["# thin = 1"; "lp__,theta"; "-7.0,0.25"]) false
    = Ok meta /\
    raises (check_csv "out.csv"
              (Examples.unlines ["# thin = 1"; "lp__,theta"; "-7.0,0.25"])
              false false).
Proof.
  assert (H : exists meta,
             scan_stan_csv
               (Examples.unlines ["# thin = 1"; "lp__,theta"; "-7.0,0.25"])
               false = Ok meta).
  { eexists. reflexivity. }
  destruct H as [meta H]. exists meta. split; [exact H|].
  apply (check_csv_thin_is_text "out.csv" _ _ _ H).
  assert (Hk : "thin" ∉ ["column_names"; "num_params"; "metric";
                          "draws"; "first_draw"]).
  { rewrite !not_elem_of_cons. repeat split; try discriminate.
    apply not_elem_of_nil. }
  rewrite (scan_stan_csv_keeps _ _ _ _ H Hk). eexists. vm_compute.
  reflexivity.
Defined.

(** X19. Without a recorded [thin], a run that is not optimizing must hold
    as many draws as [num_samples] says, 1000 when it is not recorded;
    a [num_samples] that is not the text of an integer is an error of
    the conversion. *)
Theorem check_csv_without_thin (path text : string) (is_sampling : bool)
    (meta : gmap string pyobj) :
  scan_stan_csv text is_sampling = Ok meta ->
  meta !! "thin" = None ->
  exists n : nat,
    meta !! "draws" = Some (VInt (Z.of_nat n)) /\
    (meta !! "num_samples" = None ->
     check_csv path text false is_sampling =
     if n =? 1000 then Ok meta
     else Raise (ValueError (msg_bad_csv path 1000 (VInt (Z.of_nat n))))) /\
    (forall s z,
        meta !! "num_samples" = Some (VStr s) -> int_of_string s = Some z ->
        check_csv path text false is_sampling =
        if (Z.of_nat n =? z)%Z then Ok meta
        else Raise (ValueError (msg_bad_csv path z (VInt (Z.of_nat n))))) /\
    (forall s,
        meta !! "num_samples" = Some (VStr s) -> int_of_string s = None ->
        exists msg,
          check_csv path text false is_sampling = Raise (ValueError msg)).
Proof.
  intros H Ht. destruct (scan_stan_csv_draws_count _ _ _ H) as (n & Hd).
  exists n. split; [exact Hd|].
  unfold check_csv. rewrite H. cbn [bind]. rewrite Ht.
  unfold getitem. rewrite Hd. repeat split.
  - intros ->. cbn [default int_of_obj bind ne_int].
    destruct (n =? 1000) eqn:E.
    + apply Nat.eqb_eq in E. subst n. reflexivity.
    + apply Nat.eqb_neq in E.
      rewrite (proj2 (Z.eqb_neq (Z.of_nat n) 1000)) by lia. reflexivity.
  - intros s z -> Hz. cbn [from_option id int_of_obj]. unfold py_int.
    rewrite Hz. cbn [bind ne_int]. destruct (Z.of_nat n =? z)%Z; reflexivity.
  - intros s -> Hz. eexists. cbn [from_option id int_of_obj].
    unfold py_int. rewrite Hz. reflexivity.
Qed.

Lemma check_csv_without_thin_witness :
  exists (meta : gmap string pyobj) (n : nat),
    scan_stan_csv MoreExamples.small_csv false = Ok meta /\
    meta !! "thin" = None /\
    meta !! "draws" = Some (VInt (Z.of_nat n)).
Proof.
  destruct small_csv_scans as [meta H]. exists meta.
  assert (Ht : meta !! "thin" = None).
  { assert (Hk : "thin" ∉ ["column_names"; "num_params"; "metric";
                            "draws"; "first_draw"]).
    { rewrite !not_elem_of_cons. repeat split; try discriminate.
      apply not_elem_of_nil. }
    rewrite (scan_stan_csv_keeps _ _ _ _ H Hk). vm_compute. reflexivity. }
  destruct (check_csv_without_thin "out.csv" _ _ _ H Ht) as (n & Hn & _).
  exists n. auto.
Defined.

End CheckCsvMore.

(** ** The metric scan for a diagonal metric and for other metrics *)

Module ScanMetricMore.
Import PyStr PyNum StanCsv ScanSpec ScanFacts ScanMetric.

(** X20. A recorded metric that is neither [diag_e] nor [dense_e] fails the
    metric scan, whatever the file holds. *)
Theorem scan_metric_other_metric (fp : file) (d : gmap string pyobj)
    (lineno : nat) (v : pyobj) :
  d !! "metric" = Some v ->
  eq_str v "diag_e" = false -> eq_str v "dense_e" = false ->
  raises (scan_metric fp d lineno).
Proof.
  intros Hm H1 H2. rewrite scan_metric_unfold. cbv zeta. rewrite Hm.
  cbv beta iota. rewrite Hm. cbn [from_option id]. rewrite H1, H2.
  cbn [andb orb negb].
  destruct (negb _); [eexists; reflexivity|].
  destruct (split "=" (strip (line_at fp 1))) as [|label [|stepsize [|x t]]];
    try (eexists; reflexivity).
  destruct (negb _); [eexists; reflexivity|].
  destruct (float_of_string _); eexists; reflexivity.
Qed.

Lemma scan_metric_other_metric_witness :
  let fp := open (Examples.unlines
                    ["# Adaptation terminated";
                     "# Step size = 0.9";
                     "# No free parameters for unit metric"]) in
  let d : gmap string pyobj := {[ "metric" := VStr "unit_e" ]} in
  raises (scan_metric fp d 0).
Proof.
  intros fp d.
  apply (scan_metric_other_metric fp d 0 (VStr "unit_e")); reflexivity.
Defined.

(** X21. With no recorded metric, or with [diag_e], the metric section is
    four lines: the end of the adaptation, the step size, the label of
    the diagonal, and one row whose number of fields becomes
    [num_params]; a metric that was not recorded is recorded as
    [diag_e]. *)
Theorem scan_metric_diag_e (fp : file) (d : gmap string pyobj)
    (lineno : nat) (label stepsize : string) :
  d !! "metric" = None \/ d !! "metric" = Some (VStr "diag_e") ->
  strip (line_at fp 0) = "# Adaptation terminated" ->
  split "=" (strip (line_at fp 1)) = [label; stepsize] ->
  startswith "# Step size" label = true ->
  is_Some (float_of_string (strip stepsize)) ->
  scan_metric fp d lineno =
  if String.eqb (strip (line_at fp 2))
       "# Diagonal elements of inverse mass matrix:"
  then
    Ok (seek fp (pos_after fp 4),
        <["num_params" :=
            VInt (Z.of_nat
                    (length (split "," (lstrip comment_chars (line_at fp 3)))))]>
          (<["metric" := VStr "diag_e"]> d),
        lineno + 4)
  else Raise (ValueError (msg_mass_matrix (lineno + 3))).
Proof.
  intros Hm H0 H1 H2 [f H3]. rewrite scan_metric_unfold. cbv zeta.
  assert (E : match d !! "metric" with
              | Some _ => d
              | None => <["metric" := VStr "diag_e"]> d
              end = <["metric" := VStr "diag_e"]> d).
  { destruct Hm as [->| Hm]; [reflexivity|]. rewrite Hm.
    symmetry. apply insert_id, Hm. }
  rewrite E, lookup_insert_eq. cbn [from_option id eq_str].
  rewrite H0, H1, H2, H3. cbn [String.eqb negb andb orb].
  change (String.eqb "diag_e" "diag_e") with true.
  change (String.eqb "diag_e" "dense_e") with false.
  change (String.eqb "# Adaptation terminated" "# Adaptation terminated")
    with true.
  cbn [negb andb orb]. rewrite orb_false_r.
  replace (S (S (S (S lineno)))) with (lineno + 4) by lia.
  replace (S (S (S lineno))) with (lineno + 3) by lia.
  destruct (String.eqb (strip (line_at fp 2)) _); reflexivity.
Qed.

Lemma scan_metric_diag_e_witness :
  let fp := open (Examples.unlines
                    ["# Adaptation terminated";
                     "# Step size = 0.9";
                     "# Diagonal elements of inverse mass matrix:";
                     "# 0.5, 1.5";
                     "-7.0,0.25,0.5"]) in
  scan_metric fp ∅ 3 =
  Ok (seek fp 4,
      <["num_params" := VInt 2]> (<["metric" := VStr "diag_e"]> ∅), 7).
Proof.
  intros fp.
  rewrite (scan_metric_diag_e fp ∅ 3 "# Step size " " 0.9");
    first [reflexivity | left; reflexivity | eexists; reflexivity].
Defined.

End ScanMetricMore.

(** ** The latest installed version *)

Module InstallFacts.
Import PyStr PyNum Install InstallSpec.
Import StrFacts TextFacts MarkerFacts ScanMore.

(** *** The order of the keys *)

Lemma list_lt_asym (a b : list Z) :
  list_lt a b = true -> list_lt b a = false.
Proof.
  revert b. induction a as [|x a IH]; intros [|y b]; simpl; try congruence.
  destruct (x <? y)%Z eqn:E1, (y <? x)%Z eqn:E2; try congruence.
  - apply Z.ltb_lt in E1, E2. lia.
  - apply IH.
Qed.

Lemma list_lt_irrefl (a : list Z) : list_lt a a = false.
Proof.
  destruct (list_lt a a) eqn:E; [|reflexivity].
  rewrite (list_lt_asym _ _ E) in E. discriminate E.
Qed.

Lemma list_lt_trans (a b c : list Z) :
  list_lt a b = true -> list_lt b c = true -> list_lt a c = true.
Proof.
  revert b c. induction a as [|x a IH]; intros [|y b] [|z c]; simpl;
    try congruence.
  destruct (x <? y)%Z eqn:E1, (y <? x)%Z eqn:E2,
           (y <? z)%Z eqn:E3, (z <? y)%Z eqn:E4; try congruence;
    rewrite ?Z.ltb_lt, ?Z.ltb_ge in *; intros H1 H2.
  all: try (rewrite (proj2 (Z.ltb_lt x z)) by lia; reflexivity).
  assert (x = y) by lia. assert (y = z) by lia. subst.
  rewrite Z.ltb_irrefl. eapply IH; eassumption.
Qed.

(** *** The sort *)

Lemma elem_of_insert_by_key (x z : list Z * string)
    (l : list (list Z * string)) :
  z ∈ insert_by_key x l <-> z = x \/ z ∈ l.
Proof.
  induction l as [|y l IH]; simpl.
  - rewrite list_elem_of_singleton, elem_of_nil. tauto.
  - destruct (list_lt x.1 y.1).
    + rewrite elem_of_cons. tauto.
    + rewrite !elem_of_cons, IH. tauto.
Qed.

Lemma length_insert_by_key (x : list Z * string) (l : list (list Z * string)) :
  length (insert_by_key x l) = S (length l).
Proof.
  induction l as [|y l IH]; simpl; [reflexivity|].
  destruct (list_lt x.1 y.1); simpl; [reflexivity|]. rewrite IH. reflexivity.
Qed.

Lemma insert_by_key_sorted (x : list Z * string) (l : list (list Z * string)) :
  sorted_by_key l -> sorted_by_key (insert_by_key x l).
Proof.
  induction l as [|y l IH]; cbn [sorted_by_key insert_by_key].
  - intros _. split; [constructor|exact I].
  - intros [Hy Hs]. destruct (list_lt x.1 y.1) eqn:E.
    + cbn [sorted_by_key]. split; [|split; assumption].
      constructor; [apply list_lt_asym, E|].
      rewrite Forall_forall in *. intros z Hz. specialize (Hy z Hz).
      unfold key_le in *. destruct (list_lt z.1 x.1) eqn:Ez; [|reflexivity].
      rewrite (list_lt_trans _ _ _ Ez E) in Hy. discriminate Hy.
    + cbn [sorted_by_key]. split; [|apply IH, Hs].
      rewrite Forall_forall in *. intros z Hz.
      apply elem_of_insert_by_key in Hz as [->|Hz].
      * exact E.
      * apply Hy, Hz.
Qed.

Lemma foldl_insert_sorted (l acc : list (list Z * string)) :
  sorted_by_key acc ->
  sorted_by_key (foldl (fun acc x => insert_by_key x acc) acc l) /\
  length (foldl (fun acc x => insert_by_key x acc) acc l)
    = length acc + length l /\
  forall z, z ∈ foldl (fun acc x => insert_by_key x acc) acc l
            <-> z ∈ acc \/ z ∈ l.
Proof.
  revert acc. induction l as [|x l IH]; intros acc Hs; cbn [foldl].
  - split; [exact Hs|]. split; [simpl; lia|].
    intros z. rewrite elem_of_nil. tauto.
  - destruct (IH _ (insert_by_key_sorted x acc Hs)) as (H1 & H2 & H3).
    split; [exact H1|]. split.
    + rewrite H2, length_insert_by_key. simpl. lia.
    + intros z. rewrite H3, elem_of_insert_by_key, elem_of_cons. tauto.
Qed.

Lemma sort_by_key_spec (l : list (list Z * string)) :
  sorted_by_key (sort_by_key l) /\
  length (sort_by_key l) = length l /\
  forall z, z ∈ sort_by_key l <-> z ∈ l.
Proof.
  destruct (foldl_insert_sorted l [] I) as (H1 & H2 & H3).
  split; [exact H1|]. split; [exact H2|].
  intros z. unfold sort_by_key. rewrite H3, elem_of_nil. tauto.
Qed.

(** The last item of a sorted list has a key that none exceeds. *)
Lemma sorted_last (l : list (list Z * string)) (m : list Z * string) :
  sorted_by_key l ->
  l !! (length l - 1) = Some m ->
  forall z, z ∈ l -> list_lt m.1 z.1 = false.
Proof.
  induction l as [|y l IH]; [discriminate|].
  cbn [sorted_by_key]. intros [Hy Hs] Hm z Hz. destruct l as [|y' l'].
  - simpl in Hm. injection Hm as <-.
    apply list_elem_of_singleton in Hz as ->. apply list_lt_irrefl.
  - assert (Hm' : (y' :: l') !! (length (y' :: l') - 1) = Some m).
    { cbn [length] in *. rewrite Nat.sub_succ, Nat.sub_0_r in *. exact Hm. }
    apply elem_of_cons in Hz as [->|Hz].
    + rewrite Forall_forall in Hy. apply Hy.
      eapply list_elem_of_lookup_2, Hm'.
    + apply IH; assumption.
Qed.

(** *** Lists through a function that can raise *)

Lemma mapR_zip {A B : Type} (f : A -> result B) (l : list A) (r : list B) :
  mapR f l = Ok r ->
  (forall x y, (y, x) ∈ zip r l -> f x = Ok y) /\
  (forall x, x ∈ l -> exists y, (y, x) ∈ zip r l).
Proof.
  revert r. induction l as [|a l IH]; intros r; simpl.
  - intros H. injection H as <-. split.
    + intros x y Hin. apply elem_of_nil in Hin. destruct Hin.
    + intros x Hin. apply elem_of_nil in Hin. destruct Hin.
  - destruct (f a) as [b|e] eqn:Ea; [|discriminate]. simpl.
    destruct (mapR f l) as [bs|e]; [|discriminate]. simpl.
    intros H. injection H as <-. destruct (IH bs eq_refl) as [H1 H2]. split.
    + intros x y Hin. simpl in Hin. apply elem_of_cons in Hin as [E|Hin].
      * injection E as -> ->. exact Ea.
      * apply H1, Hin.
    + intros x Hin. apply elem_of_cons in Hin as [->|Hin].
      * exists b. simpl. apply list_elem_of_here.
      * destruct (H2 x Hin) as [y Hy]. exists y. simpl.
        apply list_elem_of_further, Hy.
Qed.

Lemma mapR_raises {A B : Type} (f : A -> result B) (l : list A) (x : A) :
  x ∈ l -> raises (f x) -> raises (mapR f l).
Proof.
  intros Hin [e He]. induction l as [|a l IH].
  - apply elem_of_nil in Hin. destruct Hin.
  - simpl. apply elem_of_cons in Hin as [<-|Hin].
    + rewrite He. eexists. reflexivity.
    + destruct (f a); [|eexists; reflexivity]. simpl.
      destruct (IH Hin) as [e' ->]. eexists. reflexivity.
Qed.

Lemma mapR_elem {A B : Type} (f : A -> result B) (l : list A) (r : list B)
    (y : B) :
  mapR f l = Ok r -> y ∈ r -> exists x, x ∈ l /\ f x = Ok y.
Proof.
  revert r. induction l as [|a l IH]; intros r; simpl.
  - intros H. injection H as <-. intros Hin.
    apply elem_of_nil in Hin. destruct Hin.
  - destruct (f a) as [b|e] eqn:Ea; [|discriminate]. simpl.
    destruct (mapR f l) as [bs|e]; [|discriminate]. simpl.
    intros H. injection H as <-. intros Hin.
    apply elem_of_cons in Hin as [->|Hin].
    + exists a. split; [apply list_elem_of_here|exact Ea].
    + destruct (IH bs eq_refl Hin) as (x & Hx & E).
      exists x. split; [apply list_elem_of_further, Hx|exact E].
Qed.

Lemma mapR_ok {A B : Type} (f : A -> result B) (l : list A) :
  (forall x, x ∈ l -> exists y, f x = Ok y) -> exists r, mapR f l = Ok r.
Proof.
  induction l as [|a l IH]; intros H; simpl.
  - eexists. reflexivity.
  - destruct (H a (list_elem_of_here _ _)) as [b ->].
    destruct IH as [bs ->].
    { intros x Hx. apply H, list_elem_of_further, Hx. }
    eexists. reflexivity.
Qed.

Lemma mapR_raised {A B : Type} (f : A -> result B) (l : list A) (e : exn) :
  mapR f l = Raise e -> exists x, x ∈ l /\ f x = Raise e.
Proof.
  induction l as [|a l IH]; simpl; [discriminate|].
  destruct (f a) as [b|e'] eqn:Ea.
  - simpl. destruct (mapR f l) as [bs|e'']; [discriminate|]. simpl.
    intros H. injection H as ->. destruct (IH eq_refl) as (x & Hx & E).
    exists x. split; [apply list_elem_of_further, Hx|exact E].
  - simpl. intros H. injection H as ->.
    exists a. split; [apply list_elem_of_here|exact Ea].
Qed.

Lemma filter_none {A : Type} (f : A -> bool) (l : list A) :
  (forall x, x ∈ l -> f x = false) -> List.filter f l = [].
Proof.
  induction l as [|a l IH]; intros H; simpl; [reflexivity|].
  rewrite (H a (list_elem_of_here _ _)). apply IH.
  intros x Hx. apply H, list_elem_of_further, Hx.
Qed.

Lemma elem_of_filter_bool {A : Type} (f : A -> bool) (l : list A) (x : A) :
  x ∈ List.filter f l <-> x ∈ l /\ f x = true.
Proof. rewrite !list_elem_of_In. apply filter_In. Qed.

(** *** The names considered *)

Lemma prefix_app_inv (p s : string) :
  String.prefix p s = true -> exists t, s = p +:+ t.
Proof.
  revert s. induction p as [|a p IH]; intros s H.
  - exists s. reflexivity.
  - destruct s as [|c s]; [discriminate H|].
    rewrite prefix_String in H. destruct (ascii_dec a c) as [->|]; [|discriminate H].
    destruct (IH s H) as [t ->]. exists t. reflexivity.
Qed.

Lemma split_go_nonempty (sep : string) (s : string) (skip : nat) (cur : string) :
  exists x rest, split_go sep skip cur s = x :: rest.
Proof.
  revert skip cur. induction s as [|c s IH]; intros skip cur.
  - eexists. eexists. reflexivity.
  - cbn [split_go]. destruct skip as [|k]; [|apply IH].
    destruct (String.prefix sep (String c s)); [eexists; eexists; reflexivity|].
    apply IH.
Qed.

(** A name that starts with [cmdstan-] has a second piece. *)
Lemma candidate_split (name : string) :
  startswith "cmdstan-" name = true ->
  exists v rest, split "-" name = "cmdstan" :: v :: rest.
Proof.
  intros H. apply prefix_app_inv in H as [t ->].
  change ("cmdstan-" +:+ t) with ("cmdstan" +:+ String "-" t).
  unfold split. rewrite (split_go_char_app "-" "" "cmdstan" t) by reflexivity.
  destruct (split_go_nonempty "-" t 0 "") as (x & rest & ->).
  exists x, rest. reflexivity.
Qed.

Lemma version_of_candidate (name : string) :
  startswith "cmdstan-" name = true -> exists v, version_of name = Ok v.
Proof.
  intros H. destruct (candidate_split name H) as (v & rest & E).
  exists v. unfold version_of. rewrite E. reflexivity.
Qed.

Lemma version_of_split (name v : string) :
  version_of name = Ok v <-> exists p rest, split "-" name = p :: v :: rest.
Proof.
  unfold version_of. destruct (split "-" name) as [|p [|v' rest]].
  - split; [discriminate|]. intros (p & rest & H). discriminate H.
  - split; [discriminate|]. intros (p' & rest & H). discriminate H.
  - split.
    + intros H. injection H as ->. eauto.
    + intros (p' & rest' & H). injection H as _ -> _. reflexivity.
Qed.

(** The versions collected from the entries are the versions of the
    candidates. *)
Lemma versions_candidates (entries : list (string * bool)) :
  exists versions,
    mapR (fun e => version_of e.1)
         (List.filter (fun e => e.2 && startswith "cmdstan-" e.1) entries)
    = Ok versions /\
    forall v, v ∈ versions <-> candidate entries v.
Proof.
  set (cands := List.filter (fun e => e.2 && startswith "cmdstan-" e.1) entries).
  destruct (mapR_ok (fun e => version_of e.1) cands) as [versions E].
  { intros [name b] Hin. apply elem_of_filter_bool in Hin as [_ H].
    apply andb_true_iff in H as [_ H]. apply version_of_candidate, H. }
  exists versions. split; [exact E|]. intros v. split.
  - intros Hv. destruct (mapR_elem _ _ _ _ E Hv) as ([name b] & Hin & Hx).
    apply elem_of_filter_bool in Hin as [Hin H].
    apply andb_true_iff in H as [Hb Hs]. simpl in Hb, Hs, Hx. subst b.
    apply version_of_split in Hx as (p & rest & Hx).
    exists name, p, rest. auto.
  - intros (name & p & rest & Hin & Hs & Hsp).
    assert (Hc : (name, true) ∈ cands).
    { apply elem_of_filter_bool. split; [exact Hin|]. simpl. exact Hs. }
    destruct (proj2 (mapR_zip _ _ _ E) _ Hc) as [y Hy].
    pose proof (proj1 (mapR_zip _ _ _ E) _ _ Hy) as Hv. simpl in Hv.
    assert (y = v).
    { unfold version_of in Hv. rewrite Hsp in Hv. congruence. }
    subst y. eapply elem_of_zip_l, Hy.
Qed.

End InstallFacts.

(** ** What [get_latest_cmdstan] returns *)

Module LatestVersion.
Import PyStr PyNum Install InstallSpec.
Import StrFacts TextFacts MarkerFacts ScanMore InstallFacts.

Lemma latest_version_unfold (entries : list (string * bool)) :
  exists versions,
    (forall v, v ∈ versions <-> candidate entries v) /\
    latest_version entries =
    do keys <- mapR version_key versions;
    let sorted := map snd (sort_by_key (zip keys versions)) in
    if length sorted =? 0 then Ok None
    else
      match sorted !! (length sorted - 1) with
      | Some v => Ok (Some ("cmdstan-" +:+ v))
      | None => Raise (IndexError "list index out of range")
      end.
Proof.
  destruct (versions_candidates entries) as (versions & E & H).
  exists versions. split; [exact H|].
  unfold latest_version. rewrite E. reflexivity.
Qed.

Lemma length_sorted (keys : list (list Z)) (versions : list string) :
  length keys = length versions ->
  length (map snd (sort_by_key (zip keys versions))) = length versions.
Proof.
  intros H. rewrite length_map.
  destruct (sort_by_key_spec (zip keys versions)) as (_ & -> & _).
  rewrite length_zip_with. lia.
Qed.

(** The result is [None] exactly when no entry is a directory whose
    name starts with [cmdstan-]. *)
Lemma latest_version_none (entries : list (string * bool)) :
  latest_version entries = Ok None <-> forall v, ~ candidate entries v.
Proof.
  destruct (latest_version_unfold entries) as (versions & Hc & ->).
  split.
  - destruct (mapR version_key versions) as [keys|e] eqn:Ek; [|discriminate].
    cbn [bind]. cbv zeta.
    rewrite (length_sorted keys versions (mapR_length _ _ _ Ek)).
    destruct versions as [|v0 versions].
    + intros _ v Hv. apply Hc in Hv. apply elem_of_nil in Hv. exact Hv.
    + cbn [length Nat.eqb].
      destruct (_ !! _); discriminate.
  - intros Hno. destruct versions as [|v0 versions]; [reflexivity|].
    exfalso. apply (Hno v0), Hc, list_elem_of_here.
Qed.

(** The result names the greatest version among the candidates, in the
    order of the lists of numbers. *)
Lemma latest_version_max (entries : list (string * bool)) (latest : string) :
  latest_version entries = Ok (Some latest) ->
  exists v key,
    latest = "cmdstan-" +:+ v /\
    candidate entries v /\
    version_key v = Ok key /\
    forall v' key',
      candidate entries v' -> version_key v' = Ok key' ->
      list_lt key key' = false.
Proof.
  destruct (latest_version_unfold entries) as (versions & Hc & ->).
  destruct (mapR version_key versions) as [keys|e] eqn:Ek; [|discriminate].
  cbn [bind]. cbv zeta.
  destruct (length _ =? 0); [discriminate|].
  rewrite length_map, list_lookup_fmap.
  destruct (sort_by_key_spec (zip keys versions)) as (Hs & Hl & He).
  destruct (sort_by_key (zip keys versions) !! _) as [[key v]|] eqn:El;
    [|discriminate].
  cbn [fmap option_fmap option_map snd]. intros H. injection H as <-.
  pose proof (list_elem_of_lookup_2 _ _ _ El) as Hin. apply He in Hin.
  exists v, key. split; [reflexivity|]. split.
  { apply Hc. eapply elem_of_zip_r, Hin. }
  split.
  { apply (proj1 (mapR_zip _ _ _ Ek) _ _ Hin). }
  intros v' key' Hv' Hk'. apply Hc in Hv'.
  destruct (proj2 (mapR_zip _ _ _ Ek) _ Hv') as [y Hy].
  pose proof (proj1 (mapR_zip _ _ _ Ek) _ _ Hy) as Hy'.
  rewrite Hk' in Hy'. injection Hy' as <-.
  apply (sorted_last _ (key, v) Hs El (key', v')). apply He, Hy.
Qed.

Lemma py_int_raises (s : string) (e : exn) :
  py_int s = Raise e ->
  e = ValueError "invalid literal for int() with base 10".
Proof.
  unfold py_int. destruct (int_of_string s); [discriminate|].
  intros H. injection H as <-. reflexivity.
Qed.

Lemma latest_version_bad (entries : list (string * bool)) (v : string) :
  candidate entries v -> raises (version_key v) ->
  latest_version entries =
  Raise (ValueError "invalid literal for int() with base 10").
Proof.
  intros Hv Hr.
  destruct (latest_version_unfold entries) as (versions & Hc & ->).
  apply Hc in Hv.
  destruct (mapR_raises version_key versions v Hv Hr) as [e E].
  rewrite E. cbn [bind].
  apply mapR_raised in E as (x & _ & E). unfold version_key in E.
  apply mapR_raised in E as (y & _ & E).
  rewrite (py_int_raises _ _ E). reflexivity.
Qed.

(** X22. [get_latest_cmdstan] returns [None] exactly when the directory
    holds no directory whose name starts with [cmdstan-]. *)
Theorem get_latest_cmdstan_none (w : os) (dot_dir : string)
    (names : list string) :
  listdir w dot_dir = Some names ->
  (get_latest_cmdstan w dot_dir = Some (Ok None) <->
   forall name,
     name ∈ names ->
     isdir w (path_join dot_dir name) && startswith "cmdstan-" name = false).
Proof.
  intros Hl. unfold get_latest_cmdstan. rewrite Hl. split.
  - intros H. injection H as H. intros name Hin.
    destruct (isdir w (path_join dot_dir name)) eqn:Ed; [|reflexivity].
    destruct (startswith "cmdstan-" name) eqn:Es; [|reflexivity].
    exfalso. destruct (candidate_split name Es) as (v & rest & Hsp).
    apply (proj1 (latest_version_none _) H v).
    exists name, "cmdstan", rest. split; [|auto].
    unfold dir_entries. rewrite <- Ed.
    apply (list_elem_of_fmap_2
             (fun name => (name, isdir w (path_join dot_dir name)))), Hin.
  - intros H. f_equal. apply latest_version_none.
    intros v (name & p & rest & Hin & Hs & _).
    unfold dir_entries in Hin.
    apply (list_elem_of_fmap_1
             (fun name => (name, isdir w (path_join dot_dir name)))) in Hin
      as (name' & E & Hin).
    injection E as <- Ed. specialize (H name Hin).
    rewrite <- Ed, Hs in H. discriminate H.
Qed.

Lemma get_latest_cmdstan_none_witness :
  let w := {| environ := ∅; isdir := fun p => String.eqb p "/h/.cmdstanpy";
              path_exists := fun _ => true;
              listdir := fun _ => Some ["cmdstan-2.19.1"; "notes"];
              expanduser := fun p => p |} in
  listdir w "/h/.cmdstanpy" = Some ["cmdstan-2.19.1"; "notes"] /\
  get_latest_cmdstan w "/h/.cmdstanpy" = Some (Ok None).
Proof.
  intros w. split; [reflexivity|].
  apply (get_latest_cmdstan_none w "/h/.cmdstanpy"
           ["cmdstan-2.19.1"; "notes"] eq_refl).
  intros name Hin. rewrite !elem_of_cons, elem_of_nil in Hin.
  destruct Hin as [->|[->|[]]]; reflexivity.
Defined.

(** X23. The name [get_latest_cmdstan] returns is [cmdstan-] and the version
    of one of the directories it considers, and no other of them has a
    greater version: versions are compared as lists of numbers, so that
    2.10 is later than 2.9. *)
Theorem get_latest_cmdstan_greatest (w : os) (dot_dir : string)
    (names : list string) (latest : string) :
  listdir w dot_dir = Some names ->
  get_latest_cmdstan w dot_dir = Some (Ok (Some latest)) ->
  exists v key,
    latest = "cmdstan-" +:+ v /\
    candidate (dir_entries w dot_dir names) v /\
    version_key v = Ok key /\
    forall v' key',
      candidate (dir_entries w dot_dir names) v' ->
      version_key v' = Ok key' ->
      list_lt key key' = false.
Proof.
  intros Hl. unfold get_latest_cmdstan. rewrite Hl. intros H.
  injection H as H. apply latest_version_max, H.
Qed.

Lemma get_latest_cmdstan_greatest_witness :
  let w := {| environ := ∅; isdir := fun _ => true;
              path_exists := fun _ => true;
              listdir := fun _ => Some ["cmdstan-2.9.0"; "cmdstan-2.10.0"];
              expanduser := fun p => p |} in
  get_latest_cmdstan w "/h/.cmdstanpy" = Some (Ok (Some "cmdstan-2.10.0")) /\
  exists v key,
    "cmdstan-2.10.0" = "cmdstan-" +:+ v /\ version_key v = Ok key.
Proof.
  intros w.
  assert (H : get_latest_cmdstan w "/h/.cmdstanpy"
              = Some (Ok (Some "cmdstan-2.10.0"))) by (vm_compute; reflexivity).
  split; [exact H|].
  destruct (get_latest_cmdstan_greatest w "/h/.cmdstanpy"
              ["cmdstan-2.9.0"; "cmdstan-2.10.0"] _ eq_refl H)
    as (v & key & E & _ & Hk & _).
  exists v, key. auto.
Defined.

(** X24. One directory whose version is not made of numbers is enough for
    [get_latest_cmdstan] to raise [ValueError], whatever else the
    directory holds. *)
Theorem get_latest_cmdstan_bad_version (w : os) (dot_dir : string)
    (names : list string) (v : string) :
  listdir w dot_dir = Some names ->
  candidate (dir_entries w dot_dir names) v ->
  raises (version_key v) ->
  exists msg, get_latest_cmdstan w dot_dir = Some (Raise (ValueError msg)).
Proof.
  intros Hl Hv Hr. eexists. unfold get_latest_cmdstan. rewrite Hl. f_equal.
  apply (latest_version_bad _ v Hv Hr).
Qed.

Lemma get_latest_cmdstan_bad_version_witness :
  let w := {| environ := ∅; isdir := fun _ => true;
              path_exists := fun _ => true;
              listdir := fun _ => Some ["cmdstan-2.19.1"; "cmdstan-develop"];
              expanduser := fun p => p |} in
  exists msg,
    get_latest_cmdstan w "/h/.cmdstanpy" = Some (Raise (ValueError msg)).
Proof.
  intros w.
  apply (get_latest_cmdstan_bad_version w "/h/.cmdstanpy"
           ["cmdstan-2.19.1"; "cmdstan-develop"] "develop" eq_refl).
  - exists "cmdstan-develop", "cmdstan", []. split; [|split; reflexivity].
    apply list_elem_of_further, list_elem_of_here.
  - eexists. reflexivity.
Defined.

End LatestVersion.

(** ** The path of the installation *)

Module CmdStanPath.
Import PyStr PyNum Install InstallSpec.
Import StrFacts TextFacts MarkerFacts ScanMore InstallFacts LatestVersion.

Lemma version_of_suffixed (v suffix : string) :
  all_chars (fun c => negb (Ascii.eqb c "-")) v = true ->
  version_of ("cmdstan-" +:+ v +:+ "-" +:+ suffix) = Ok v.
Proof.
  intros Hv. unfold version_of, split.
  change ("cmdstan-" +:+ v +:+ "-" +:+ suffix)
    with ("cmdstan" +:+ String "-" (v +:+ String "-" suffix)).
  rewrite (split_go_char_app "-" "" "cmdstan") by reflexivity.
  rewrite (split_go_char_app "-" "" v suffix Hv). reflexivity.
Qed.

Lemma latest_version_suffixed (v suffix : string) (key : list Z) :
  all_chars (fun c => negb (Ascii.eqb c "-")) v = true ->
  version_key v = Ok key ->
  latest_version [("cmdstan-" +:+ v +:+ "-" +:+ suffix, true)]
  = Ok (Some ("cmdstan-" +:+ v)).
Proof.
  intros Hv Hk. unfold latest_version. cbn [List.filter fst snd andb].
  assert (Hs : startswith "cmdstan-" ("cmdstan-" +:+ v +:+ "-" +:+ suffix)
               = true) by apply prefix_app.
  rewrite Hs. cbn [mapR fst]. rewrite (version_of_suffixed v suffix Hv).
  cbn [bind mapR]. rewrite Hk. reflexivity.
Qed.

(** X25. The name returned need not be the name of a directory: of the name
    of a release candidate, [cmdstan-<version>-<suffix>], only
    [cmdstan-<version>] is returned. *)
Theorem get_latest_cmdstan_drops_suffix (w : os) (dot_dir : string)
    (v suffix : string) (key : list Z) :
  listdir w dot_dir = Some ["cmdstan-" +:+ v +:+ "-" +:+ suffix] ->
  isdir w (path_join dot_dir ("cmdstan-" +:+ v +:+ "-" +:+ suffix)) = true ->
  all_chars (fun c => negb (Ascii.eqb c "-")) v = true ->
  version_key v = Ok key ->
  get_latest_cmdstan w dot_dir = Some (Ok (Some ("cmdstan-" +:+ v))) /\
  "cmdstan-" +:+ v <> "cmdstan-" +:+ v +:+ "-" +:+ suffix.
Proof.
  intros Hl Hd Hv Hk. split.
  - unfold get_latest_cmdstan. rewrite Hl. unfold dir_entries. cbn [map].
    rewrite Hd, (latest_version_suffixed v suffix key Hv Hk). reflexivity.
  - intros E. apply (f_equal String.length) in E.
    rewrite !length_app in E. simpl in E. lia.
Qed.

Lemma get_latest_cmdstan_drops_suffix_witness :
  let w := {| environ := ∅; isdir := fun _ => true;
              path_exists := fun _ => true;
              listdir := fun _ => Some ["cmdstan-2.24.0-rc1"];
              expanduser := fun p => p |} in
  get_latest_cmdstan w "/h/.cmdstanpy" = Some (Ok (Some "cmdstan-2.24.0")).
Proof.
  intros w.
  apply (get_latest_cmdstan_drops_suffix w "/h/.cmdstanpy" "2.24.0" "rc1"
           [2; 24; 0]%Z); reflexivity.
Defined.

(** X26. After [set_cmdstan_path] has accepted a path, [cmdstan_path] returns
    that path; the installations under the home directory are not
    looked at. *)
Theorem set_cmdstan_path_cmdstan_path (w w' : os) (path : string) :
  set_cmdstan_path w path = Ok w' -> cmdstan_path w' = Some (Ok path).
Proof.
  unfold set_cmdstan_path.
  destruct (validate_cmdstan_path w path) as [[]|e] eqn:Ev; [|discriminate].
  cbn [bind]. intros H. injection H as <-.
  unfold cmdstan_path. cbn [environ]. rewrite lookup_insert_eq.
  unfold validate_cmdstan_path in *. cbn [isdir path_exists].
  destruct (negb (isdir w path)); [discriminate Ev|].
  destruct (negb (path_exists w _)); [discriminate Ev|]. reflexivity.
Qed.

Lemma set_cmdstan_path_cmdstan_path_witness :
  let w := {| environ := ∅; isdir := fun p => String.eqb p "/opt/cmdstan";
              path_exists := fun p => String.eqb p "/opt/cmdstan/bin/stanc";
              listdir := fun _ => None;
              expanduser := fun p => p |} in
  exists w', set_cmdstan_path w "/opt/cmdstan" = Ok w' /\
             cmdstan_path w' = Some (Ok "/opt/cmdstan").
Proof.
  intros w. eexists. split; [reflexivity|].
  apply (set_cmdstan_path_cmdstan_path w _ "/opt/cmdstan"). reflexivity.
Defined.

(** X27. [cmdstan_path] returns validated paths only: a directory that
    holds [bin/stanc]. *)
Theorem cmdstan_path_validated (w : os) (path : string) :
  cmdstan_path w = Some (Ok path) ->
  isdir w path = true /\
  path_exists w (path_join (path_join path "bin") "stanc") = true.
Proof.
  assert (Hv : forall p,
             (do _ <- validate_cmdstan_path w p; Ok p) = Ok path ->
             isdir w path = true /\
             path_exists w (path_join (path_join path "bin") "stanc") = true).
  { intros p. unfold validate_cmdstan_path.
    destruct (isdir w p) eqn:E1; [|discriminate]. cbn [negb].
    destruct (path_exists w _) eqn:E2; [|discriminate]. cbn [negb bind].
    intros H. injection H as <-. auto. }
  unfold cmdstan_path. destruct (environ w !! "CMDSTAN") as [p|].
  - intros H. injection H as H. apply (Hv p H).
  - cbv zeta. destruct (negb _); [discriminate|].
    destruct (get_latest_cmdstan w _) as [[[latest|]|e]|]; try discriminate.
    intros H. injection H as H. apply (Hv _ H).
Qed.

Lemma cmdstan_path_validated_witness :
  let w := {| environ := {[ "CMDSTAN" := "/opt/cmdstan" ]};
              isdir := fun p => String.eqb p "/opt/cmdstan";
              path_exists := fun p => String.eqb p "/opt/cmdstan/bin/stanc";
              listdir := fun _ => None;
              expanduser := fun p => p |} in
  cmdstan_path w = Some (Ok "/opt/cmdstan") /\
  isdir w "/opt/cmdstan" = true.
Proof.
  intros w.
  assert (H : cmdstan_path w = Some (Ok "/opt/cmdstan")) by reflexivity.
  split; [exact H|]. apply (cmdstan_path_validated w _ H).
Defined.

(** X28. When [CMDSTAN] is not set and the only installation is a release
    candidate, [cmdstan_path] looks for the directory without the
    suffix and, unless that exists too, finds no installation. *)
Theorem cmdstan_path_release_candidate (w : os) (v suffix : string)
    (key : list Z) :
  let cmdstan_dir := expanduser w "~/.cmdstanpy" in
  environ w !! "CMDSTAN" = None ->
  path_exists w cmdstan_dir = true ->
  listdir w cmdstan_dir = Some ["cmdstan-" +:+ v +:+ "-" +:+ suffix] ->
  isdir w (path_join cmdstan_dir ("cmdstan-" +:+ v +:+ "-" +:+ suffix)) = true ->
  all_chars (fun c => negb (Ascii.eqb c "-")) v = true ->
  version_key v = Ok key ->
  isdir w (path_join cmdstan_dir ("cmdstan-" +:+ v)) = false ->
  cmdstan_path w =
  Some (Raise (ValueError ("no such CmdStan directory " +:+
                           path_join cmdstan_dir ("cmdstan-" +:+ v)))).
Proof.
  intros cmdstan_dir He Hx Hl Hd Hv Hk Hn. unfold cmdstan_path. rewrite He.
  change (path_join "~" ".cmdstanpy") with "~/.cmdstanpy".
  fold cmdstan_dir. cbv zeta. rewrite Hx. cbn [negb].
  unfold get_latest_cmdstan. rewrite Hl. unfold dir_entries. cbn [map].
  rewrite Hd, (latest_version_suffixed v suffix key Hv Hk).
  unfold validate_cmdstan_path. rewrite Hn. reflexivity.
Qed.

Lemma cmdstan_path_release_candidate_witness :
  let w := {| environ := ∅;
              isdir := fun p => String.eqb p "/h/.cmdstanpy/cmdstan-2.24.0-rc1";
              path_exists := fun _ => true;
              listdir := fun _ => Some ["cmdstan-2.24.0-rc1"];
              expanduser := fun _ => "/h/.cmdstanpy" |} in
  cmdstan_path w =
  Some (Raise (ValueError
                 "no such CmdStan directory /h/.cmdstanpy/cmdstan-2.24.0")).
Proof.
  intros w.
  apply (cmdstan_path_release_candidate w "2.24.0" "rc1" [2; 24; 0]%Z);
    reflexivity.
Defined.

End CmdStanPath.

(** ** Scalars the decoder does not read *)

Module ScalarEdges.
Import PyStr PyNum Numpy Rdump CodecSpec RoundTripSpec.
Import StrFacts TextFacts MarkerFacts NumFacts PieceFacts LineFacts RoundTrip.
Import FloatText RloadFacts RloadLines.

Lemma parse_not_finite (f : pyfloat) :
  is_finite f = false ->
  all_chars (fun c => negb (Ascii.eqb c nl)) (str_float f) = true /\
  all_chars (fun c => negb (Ascii.eqb c "<")) (str_float f) = true /\
  strip (str_float f) = str_float f /\
  replace "L" "" (str_float f) = str_float f /\
  parse_rdump_value (str_float f) =
  Raise (ValueError "invalid literal for int() with base 10").
Proof.
  destruct f as [neg m e|[]|]; [discriminate| | |]; intros _;
    repeat split; vm_compute; reflexivity.
Qed.

(** X29. A scalar infinity or NaN is written as [inf], [-inf] or [nan], a
    text without a point and without an [e], which the decoder takes
    for an integer: [rload] raises [ValueError] on what [rdump] wrote. *)
Theorem rdump_rload_not_finite (key : string) (f : pyfloat) :
  plain_key key = true ->
  is_finite f = false ->
  exists text msg,
    rdump [(key, PNum (NFloat f))] = Ok text /\
    rload text = Raise (ValueError msg).
Proof.
  intros Hk Hf. destruct (plain_key_facts key Hk) as (Hk1 & Hk2 & Hk3 & Hk4).
  destruct (parse_not_finite f Hf) as (Hnl & Hlt & Hs & HL & Hp).
  exists ((key +:+ " <- " +:+ str_float f) +:+ String nl "").
  eexists. split; [reflexivity|].
  assert (Hline : all_chars (fun c => negb (Ascii.eqb c nl))
                    (key +:+ " <- " +:+ str_float f) = true).
  { rewrite !all_chars_app, Hk3, Hnl. reflexivity. }
  rewrite rload_one_line; [|exact Hline|].
  2:{ apply contains_app_r. reflexivity. }
  rewrite rload_store_one by exact Hline.
  rewrite split_statement by assumption.
  cbn [map]. rewrite strip_snoc_space by exact Hk4.
  rewrite strip_cons_space, Hs, HL, Hp. reflexivity.
Qed.

Lemma rdump_rload_not_finite_witness :
  exists text msg,
    rdump [("tau", PNum (NFloat (FInf false)))] = Ok text /\
    rload text = Raise (ValueError msg).
Proof.
  apply (rdump_rload_not_finite "tau" (FInf false)); reflexivity.
Defined.

(** *** An exponent written with a capital letter *)

Lemma digit_head_plain (c : ascii) (s : string) :
  is_digit c = true ->
  startswith "structure" (String c s) = false /\
  startswith "c(" (String c s) = false /\
  isspace c = false.
Proof. unfold startswith. revert s. by_char c. Qed.

Lemma no_point_upper (s : string) :
  all_chars (fun c => is_digit c || Ascii.eqb c "E") s = true ->
  contains "." s || contains "e" s = false.
Proof.
  induction s as [|c s IH]; [reflexivity|]. simpl all_chars. intros H.
  apply andb_true_iff in H as [H1 H2].
  rewrite !contains_String, !prefix_char.
  specialize (IH H2). apply orb_false_iff in IH as [-> ->].
  revert H1. clear. by_char c.
Qed.

Lemma digits_not_space (s : string) :
  all_chars is_digit s = true ->
  all_chars (fun c => negb (isspace c)) s = true.
Proof.
  apply all_chars_impl. intros c H.
  apply digit_is_num_char, num_char_not in H as (-> & _). reflexivity.
Qed.

(** X30. A number with a capital [E] for its exponent is a float for Python
    but not for the decoder, which looks for a small [e] and otherwise
    reads an integer. *)
Theorem parse_rdump_value_capital_exponent (a b : string) :
  a <> "" -> all_chars is_digit a = true ->
  b <> "" -> all_chars is_digit b = true ->
  (exists msg, parse_rdump_value (a +:+ "E" +:+ b) = Raise (ValueError msg)) /\
  float_of_string (a +:+ "E" +:+ b) =
    Some (fnorm false (digits_value a 0) (Z.of_N (digits_value b 0))).
Proof.
  intros Ha Hda Hb Hdb.
  assert (Hsp : strip (a +:+ "E" +:+ b) = a +:+ "E" +:+ b).
  { apply strip_none. rewrite !all_chars_app.
    rewrite (digits_not_space a Hda), (digits_not_space b Hdb). reflexivity. }
  assert (Hdp : digitpart (a +:+ "E" +:+ b)
                = Some (digits_value a 0, String.length a, String "E" b)).
  { apply digitpart_digits; [exact Ha|exact Hda|reflexivity]. }
  assert (Hdb' : digitpart b = Some (digits_value b 0, String.length b, "")).
  { rewrite <- (app_nil_r b) at 1.
    apply digitpart_digits; [exact Hb|exact Hdb|reflexivity]. }
  destruct a as [|c a]; [congruence|]. destruct b as [|c' b]; [congruence|].
  pose proof Hda as Hc. cbn [all_chars] in Hc.
  apply andb_true_iff in Hc as [Hc _].
  pose proof Hdb as Hc'. cbn [all_chars] in Hc'.
  apply andb_true_iff in Hc' as [Hc' _].
  set (t := a +:+ "E" +:+ String c' b) in *.
  change (String c a +:+ "E" +:+ String c' b) with (String c t) in *.
  destruct (digit_head_plain c t Hc) as (Hs1 & Hs2 & _).
  assert (Hnp : contains "." (String c t) || contains "e" (String c t) = false).
  { change (String c t) with (String c a +:+ "E" +:+ String c' b).
    apply no_point_upper. rewrite !all_chars_app.
    rewrite (all_chars_impl is_digit _ (String c a)
               (fun x Hx => eq_trans (f_equal (fun y => y || _) Hx)
                                     eq_refl) Hda).
    rewrite (all_chars_impl is_digit _ (String c' b)
               (fun x Hx => eq_trans (f_equal (fun y => y || _) Hx)
                                     eq_refl) Hdb).
    reflexivity. }
  split.
  - eexists. unfold parse_rdump_value. rewrite Hs1, Hs2. cbn [andb].
    rewrite Hnp.
    unfold py_int, int_of_string.
    rewrite Hsp, (take_sign_digit _ _ Hc), Hdp. reflexivity.
  - unfold float_of_string. rewrite Hsp, (take_sign_digit _ _ Hc).
    destruct (lower_digit_not_word c t Hc) as [H1 H2].
    cbv zeta. rewrite H1, H2. unfold float_body. rewrite Hdp. cbv iota.
    unfold take_exponent.
    change (Ascii.eqb (lower_char "E") "e") with true. cbv iota.
    rewrite (take_sign_digit _ _ Hc'), Hdb'. reflexivity.
Qed.

Lemma parse_rdump_value_capital_exponent_witness :
  (exists msg, parse_rdump_value "1E5" = Raise (ValueError msg)) /\
  float_of_string "1E5" = Some (FFin false 1 5).
Proof.
  apply (parse_rdump_value_capital_exponent "1" "5");
    first [discriminate | reflexivity].
Defined.

End ScalarEdges.
